(** * University admissions chatbot: context assembly and prompt compression

  A shallow embedding of the Python backend (utils.py, ingest.py,
  scaledown.py, app.py, gemini_client.py) and the properties of its
  specification.

  Conventions of the embedding
  - A Python [str] is a [string]; a character is an [ascii], standing for
    the code point of the same number (code points below 256).
  - A value parsed from JSON is a [pyval]; operations that Python checks
    at run time ([.get], [>], [len], [/]) return an exception or a value.
  - A float is the rational number it denotes; the division of integers
    rounds as IEEE 754 binary64 does.
  - Everything the outside world decides (the HTTP reply, the directory
    listing, the decoders, the clock, the stored files) is an explicit
    argument, so each function of the source is a total Rocq function.
  - Logging is not modelled: it has no effect on any returned value. *)

From Stdlib Require Import Bool Arith ZArith List Ascii String Lia.
From Stdlib Require Import QArith Qpower Qabs Qfield Lqa.
From Stdlib Require Import DecimalString Permutation.
Import ListNotations.

Set Warnings "-register-all".
Close Scope Q_scope.
Local Open Scope nat_scope.
Local Open Scope list_scope.
Local Open Scope string_scope.

(* ====================================================================== *)
(** ** Python strings *)

Module PyStr.

(** The line feed, written "\n" in the source. *)
Definition nl : string := String (ascii_of_nat 10) EmptyString.

(** The NUL character, written '\x00' in the source. *)
Definition nul : ascii := ascii_of_nat 0.

(** [str.isspace] on one character, for code points below 256:
    \t \n \v \f \r, the separators 0x1c-0x1f, the space, NEL (0x85) and
    the no-break space (0xa0). *)
Definition isspace (c : ascii) : bool :=
  let n := nat_of_ascii c in
  (((9 <=? n) && (n <=? 13)) || ((28 <=? n) && (n <=? 32))
   || (n =? 133) || (n =? 160))%nat.

(** Truth value of a string: [bool(s)]. *)
Definition truthy (s : string) : bool :=
  match s with EmptyString => false | String _ _ => true end.

(** [sep.join(parts)]. *)
Fixpoint join (sep : string) (parts : list string) : string :=
  match parts with
  | [] => ""
  | [x] => x
  | x :: rest => x ++ sep ++ join sep rest
  end.

Definition flush (cur : string) : list string :=
  if truthy cur then [cur] else [].

(** [s.split()] with no argument: the maximal runs of characters that are
    not whitespace.  [cur] is the run being read. *)
Fixpoint split_from (cur s : string) : list string :=
  match s with
  | EmptyString => flush cur
  | String c s' =>
      if isspace c then flush cur ++ split_from "" s'
      else split_from (cur ++ String c "") s'
  end.

Definition split (s : string) : list string := split_from "" s.

(** [s.replace(c, '')] for a one-character [c]. *)
Fixpoint remove_char (c : ascii) (s : string) : string :=
  match s with
  | EmptyString => ""
  | String a s' =>
      if Ascii.eqb a c then remove_char c s' else String a (remove_char c s')
  end.

Fixpoint lstrip (s : string) : string :=
  match s with
  | EmptyString => ""
  | String c s' => if isspace c then lstrip s' else s
  end.

Fixpoint rstrip (s : string) : string :=
  match s with
  | EmptyString => ""
  | String c s' =>
      let r := rstrip s' in
      if isspace c && negb (truthy r) then "" else String c r
  end.

(** [s.strip()]. *)
Definition strip (s : string) : string := rstrip (lstrip s).

(** [s.lower()] on the ASCII letters. *)
Definition lower_char (c : ascii) : ascii :=
  let n := nat_of_ascii c in
  if ((65 <=? n) && (n <=? 90))%nat then ascii_of_nat (n + 32) else c.

Fixpoint lower (s : string) : string :=
  match s with
  | EmptyString => ""
  | String c s' => String (lower_char c) (lower s')
  end.

(** [s.startswith(p)]. *)
Fixpoint startswith (p s : string) : bool :=
  match p, s with
  | EmptyString, _ => true
  | String a p', String b s' => Ascii.eqb a b && startswith p' s'
  | String _ _, EmptyString => false
  end.

(** [h in s]: [h] occurs in [s] as a contiguous substring. *)
Fixpoint contains (h s : string) : bool :=
  startswith h s
  || match s with
     | EmptyString => false
     | String _ s' => contains h s'
     end.

(** [str(n)] for an integer. *)
Definition str_of_Z (n : Z) : string := NilZero.string_of_int (Z.to_int n).

End PyStr.

(* ====================================================================== *)
(** ** Python values and exceptions *)

Module Py.
Import PyStr.

(** A value as [json.load] builds it.  A dict is insertion ordered: an
    association list whose keys are pairwise distinct.  Numbers are the
    integers; numbers with a fraction are not modelled. *)
Inductive pyval : Type :=
| PNone
| PBool (b : bool)
| PInt (n : Z)
| PStr (s : string)
| PList (items : list pyval)
| PDict (entries : list (string * pyval)).

(** The exception classes the source tells apart, each with its message
    [str(e)].  [Timeout] and [HTTPError] are subclasses of
    [RequestException]; an [HTTPError] also carries the status code and the
    text of its response.  [JSONDecodeError] is [json.JSONDecodeError], as
    [json.load] raises it.  [RequestsJSONDecodeError] is the
    [JSONDecodeError] of requests, which [response.json()] raises on a body
    that is not JSON since requests 2.27 (older versions raise the plain
    [JSONDecodeError]): it is a subclass of [RequestException] and of
    [json.JSONDecodeError].  Every other exception ([TypeError],
    [AttributeError], [KeyError], [OSError], [OverflowError], ...) is an
    [OtherException]. *)
Inductive exn : Type :=
| Timeout (msg : string)
| HTTPError (msg : string) (status_code : Z) (text : string)
| RequestException (msg : string)
| RequestsJSONDecodeError (msg : string)
| JSONDecodeError (msg : string)
| OtherException (msg : string).

(** [str(e)]. *)
Definition str_of_exn (e : exn) : string :=
  match e with
  | Timeout m | HTTPError m _ _ | RequestException m
  | RequestsJSONDecodeError m | JSONDecodeError m | OtherException m => m
  end.

Inductive res (A : Type) : Type :=
| Ok (a : A)
| Raise (e : exn).
Arguments Ok {A} a.
Arguments Raise {A} e.

Definition type_name (v : pyval) : string :=
  match v with
  | PNone => "NoneType"
  | PBool _ => "bool"
  | PInt _ => "int"
  | PStr _ => "str"
  | PList _ => "list"
  | PDict _ => "dict"
  end.

(** [bool(v)]. *)
Definition truth (v : pyval) : bool :=
  match v with
  | PNone => false
  | PBool b => b
  | PInt n => negb (n =? 0)%Z
  | PStr s => truthy s
  | PList items => match items with [] => false | _ => true end
  | PDict entries => match entries with [] => false | _ => true end
  end.

(** Insertion-ordered dictionaries. *)
Fixpoint dict_get {V : Type} (k : string) (d : list (string * V)) : option V :=
  match d with
  | [] => None
  | (k', v) :: rest => if String.eqb k' k then Some v else dict_get k rest
  end.

(** [d[k] = v]: an existing key keeps its place, a new key goes last. *)
Fixpoint dict_set {V : Type} (k : string) (v : V) (d : list (string * V))
  : list (string * V) :=
  match d with
  | [] => [(k, v)]
  | (k', v') :: rest =>
      if String.eqb k' k then (k', v) :: rest else (k', v') :: dict_set k v rest
  end.

(** [v.get(k, default)]. *)
Definition get (v : pyval) (k : string) (default : pyval) : res pyval :=
  match v with
  | PDict entries =>
      Ok (match dict_get k entries with Some x => x | None => default end)
  | _ => Raise (OtherException
                  ("'" ++ type_name v ++ "' object has no attribute 'get'"))
  end.

(** The integer a value counts as in arithmetic ([bool] is a subclass of
    [int]). *)
Definition as_int (v : pyval) : option Z :=
  match v with
  | PInt n => Some n
  | PBool b => Some (if b then 1 else 0)%Z
  | _ => None
  end.

(** [v > 0]. *)
Definition gt0 (v : pyval) : res bool :=
  match as_int v with
  | Some n => Ok (0 <? n)%Z
  | None => Raise (OtherException
                     ("'>' not supported between instances of '"
                      ++ type_name v ++ "' and 'int'"))
  end.

(** [a - b]. *)
Definition sub (a b : pyval) : res Z :=
  match as_int a, as_int b with
  | Some x, Some y => Ok (x - y)%Z
  | _, _ => Raise (OtherException
                     ("unsupported operand type(s) for -: '" ++ type_name a
                      ++ "' and '" ++ type_name b ++ "'"))
  end.

(** *** Floats

    A Python [float] is an IEEE 754 binary64 number: 53 significant bits,
    exponents up to 1023, subnormal numbers down to [2^-1074].  A finite
    float is modelled by the rational number it denotes, in lowest terms. *)

(** The integer nearest to [n / d], for [0 < d], a tie going to the even
    one. *)
Definition round_half_even (n d : Z) : Z :=
  let q := (n / d)%Z in
  match (2 * (n mod d) ?= d)%Z with
  | Lt => q
  | Gt => (q + 1)%Z
  | Eq => if Z.even q then q else (q + 1)%Z
  end.

(** For [0 < a] and [0 < b], the [k] with [2^k <= a / b < 2^(k+1)]. *)
Definition floor_log2_quotient (a b : Z) : Z :=
  let k := (Z.log2 a - Z.log2 b)%Z in
  if (a * 2 ^ Z.max 0 (- k) <? b * 2 ^ Z.max 0 k)%Z then (k - 1)%Z else k.

(** [a / b] on two integers: the float nearest to the exact quotient, a
    tie going to the even significand.  The quotient is rounded to a
    multiple of [2^e], where [e] leaves 53 bits and is at least -1074.
    Python raises [ZeroDivisionError] for [b = 0] and [OverflowError] when
    the rounded quotient reaches [2^1024]. *)
Definition true_divide (a b : Z) : res Q :=
  if (b =? 0)%Z then Raise (OtherException "division by zero")
  else if (a =? 0)%Z then Ok 0%Q
  else
    let x := Z.abs a in
    let y := Z.abs b in
    let e := Z.max (floor_log2_quotient x y - 52) (-1074) in
    let m := round_half_even (x * 2 ^ Z.max 0 (- e)) (y * 2 ^ Z.max 0 e) in
    if (2 ^ 1024 <=? m * 2 ^ Z.max 0 e)%Z then
      Raise (OtherException "integer division result too large for a float")
    else
      Ok (Qred (inject_Z (Z.sgn a * Z.sgn b * m * 2 ^ Z.max 0 e)
                / inject_Z (2 ^ Z.max 0 (- e)))).
Arguments true_divide : simpl never.

(** [len(v)]. *)
Definition len (v : pyval) : res nat :=
  match v with
  | PStr s => Ok (String.length s)
  | PList items => Ok (List.length items)
  | PDict entries => Ok (List.length entries)
  | _ => Raise (OtherException
                  ("object of type '" ++ type_name v ++ "' has no len()"))
  end.

Definition is_str (k : string) (v : pyval) : bool :=
  match v with PStr s => String.eqb s k | _ => false end.

(** [k in v] for a string [k]. *)
Definition has (k : string) (v : pyval) : res bool :=
  match v with
  | PDict entries =>
      Ok (match dict_get k entries with Some _ => true | None => false end)
  | PList items => Ok (existsb (is_str k) items)
  | PStr s => Ok (contains k s)
  | _ => Raise (OtherException
                  ("argument of type '" ++ type_name v ++ "' is not iterable"))
  end.

(** [v[k]] for a string [k]. *)
Definition getitem (v : pyval) (k : string) : res pyval :=
  match v with
  | PDict entries =>
      match dict_get k entries with
      | Some x => Ok x
      | None => Raise (OtherException ("'" ++ k ++ "'"))
      end
  | PList _ => Raise (OtherException
                        "list indices must be integers or slices, not str")
  | PStr _ => Raise (OtherException "string indices must be integers, not 'str'")
  | _ => Raise (OtherException
                  ("'" ++ type_name v ++ "' object is not subscriptable"))
  end.

End Py.

(* ====================================================================== *)
(** ** utils.py *)

Module Utils.
Import PyStr Py.

(** [sanitize_text(text)]: collapse whitespace, then remove NUL
    characters, then strip. *)
Definition sanitize_text (text : string) : string :=
  if negb (truthy text) then ""
  else
    let text := join " " (split text) in
    let text := remove_char nul text in
    strip text.

(** *** The JSON disk cache *)

(** What the storage holds under a path.  The text of a file is not
    modelled: [JsonText v] is a readable file that [json.load] parses to
    [v] (so [json.load] undoes [json.dump]); [Unreadable] is anything
    [open] or [json.load] raises on: a directory, a file without read
    permission, text that is not JSON. *)
Inductive file : Type :=
| JsonText (v : pyval)
| Unreadable.

Definition storage : Type := string -> option file.

Definition write (fs : storage) (path : string) (f : file) : storage :=
  fun p => if String.eqb p path then Some f else fs p.

(** A [datetime] object.  An instant is a number of microseconds.
    [datetime.now()] is naive: it has no time zone.  A string with a UTC
    offset, such as "2024-01-01T00:00:00+00:00", parses to an aware one. *)
Inductive datetime : Type :=
| Naive (t : Z)
| Aware (t : Z) (utcoffset : Z).

(** The timestamp codec of [datetime]: [isoformat] of a naive instant and
    [fromisoformat], which returns [None] where the library raises
    [ValueError]. *)
Record datetime_lib : Type := {
  isoformat : Z -> string;
  fromisoformat : string -> option datetime
}.

(** [datetime.fromisoformat(v)] on a value read from JSON. *)
Definition parse_timestamp (dt : datetime_lib) (v : pyval) : res datetime :=
  match v with
  | PStr s =>
      match fromisoformat dt s with
      | Some t => Ok t
      | None => Raise (OtherException ("Invalid isoformat string: '" ++ s ++ "'"))
      end
  | _ => Raise (OtherException "fromisoformat: argument must be str")
  end.

(** [(now - cache_time)], in microseconds, for the naive [now]. *)
Definition time_since (now : Z) (cache_time : datetime) : res Z :=
  match cache_time with
  | Naive t => Ok (now - t)%Z
  | Aware _ _ =>
      Raise (OtherException "can't subtract offset-naive and offset-aware datetimes")
  end.

(** The [try] block of [load_json_cache]; [now] is [datetime.now()] and
    [CACHE_TTL] is in seconds.  The age is kept as the whole number of
    microseconds of the difference, of which [total_seconds()] is the
    float in seconds. *)
Definition load_json_cache_try (dt : datetime_lib) (CACHE_TTL : Z)
    (fs : storage) (now : Z) (cache_file : string) : res pyval :=
  match fs cache_file with
  | None => Ok PNone
  | Some Unreadable => Raise (OtherException "cannot read the cache file")
  | Some (JsonText data) =>
      match has "timestamp" data with
      | Raise e => Raise e
      | Ok false => Ok data
      | Ok true =>
          match getitem data "timestamp" with
          | Raise e => Raise e
          | Ok ts =>
              match parse_timestamp dt ts with
              | Raise e => Raise e
              | Ok cache_time =>
                  match time_since now cache_time with
                  | Raise e => Raise e
                  | Ok age =>
                      if (age >? CACHE_TTL * 1000000)%Z then Ok PNone else Ok data
                  end
              end
          end
      end
  end.

(** [load_json_cache(cache_file)]: any exception becomes [None]. *)
Definition load_json_cache (dt : datetime_lib) (CACHE_TTL : Z)
    (fs : storage) (now : Z) (cache_file : string) : pyval :=
  match load_json_cache_try dt CACHE_TTL fs now cache_file with
  | Ok v => v
  | Raise _ => PNone
  end.

(** [save_json_cache(cache_file, data)].  [io_ok] tells whether creating
    the directory and opening the file for writing succeed; when they do
    not, nothing has been written. *)
Definition save_json_cache (dt : datetime_lib) (fs : storage) (now : Z)
    (io_ok : bool) (cache_file : string) (data : pyval) : bool * storage :=
  let cache_data := PDict [("timestamp", PStr (isoformat dt now)); ("data", data)] in
  if io_ok then (true, write fs cache_file (JsonText cache_data))
  else (false, fs).

(** [format_compression_stats(stats)], for what it can raise: the text it
    builds only goes to the log.  [(original - compressed) / original] is a
    division of integers; the product by 100 is a product of floats, which
    does not raise. *)
Definition format_compression_stats (original compressed : pyval) : res unit :=
  match gt0 original, as_int original with
  | Raise e, _ => Raise e
  | Ok true, Some o =>
      match sub original compressed with
      | Raise e => Raise e
      | Ok saved =>
          match true_divide saved o with
          | Raise e => Raise e
          | Ok _ => Ok tt
          end
      end
  | Ok _, _ => Ok tt
  end.

End Utils.

(* ====================================================================== *)
(** ** ingest.py *)

Module Ingest.
Import PyStr Py Utils.

(** *** Paths ([pathlib] on POSIX) *)

(** [p.split('/')]; [cur] is the component being read. *)
Fixpoint split_slash (cur p : string) : list string :=
  match p with
  | EmptyString => [cur]
  | String c p' =>
      if Ascii.eqb c "/" then cur :: split_slash "" p'
      else split_slash (cur ++ String c "") p'
  end.

(** The components [Path(p)] keeps: the empty ones (a leading, doubled or
    trailing slash) and the "." ones are dropped. *)
Definition is_part (c : string) : bool :=
  negb (String.eqb c "") && negb (String.eqb c ".").

Definition path_parts (p : string) : list string :=
  filter is_part (split_slash "" p).

(** The root of [Path(p)]: exactly two leading slashes are kept, any other
    number is one. *)
Definition path_root (p : string) : string :=
  if startswith "//" p && negb (startswith "///" p) then "//"
  else if startswith "/" p then "/"
  else "".

(** [str(Path(p))]: the string [exists()] and [is_file()] give to the
    operating system. *)
Definition path_str (p : string) : string :=
  match path_root p, path_parts p with
  | EmptyString, [] => "."
  | root, parts => root ++ join "/" parts
  end.

(** [Path(p).name]: the last component, empty when there is none. *)
Definition path_name (p : string) : string := last (path_parts p) "".

(** [name.rfind('.')], counting from [i]. *)
Fixpoint rfind_dot (i : nat) (name : string) : option nat :=
  match name with
  | EmptyString => None
  | String c name' =>
      match rfind_dot (S i) name' with
      | Some j => Some j
      | None => if Ascii.eqb c "." then Some i else None
      end
  end.

(** The place where the suffix starts: the last dot, unless it is the
    first or the last character of the name. *)
Definition suffix_start (name : string) : option nat :=
  match rfind_dot 0 name with
  | Some i => if ((0 <? i) && (i <? String.length name - 1))%nat then Some i else None
  | None => None
  end.

(** [Path(p).suffix] and [Path(p).stem]. *)
Definition path_suffix (p : string) : string :=
  let name := path_name p in
  match suffix_start name with
  | Some i => substring i (String.length name - i) name
  | None => ""
  end.

Definition path_stem (p : string) : string :=
  let name := path_name p in
  match suffix_start name with
  | Some i => substring 0 i name
  | None => name
  end.

(** *** The files of the data directory *)

(** What a path names.  [RegularFile (Ok bytes)] can be opened and holds
    [bytes]; [RegularFile (Raise e)] makes [open] raise [e]. *)
Inductive node : Type :=
| Directory
| RegularFile (data : res (list Byte.byte)).

(** What the operating system finds under a string, taken as it is:
    [None] where the string names nothing.  [Path(p)] asks about
    [path_str p], [open(p)] about [p]; the two strings differ when [p] has
    a doubled or trailing slash or a "." component. *)
Definition filesystem : Type := string -> option node.

(** [validate_file_path(file_path, extensions)]. *)
Definition validate_file_path (fs : filesystem) (file_path : string)
    (extensions : list string) : bool :=
  match fs (path_str file_path) with
  | None => false
  | Some Directory => false
  | Some (RegularFile _) =>
      match extensions with
      | [] => true
      | _ => existsb (String.eqb (lower (path_suffix file_path)))
                     (map lower extensions)
      end
  end.

Record ExtractedDocument : Type := {
  filename : string;
  content : string;
  metadata : list (string * pyval);
  error : option string
}.

(** [bool(doc['error'])]: [None] and the empty string are false. *)
Definition has_error (doc : ExtractedDocument) : bool :=
  match error doc with
  | None => false
  | Some msg => truthy msg
  end.

(** The PDF library chosen when the module is imported. *)
Inductive pdf_library : Type := pdfplumber | PyPDF2.

(** The loop over the pages: the texts that are not empty, up to the
    first page whose extraction raises. *)
Fixpoint collect_pages (pgs : list (res (option string))) : res (list string) :=
  match pgs with
  | [] => Ok []
  | Raise e :: _ => Raise e
  | Ok page_text :: rest =>
      match collect_pages rest with
      | Raise e => Raise e
      | Ok text_parts =>
          Ok (match page_text with
              | Some t => if truthy t then t :: text_parts else text_parts
              | None => text_parts
              end)
      end
  end.

(** [extract_text_from_pdf(file_path)].  [pages path] is what the PDF
    library reads when it is given the string [path]: the exception it
    raises on opening the file, or for each page the text it extracts
    ([None] or empty where the page has none) or the exception it raises
    there. *)
Definition extract_text_from_pdf (fs : filesystem)
    (PDF_LIBRARY : option pdf_library)
    (pages : string -> res (list (res (option string))))
    (file_path : string) : ExtractedDocument :=
  let result := {| filename := path_name file_path; content := "";
                   metadata := []; error := None |} in
  if negb (validate_file_path fs file_path [".pdf"]) then
    {| filename := filename result; content := ""; metadata := [];
       error := Some "Invalid PDF file path" |}
  else
    match PDF_LIBRARY with
    | None =>
        {| filename := filename result; content := ""; metadata := [];
           error := Some "No PDF library available" |}
    | Some _ =>
        match pages file_path with
        | Raise e =>
            {| filename := filename result; content := ""; metadata := [];
               error := Some (str_of_exn e) |}
        | Ok pgs =>
            let metadata := [("pages", PInt (Z.of_nat (List.length pgs)))] in
            match collect_pages pgs with
            | Raise e =>
                {| filename := filename result; content := "";
                   metadata := metadata; error := Some (str_of_exn e) |}
            | Ok text_parts =>
                {| filename := filename result;
                   content := sanitize_text (join (nl ++ nl) text_parts);
                   metadata := metadata; error := None |}
            end
        end
    end.

(** The loop over the encodings of [extract_text_from_txt]: [decode enc
    bytes] is what reading the file as text under [enc] gives, [None]
    where it raises [UnicodeDecodeError].  The first encoding that decodes
    wins. *)
Fixpoint read_with (decode : string -> list Byte.byte -> option string)
    (encodings : list string) (bytes : list Byte.byte)
    : option (string * string) :=
  match encodings with
  | [] => None
  | encoding :: rest =>
      match decode encoding bytes with
      | Some text => Some (sanitize_text text, encoding)
      | None => read_with decode rest bytes
      end
  end.

Definition encodings : list string := ["utf-8"; "latin-1"; "cp1252"].

(** [extract_text_from_txt(file_path)].  [open] gets the string
    [file_path] itself.  When the string names nothing although the path
    passed the validation, it asks for a directory where there is a file
    (a trailing slash or "."): [open] raises [NotADirectoryError]. *)
Definition extract_text_from_txt (fs : filesystem)
    (decode : string -> list Byte.byte -> option string)
    (file_path : string) : ExtractedDocument :=
  let result := {| filename := path_name file_path; content := "";
                   metadata := []; error := None |} in
  if negb (validate_file_path fs file_path [".txt"]) then
    {| filename := filename result; content := ""; metadata := [];
       error := Some "Invalid TXT file path" |}
  else
    match fs file_path with
    | Some (RegularFile (Ok bytes)) =>
        let result :=
          match read_with decode encodings bytes with
          | Some (text, encoding) =>
              {| filename := filename result; content := text;
                 metadata := [("encoding", PStr encoding)]; error := None |}
          | None => result
          end in
        if negb (truthy (content result)) then
          {| filename := filename result; content := content result;
             metadata := metadata result;
             error := Some "Failed to decode text file" |}
        else result
    | Some (RegularFile (Raise e)) =>
        {| filename := filename result; content := ""; metadata := [];
           error := Some (str_of_exn e) |}
    | Some Directory =>
        {| filename := filename result; content := ""; metadata := [];
           error := Some ("[Errno 21] Is a directory: '" ++ file_path ++ "'") |}
    | None =>
        {| filename := filename result; content := ""; metadata := [];
           error := Some ("[Errno 20] Not a directory: '" ++ file_path ++ "'") |}
    end.

(** *** The local corpus *)

Record Summary : Type := {
  total_files : nat;
  successful : nat;
  failed : nat
}.

Record LocalCorpus : Type := {
  files_data : list (string * ExtractedDocument);
  errors : list string;
  summary : Summary
}.

(** What [load_local_data] reads from the world. *)
Record world : Type := {
  fs : filesystem;
  glob : string -> string -> list string;
  PDF_LIBRARY : option pdf_library;
  pages : string -> res (list (res (option string)));
  decode : string -> list Byte.byte -> option string
}.

(** The extractor the loop picks by the suffix of the file; [None] is the
    [continue] of the last branch. *)
Definition extract_by_suffix (w : world) (file_path : string)
  : option ExtractedDocument :=
  let suffix := lower (path_suffix file_path) in
  if String.eqb suffix ".pdf" then
    Some (extract_text_from_pdf (fs w) (PDF_LIBRARY w) (pages w) file_path)
  else if String.eqb suffix ".txt" then
    Some (extract_text_from_txt (fs w) (decode w) file_path)
  else None.

(** One turn of the loop over [all_files]. *)
Definition load_one (w : world) (result : LocalCorpus) (file_path : string)
  : LocalCorpus :=
  let file_key := path_stem file_path in
  match extract_by_suffix w file_path with
  | None => result
  | Some file_data =>
      if has_error file_data then
        {| files_data := files_data result;
           errors := errors result
                     ++ [path_name file_path ++ ": "
                         ++ match error file_data with Some m => m | None => "" end];
           summary := {| total_files := total_files (summary result);
                         successful := successful (summary result);
                         failed := failed (summary result) + 1 |} |}
      else
        {| files_data := dict_set file_key file_data (files_data result);
           errors := errors result;
           summary := {| total_files := total_files (summary result);
                         successful := successful (summary result) + 1;
                         failed := failed (summary result) |} |}
  end.

(** [load_local_data(data_dir)]. *)
Definition load_local_data (w : world) (data_dir : string) : LocalCorpus :=
  let result := {| files_data := []; errors := [];
                   summary := {| total_files := 0; successful := 0; failed := 0 |} |} in
  match fs w data_dir with
  | None =>
      {| files_data := []; errors := ["Directory not found: " ++ data_dir];
         summary := summary result |}
  | Some _ =>
      let file_patterns := ["*.pdf"; "*.txt"] in
      let all_files := flat_map (glob w data_dir) file_patterns in
      let result :=
        {| files_data := []; errors := [];
           summary := {| total_files := List.length all_files;
                         successful := 0; failed := 0 |} |} in
      fold_left (load_one w) all_files result
  end.

(** *** Merging *)

Record ScrapedPage : Type := {
  url : string;
  page_content : string;
  selectors_found : list string
}.

Record WebData : Type := {
  scraped_data : list (string * ScrapedPage);
  web_errors : list string;
  cached : bool
}.

Definition LOCAL_HEADER : string :=
  "=== UNIVERSITY DATA FROM LOCAL FILES ===" ++ nl.

Definition LIVE_HEADER : string :=
  nl ++ nl ++ "=== LIVE DATA FROM UNIVERSITY WEBSITE ===" ++ nl.

Definition local_parts (files : list (string * ExtractedDocument)) : list string :=
  flat_map (fun kv => [nl ++ "--- " ++ filename (snd kv) ++ " ---" ++ nl;
                       content (snd kv)]) files.

Definition web_parts (pages : list (string * ScrapedPage)) : list string :=
  flat_map (fun kv => [nl ++ "--- From " ++ url (snd kv) ++ " ---" ++ nl;
                       page_content (snd kv)]) pages.

(** [merge_data(local_data, web_data)]. *)
Definition merge_data (local_data : LocalCorpus) (web_data : WebData) : string :=
  let context_parts := [LOCAL_HEADER] in
  let context_parts := (context_parts ++ local_parts (files_data local_data))%list in
  let context_parts :=
    match scraped_data web_data with
    | [] => context_parts
    | _ => (context_parts ++ [LIVE_HEADER] ++ web_parts (scraped_data web_data))%list
    end in
  join nl context_parts.

End Ingest.

(* ====================================================================== *)
(** ** scaledown.py *)

Module Scaledown.
Import PyStr Py Utils.

Record ScaledownCompressor : Type := {
  api_key : string;
  api_url : string;
  default_model : string;
  default_rate : string;
  timeout : Z
}.

(** The [result] dictionary of [compress].  The fields copied from the
    reply hold whatever JSON value the reply has there.  The ratio is a
    float: the initial 1.0 or the value of a division of integers. *)
Record CompressionResult : Type := {
  compressed_prompt : pyval;
  original_tokens : pyval;
  compressed_tokens : pyval;
  compression_ratio : Q;
  successful : pyval;
  error : option string;
  latency_ms : pyval
}.

Definition set_compressed_prompt (v : pyval) (r : CompressionResult) :=
  {| compressed_prompt := v; original_tokens := original_tokens r;
     compressed_tokens := compressed_tokens r;
     compression_ratio := compression_ratio r; successful := successful r;
     error := error r; latency_ms := latency_ms r |}.

Definition set_original_tokens (v : pyval) (r : CompressionResult) :=
  {| compressed_prompt := compressed_prompt r; original_tokens := v;
     compressed_tokens := compressed_tokens r;
     compression_ratio := compression_ratio r; successful := successful r;
     error := error r; latency_ms := latency_ms r |}.

Definition set_compressed_tokens (v : pyval) (r : CompressionResult) :=
  {| compressed_prompt := compressed_prompt r;
     original_tokens := original_tokens r; compressed_tokens := v;
     compression_ratio := compression_ratio r; successful := successful r;
     error := error r; latency_ms := latency_ms r |}.

Definition set_compression_ratio (q : Q) (r : CompressionResult) :=
  {| compressed_prompt := compressed_prompt r;
     original_tokens := original_tokens r;
     compressed_tokens := compressed_tokens r;
     compression_ratio := q; successful := successful r;
     error := error r; latency_ms := latency_ms r |}.

Definition set_successful (v : pyval) (r : CompressionResult) :=
  {| compressed_prompt := compressed_prompt r;
     original_tokens := original_tokens r;
     compressed_tokens := compressed_tokens r;
     compression_ratio := compression_ratio r; successful := v;
     error := error r; latency_ms := latency_ms r |}.

Definition set_error (msg : string) (r : CompressionResult) :=
  {| compressed_prompt := compressed_prompt r;
     original_tokens := original_tokens r;
     compressed_tokens := compressed_tokens r;
     compression_ratio := compression_ratio r; successful := successful r;
     error := Some msg; latency_ms := latency_ms r |}.

Definition set_latency_ms (v : pyval) (r : CompressionResult) :=
  {| compressed_prompt := compressed_prompt r;
     original_tokens := original_tokens r;
     compressed_tokens := compressed_tokens r;
     compression_ratio := compression_ratio r; successful := successful r;
     error := error r; latency_ms := v |}.

(** *** The [try] block: a computation that updates [result] and may raise

    An exception leaves [result] as the assignments before it made it:
    that is the dictionary the [except] clauses go on with. *)
Definition M (A : Type) : Type := CompressionResult -> CompressionResult * res A.

Definition ret {A : Type} (a : A) : M A := fun r => (r, Ok a).

Definition bind {A B : Type} (m : M A) (k : A -> M B) : M B :=
  fun r =>
    match m r with
    | (r', Ok a) => k a r'
    | (r', Raise e) => (r', Raise e)
    end.

Definition lift {A : Type} (x : res A) : M A := fun r => (r, x).

Definition update (f : CompressionResult -> CompressionResult) : M unit :=
  fun r => (f r, Ok tt).

Definition read : M CompressionResult := fun r => (r, Ok r).

Notation "x <- m ;; k" := (bind m (fun x => k))
  (at level 61, m at next level, right associativity).
Notation "m ;;; k" := (bind m (fun _ => k))
  (at level 61, right associativity).

(** *** The HTTP call *)

Record Request : Type := {
  req_url : string;
  req_api_key : string;
  req_context : string;
  req_prompt : string;
  req_model : string;
  req_rate : string;
  req_timeout : Z
}.

(** A reply of the service: what [raise_for_status()] does ([Some e] where
    it raises [e]) and what [json()] returns or raises (on a body that is
    not JSON: [RequestsJSONDecodeError] with requests 2.27 or later,
    [JSONDecodeError] before). *)
Record Response : Type := {
  raise_for_status : option exn;
  json : res pyval
}.

(** [a or b] on an optional string argument. *)
Definition or_default (a : option string) (b : string) : string :=
  match a with
  | Some x => if truthy x then x else b
  | None => b
  end.

Definition initial_result : CompressionResult :=
  {| compressed_prompt := PStr ""; original_tokens := PInt 0;
     compressed_tokens := PInt 0; compression_ratio := 1%Q;
     successful := PBool false; error := None; latency_ms := PInt 0 |}.

(** The uncompressed prompt every fallback uses. *)
Definition fallback_prompt (context prompt : string) : string :=
  context ++ nl ++ nl ++ "User Query: " ++ prompt.

(** The ratio by character counts, when the compressed prompt is true. *)
Definition estimate_ratio (context prompt : string) : M unit :=
  r <- read ;;
  if truth (compressed_prompt r) then
    let original_length := String.length context + String.length prompt in
    compressed_length <- lift (len (compressed_prompt r)) ;;
    ratio <-
      (if (0 <? compressed_length)%nat
       then lift (true_divide (Z.of_nat original_length)
                              (Z.of_nat compressed_length))
       else ret 1%Q) ;;
    update (set_compression_ratio ratio)
  else ret tt.

(** The ratio of the token counts, when both are positive. *)
Definition compute_ratio (context prompt : string) : M unit :=
  r <- read ;;
  original_positive <- lift (gt0 (original_tokens r)) ;;
  both_positive <-
    (if original_positive : bool then lift (gt0 (compressed_tokens r))
     else ret false) ;;
  if both_positive : bool then
    match as_int (original_tokens r), as_int (compressed_tokens r) with
    | Some o, Some c =>
        ratio <- lift (true_divide o c) ;;
        update (set_compression_ratio ratio)
    | _, _ => ret tt
    end
  else estimate_ratio context prompt.

(** The body of the [try] statement, from the reply of [requests.post]. *)
Definition try_block (context prompt : string) (reply : res Response) : M unit :=
  response <- lift reply ;;
  lift (match raise_for_status response with
        | Some e => Raise e
        | None => Ok tt
        end) ;;;
  data <- lift (json response) ;;
  results <- lift (get data "results" (PDict [])) ;;
  v <- lift (get results "compressed_prompt" (PStr "")) ;;
  update (set_compressed_prompt v) ;;;
  v <- lift (get data "total_original_tokens" (PInt 0)) ;;
  update (set_original_tokens v) ;;;
  v <- lift (get data "total_compressed_tokens" (PInt 0)) ;;
  update (set_compressed_tokens v) ;;;
  v <- lift (get data "latency_ms" (PInt 0)) ;;
  update (set_latency_ms v) ;;;
  v <- lift (get data "successful" (PBool false)) ;;
  update (set_successful v) ;;;
  compute_ratio context prompt ;;;
  r <- read ;;
  lift (format_compression_stats (original_tokens r) (compressed_tokens r)).

(** The message of the first [except] clause that matches the exception:
    [Timeout], [HTTPError], [RequestException] (which takes the
    [JSONDecodeError] of requests, before the clause of
    [json.JSONDecodeError] is reached), [json.JSONDecodeError],
    [Exception]. *)
Definition error_message (self : ScaledownCompressor) (e : exn) : string :=
  match e with
  | Timeout _ => "Scaledown API timeout after " ++ str_of_Z (timeout self) ++ "s"
  | HTTPError _ status_code text =>
      "Scaledown API HTTP error: " ++ str_of_Z status_code ++ " - " ++ text
  | RequestException _ | RequestsJSONDecodeError _ =>
      "Scaledown API request failed: " ++ str_of_exn e
  | JSONDecodeError _ => "Failed to parse Scaledown API response: " ++ str_of_exn e
  | OtherException _ => "Unexpected error in Scaledown compression: " ++ str_of_exn e
  end.

(** What every [except] clause does to [result]. *)
Definition handle (self : ScaledownCompressor) (context prompt : string)
    (e : exn) (result : CompressionResult) : CompressionResult :=
  set_compressed_prompt (PStr (fallback_prompt context prompt))
    (set_error (error_message self e) result).

(** The request [compress] sends: the headers and the JSON payload. *)
Definition build_request (self : ScaledownCompressor)
    (context prompt : string) (model rate : option string) : Request :=
  {| req_url := api_url self; req_api_key := api_key self;
     req_context := context; req_prompt := prompt;
     req_model := or_default model (default_model self);
     req_rate := or_default rate (default_rate self);
     req_timeout := timeout self |}.

(** [compress(context, prompt, model, rate)].  [post] is the service as
    [requests.post] reaches it; the second component of the value lists
    the requests that were sent. *)
Definition compress (self : ScaledownCompressor)
    (post : Request -> res Response)
    (context prompt : string) (model rate : option string)
  : CompressionResult * list Request :=
  let result := initial_result in
  if negb (truthy (api_key self)) then
    (set_error "API key not configured"
       (set_compressed_prompt (PStr (fallback_prompt context prompt)) result),
     [])
  else
    let request := build_request self context prompt model rate in
    match try_block context prompt (post request) result with
    | (result, Ok _) => (result, [request])
    | (result, Raise e) => (handle self context prompt e result, [request])
    end.

(** [compress_context(context, prompt)], on the singleton compressor. *)
Definition compress_context (self : ScaledownCompressor)
    (post : Request -> res Response) (context prompt : string)
  : CompressionResult * list Request :=
  compress self post context prompt None None.

End Scaledown.

(* ====================================================================== *)
(** ** ingest.py: the web scraper *)

Module Scraper.
Import PyStr Py Utils Ingest.

Record ScrapeTarget : Type := {
  target_url : string;
  selectors : list (string * string)
}.

(** The scraping configuration; [headers] and [timeout] are [None] where
    the dictionary has no such key. *)
Record ScrapeConfig : Type := {
  base_url : string;
  targets : list ScrapeTarget;
  headers : option (list (string * string));
  timeout : option Z
}.

Record GetRequest : Type := {
  get_url : string;
  get_headers : list (string * string);
  get_timeout : Z
}.

(** A fetched page as the scraper reads it: for a selector, the stripped
    texts of the elements [soup.select] matches, or the exception it
    raises. *)
Definition Page : Type := string -> res (list string).

(** What the scraper reads from the world.  [read_time url] and
    [write_time url] are [datetime.now()] when the cache of [url] is read
    and written; [md5] is [get_cache_key]; [io_ok file] tells whether the
    cache file can be written; [http_get] is [requests.get] followed by
    [raise_for_status]. *)
Record world : Type := {
  SCRAPING_ENABLED : bool;
  CACHE_DIR : string;
  CACHE_TTL : Z;
  dt : datetime_lib;
  md5 : string -> string;
  read_time : string -> Z;
  write_time : string -> Z;
  io_ok : string -> bool;
  http_get : GetRequest -> res Page
}.

(** The result dictionary: the pages are JSON values, those read from the
    cache being whatever the cache file holds under "data". *)
Record ScrapeResult : Type := {
  scraped_data : list (string * pyval);
  errors : list string;
  cached : bool
}.

(** [isinstance(e, requests.RequestException)]. *)
Definition is_request_exception (e : exn) : bool :=
  match e with
  | Timeout _ | HTTPError _ _ _ | RequestException _
  | RequestsJSONDecodeError _ => true
  | JSONDecodeError _ | OtherException _ => false
  end.

(** The loop over the selectors of a target: the texts of each selector
    that matches, joined by spaces, under the name of the selector. *)
Fixpoint extract_content (page : Page) (sels : list (string * string))
    (extracted_content : list (string * string)) : res (list (string * string)) :=
  match sels with
  | [] => Ok extracted_content
  | (selector_name, selector) :: rest =>
      match page selector with
      | Raise e => Raise e
      | Ok elements =>
          extract_content page rest
            (match elements with
             | [] => extracted_content
             | _ => dict_set selector_name (join " " elements) extracted_content
             end)
      end
  end.

(** The dictionary [scraped_info] of a page. *)
Definition scraped_info (page : ScrapedPage) : pyval :=
  PDict [("url", PStr (url page));
         ("content", PStr (page_content page));
         ("selectors_found", PList (map PStr (selectors_found page)))].

Definition cache_file_of (w : world) (full_url : string) : string :=
  CACHE_DIR w ++ "/web_cache_" ++ md5 w full_url ++ ".json".

Definition add_error (msg : string) (result : ScrapeResult) : ScrapeResult :=
  {| scraped_data := scraped_data result;
     errors := (errors result ++ [msg])%list;
     cached := cached result |}.

Definition add_page (key : string) (page : pyval) (from_cache : bool)
    (result : ScrapeResult) : ScrapeResult :=
  {| scraped_data := dict_set key page (scraped_data result);
     errors := errors result;
     cached := if from_cache then true else cached result |}.

(** The loop over the targets.  The value is the result, the storage and
    the requests sent so far.  An exception raised outside the inner [try]
    (by [cached_data['data']]) ends the loop: the outer [except] records it. *)
Fixpoint scrape_targets (w : world) (config : ScrapeConfig) (use_cache : bool)
    (todo : list ScrapeTarget) (result : ScrapeResult) (fs : storage)
    (sent : list GetRequest) : ScrapeResult * storage * list GetRequest :=
  match todo with
  | [] => (result, fs, sent)
  | target :: rest =>
      let full_url := base_url config ++ target_url target in
      let cache_file := cache_file_of w full_url in
      let cached_data :=
        if use_cache
        then load_json_cache (dt w) (CACHE_TTL w) fs (read_time w full_url) cache_file
        else PNone in
      if use_cache && truth cached_data then
        match getitem cached_data "data" with
        | Raise e => (add_error (str_of_exn e) result, fs, sent)
        | Ok page =>
            scrape_targets w config use_cache rest
              (add_page (target_url target) page true result) fs sent
        end
      else
        let request :=
          {| get_url := full_url;
             get_headers := match headers config with Some h => h | None => [] end;
             get_timeout := match timeout config with Some t => t | None => 10%Z end |} in
        let sent := (sent ++ [request])%list in
        match http_get w request with
        | Raise e =>
            let error_msg :=
              if is_request_exception e
              then "Failed to scrape " ++ full_url ++ ": " ++ str_of_exn e
              else "Error parsing " ++ full_url ++ ": " ++ str_of_exn e in
            scrape_targets w config use_cache rest (add_error error_msg result) fs sent
        | Ok page =>
            match extract_content page (selectors target) [] with
            | Raise e =>
                let error_msg :=
                  if is_request_exception e
                  then "Failed to scrape " ++ full_url ++ ": " ++ str_of_exn e
                  else "Error parsing " ++ full_url ++ ": " ++ str_of_exn e in
                scrape_targets w config use_cache rest (add_error error_msg result) fs sent
            | Ok extracted_content =>
                let combined_text := join " " (map snd extracted_content) in
                let info :=
                  scraped_info {| url := full_url;
                                  page_content := sanitize_text combined_text;
                                  selectors_found := map fst extracted_content |} in
                let fs :=
                  snd (save_json_cache (dt w) fs (write_time w full_url)
                                       (io_ok w cache_file) cache_file info) in
                scrape_targets w config use_cache rest
                  (add_page (target_url target) info false result) fs sent
            end
        end
  end.

(** [scrape_website(config, use_cache)] on the storage [fs]. *)
Definition scrape_website (w : world) (config : ScrapeConfig) (use_cache : bool)
    (fs : storage) : ScrapeResult * storage * list GetRequest :=
  if negb (SCRAPING_ENABLED w) then
    ({| scraped_data := []; errors := []; cached := false |}, fs, [])
  else
    scrape_targets w config use_cache (targets config)
      {| scraped_data := []; errors := []; cached := false |} fs [].

End Scraper.

(* ====================================================================== *)
(** ** ingest.py: the complete context *)

Module Context.
Import PyStr Py Utils Ingest.

(** [f"{v}"], with [py_str] standing for [str()] on the values that are not
    strings. *)
Definition format (py_str : pyval -> string) (v : pyval) : string :=
  match v with
  | PStr s => s
  | _ => py_str v
  end.

(** The two parts the loop of [merge_data] appends for a scraped page: the
    sub-header made of [scraped_info['url']], and [scraped_info['content']]
    as the value it is. *)
Definition page_parts (py_str : pyval -> string) (scraped_info : pyval)
  : res (string * pyval) :=
  match getitem scraped_info "url" with
  | Raise e => Raise e
  | Ok u =>
      match getitem scraped_info "content" with
      | Raise e => Raise e
      | Ok c => Ok (nl ++ "--- From " ++ format py_str u ++ " ---" ++ nl, c)
      end
  end.

(** The loop over [web_data['scraped_data'].items()]. *)
Fixpoint web_parts (py_str : pyval -> string) (pages : list (string * pyval))
  : res (list (string * pyval)) :=
  match pages with
  | [] => Ok []
  | (_, scraped_info) :: rest =>
      match page_parts py_str scraped_info with
      | Raise e => Raise e
      | Ok parts =>
          match web_parts py_str rest with
          | Raise e => Raise e
          | Ok more => Ok (parts :: more)
          end
      end
  end.

(** What ['\n'.join] finds in the parts of the pages: it accepts strings
    only and raises [TypeError] at the first content that is not one; [i]
    is the position of the next part in [context_parts]. *)
Fixpoint joinable (i : nat) (parts : list (string * pyval)) : res (list string) :=
  match parts with
  | [] => Ok []
  | (header, PStr text) :: rest =>
      match joinable (i + 2) rest with
      | Raise e => Raise e
      | Ok more => Ok (header :: text :: more)
      end
  | (_, c) :: _ =>
      Raise (OtherException
               ("sequence item " ++ str_of_Z (Z.of_nat (i + 1))
                ++ ": expected str instance, " ++ type_name c ++ " found"))
  end.

(** [merge_data(local_data, web_data)] on the dictionaries the two loaders
    return: the pages of [web_data] are JSON values, those taken from the
    cache being whatever the cache files hold. *)
Definition merge_data (py_str : pyval -> string) (local_data : LocalCorpus)
    (web_data : Scraper.ScrapeResult) : res string :=
  let context_parts := [LOCAL_HEADER] in
  let context_parts := (context_parts ++ local_parts (files_data local_data))%list in
  match Scraper.scraped_data web_data with
  | [] => Ok (join nl context_parts)
  | pages =>
      let context_parts := (context_parts ++ [LIVE_HEADER])%list in
      match web_parts py_str pages with
      | Raise e => Raise e
      | Ok parts =>
          match joinable (List.length context_parts) parts with
          | Raise e => Raise e
          | Ok texts => Ok (join nl (context_parts ++ texts)%list)
          end
      end
  end.

Record CompleteContext : Type := {
  context : string;
  local_data : LocalCorpus;
  web_data : Scraper.ScrapeResult;
  errors : list string
}.

(** [get_complete_context(use_web_scraping, use_cache)] on the cache files
    [fs].  The value is the result or the exception [merge_data] raises,
    the cache files afterwards and the pages that were requested. *)
Definition get_complete_context (py_str : pyval -> string)
    (local_world : Ingest.world) (COLLEGE_DATA_DIR : string)
    (web_world : Scraper.world) (SCRAPING_CONFIG : Scraper.ScrapeConfig)
    (use_web_scraping use_cache : bool) (fs : storage)
  : res CompleteContext * storage * list Scraper.GetRequest :=
  let local_result := load_local_data local_world COLLEGE_DATA_DIR in
  let '(web_result, fs, sent) :=
    if use_web_scraping && Scraper.SCRAPING_ENABLED web_world
    then Scraper.scrape_website web_world SCRAPING_CONFIG use_cache fs
    else ({| Scraper.scraped_data := []; Scraper.errors := [];
             Scraper.cached := false |}, fs, []) in
  (match merge_data py_str local_result web_result with
   | Raise e => Raise e
   | Ok merged =>
       Ok {| context := merged; local_data := local_result;
             web_data := web_result;
             errors := (Ingest.errors local_result
                        ++ Scraper.errors web_result)%list |}
   end, fs, sent).

End Context.

(* ====================================================================== *)
(** ** app.py *)

Module App.
Import PyStr Py Utils Ingest Scaledown.

(** The two module-level caches. *)
Record AppState : Type := {
  _global_context_cache : option string;
  _compressed_context_cache : option CompressionResult
}.

Definition startup : AppState :=
  {| _global_context_cache := None; _compressed_context_cache := None |}.

(** What a request finds in the world: the data directory and what the
    extractors read there, the site and the cache files of the scraper,
    the compressor and the service behind it, the generation service, and
    [str()] on values that are not strings. *)
Record env : Type := {
  local_world : Ingest.world;
  COLLEGE_DATA_DIR : string;
  web_world : Scraper.world;
  SCRAPING_CONFIG : Scraper.ScrapeConfig;
  cache_files : storage;
  compressor : ScaledownCompressor;
  post : Request -> res Response;
  generate_response : pyval -> pyval -> res string;
  py_str : pyval -> string
}.

(** [get_complete_context(use_web_scraping=True, use_cache=True)], for
    what it returns or raises; the cache files it writes are part of the
    world the next request finds. *)
Definition get_complete_context (e : env) : res Context.CompleteContext :=
  fst (fst (Context.get_complete_context (py_str e) (local_world e)
              (COLLEGE_DATA_DIR e) (web_world e) (SCRAPING_CONFIG e)
              true true (cache_files e))).

(** [load_global_context()]: an exception of [get_complete_context] goes
    on to the caller and leaves the cache as it was. *)
Definition load_global_context (e : env) (st : AppState)
  : AppState * res string :=
  match _global_context_cache st with
  | None =>
      match get_complete_context e with
      | Raise ex => (st, Raise ex)
      | Ok result =>
          let cache :=
            if truthy (Context.context result) then Context.context result
            else "" in
          ({| _global_context_cache := Some cache;
              _compressed_context_cache := _compressed_context_cache st |},
           Ok cache)
      end
  | Some cache => (st, Ok cache)
  end.

Record compression_stats : Type := {
  stats_original_tokens : pyval;
  stats_compressed_tokens : pyval;
  stats_compression_ratio : Q;
  stats_successful : pyval;
  stats_latency_ms : pyval;
  stats_cached : bool
}.

Inductive http_response : Type :=
| ChatResponse (response : string) (stats : compression_stats)
| ErrorResponse (status : Z) (message error_code : string)
| ReloadResponse (context_size_chars : nat).

(** [f"{v}"]. *)
Definition format (e : env) (v : pyval) : string :=
  match v with
  | PStr s => s
  | _ => py_str e v
  end.

(** [data.get('message', '').strip()]. *)
Definition get_message (data : pyval) : res string :=
  match get data "message" (PStr "") with
  | Raise e => Raise e
  | Ok (PStr s) => Ok (strip s)
  | Ok v => Raise (OtherException
                     ("'" ++ type_name v ++ "' object has no attribute 'strip'"))
  end.

Definition is_none {A : Type} (o : option A) : bool :=
  match o with None => true | Some _ => false end.

(** Step 2 of [chat]: compress, or reuse the cached compression. *)
Definition compress_or_reuse (e : env) (st : AppState)
    (context user_message : string)
  : AppState * CompressionResult * list Request :=
  match _compressed_context_cache st with
  | None =>
      let '(compression_result, sent) :=
        compress_context (compressor e) (post e) context user_message in
      let st' :=
        if truth (successful compression_result) then
          {| _global_context_cache := _global_context_cache st;
             _compressed_context_cache := Some compression_result |}
        else st in
      (st', compression_result, sent)
  | Some cached_result =>
      let compression_result :=
        set_compressed_prompt
          (PStr (format e (compressed_prompt cached_result)
                 ++ nl ++ nl ++ "New User Query: " ++ user_message))
          cached_result in
      (st, compression_result, [])
  end.

(** [chat()], on the JSON body [data] of the request.  The value is the
    state after the request, the reply, and the compression requests that
    were sent. *)
Definition chat (e : env) (data : pyval) (st : AppState)
  : AppState * http_response * list Request :=
  if negb (truth data) then
    (st, ErrorResponse 400 "Invalid JSON request" "INVALID_JSON", [])
  else
    match get_message data, get data "history" (PList []) with
    | Raise _, _ | _, Raise _ =>
        (st, ErrorResponse 500 "An unexpected error occurred. Please try again."
               "INTERNAL_ERROR", [])
    | Ok user_message, Ok conversation_history =>
        if negb (truthy user_message) then
          (st, ErrorResponse 400 "Message cannot be empty" "EMPTY_MESSAGE", [])
        else
          match load_global_context e st with
          | (st, Raise _) =>
              (st, ErrorResponse 500
                     "An unexpected error occurred. Please try again."
                     "INTERNAL_ERROR", [])
          | (st, Ok context) =>
              if negb (truthy context) then
                (st, ErrorResponse 500
                       "Chatbot context not available. Please try again later."
                       "NO_CONTEXT", [])
              else
                let '(st, compression_result, sent) :=
                  compress_or_reuse e st context user_message in
                let compressed_prompt := compressed_prompt compression_result in
                let stats :=
                  {| stats_original_tokens := original_tokens compression_result;
                     stats_compressed_tokens := compressed_tokens compression_result;
                     stats_compression_ratio := compression_ratio compression_result;
                     stats_successful := successful compression_result;
                     stats_latency_ms := latency_ms compression_result;
                     stats_cached :=
                       negb (is_none (_compressed_context_cache st)) |} in
                match generate_response e compressed_prompt conversation_history with
                | Ok response_text => (st, ChatResponse response_text stats, sent)
                | Raise _ =>
                    (st, ErrorResponse 500
                           "Failed to generate response. Please try again."
                           "GEMINI_ERROR", sent)
                end
          end
    end.

(** [reload_context()]: both caches are emptied before the context is
    loaded again. *)
Definition reload_context (e : env) (st : AppState) : AppState * http_response :=
  let st := {| _global_context_cache := None;
               _compressed_context_cache := None |} in
  match load_global_context e st with
  | (st, Raise _) =>
      (st, ErrorResponse 500 "Failed to reload context" "RELOAD_ERROR")
  | (st, Ok context) => (st, ReloadResponse (String.length context))
  end.

(** The requests the server handles, each with the world it meets. *)
Inductive event : Type :=
| Chat (e : env) (data : pyval)
| Reload (e : env).

Definition handle_event (st : AppState) (ev : event) : AppState :=
  match ev with
  | Chat e data => fst (fst (chat e data st))
  | Reload e => fst (reload_context e st)
  end.

(** The state after a sequence of requests, from an empty start. *)
Definition run (events : list event) : AppState :=
  fold_left handle_event events startup.

End App.

(* ====================================================================== *)
(** ** utils.py: truncation *)

Module UtilsText.
Import PyStr.

(** The first [n] characters of [s], all of [s] when it is shorter. *)
Fixpoint take (n : nat) (s : string) : string :=
  match n, s with
  | O, _ => ""
  | S _, EmptyString => ""
  | S n', String c s' => String c (take n' s')
  end.

(** [s[:n]] for an integer [n]: a negative [n] counts from the end. *)
Definition slice_to (n : Z) (s : string) : string :=
  if (0 <=? n)%Z then take (Z.to_nat n) s
  else take (String.length s - Z.to_nat (- n)) s.

(** [truncate_text(text, max_length, suffix)]; the defaults of the source
    are 1000 and "...". *)
Definition truncate_text (text : string) (max_length : Z) (suffix : string) : string :=
  if (Z.of_nat (String.length text) <=? max_length)%Z then text
  else slice_to (max_length - Z.of_nat (String.length suffix)) text ++ suffix.

End UtilsText.

(* ====================================================================== *)
(** ** gemini_client.py *)

Module Gemini.
Import PyStr Py.

Record GeminiClient : Type := {
  api_key : string;
  model_name : string;
  system_instruction : string
}.

(** [a or b] on an optional string argument. *)
Definition or_default (a : option string) (b : string) : string :=
  match a with
  | Some x => if truthy x then x else b
  | None => b
  end.

(** [GeminiClient(api_key, model_name)]: raises [ValueError] without a key.
    The configuration of the library after that is taken to succeed. *)
Definition new_client (GEMINI_API_KEY GEMINI_MODEL SYSTEM_INSTRUCTION : string)
    (key name : option string) : res GeminiClient :=
  let key := or_default key GEMINI_API_KEY in
  if negb (truthy key) then
    Raise (OtherException "GEMINI_API_KEY must be set in environment variables")
  else
    Ok {| api_key := key; model_name := or_default name GEMINI_MODEL;
          system_instruction := SYSTEM_INSTRUCTION |}.

(** [l[start:]] for an integer [start]: a negative [start] counts from the
    end. *)
Definition slice_from {A : Type} (start : Z) (l : list A) : list A :=
  if (start <? 0)%Z then skipn (List.length l - Z.to_nat (- start)) l
  else skipn (Z.to_nat start) l.

(** [f"{v}"], with [py_str] standing for [str()] on the values that are not
    strings. *)
Definition format (py_str : pyval -> string) (v : pyval) : string :=
  match v with
  | PStr s => s
  | _ => py_str v
  end.

(** The lines one exchange adds, or the exception [exchange.get] raises. *)
Definition format_exchange (py_str : pyval -> string) (exchange : pyval)
  : res (list string) :=
  match get exchange "user" (PStr "") with
  | Raise e => Raise e
  | Ok user_msg =>
      match get exchange "assistant" (PStr "") with
      | Raise e => Raise e
      | Ok assistant_msg =>
          let user_lines :=
            if truth user_msg then ["User: " ++ format py_str user_msg] else [] in
          let assistant_lines :=
            if truth assistant_msg
            then ["Assistant: " ++ format py_str assistant_msg] else [] in
          Ok (user_lines ++ assistant_lines)%list
      end
  end.

Fixpoint format_exchanges (py_str : pyval -> string) (recent_history : list pyval)
  : res (list string) :=
  match recent_history with
  | [] => Ok []
  | exchange :: rest =>
      match format_exchange py_str exchange with
      | Raise e => Raise e
      | Ok lines =>
          match format_exchanges py_str rest with
          | Raise e => Raise e
          | Ok more => Ok (lines ++ more)%list
          end
      end
  end.

(** [_format_conversation_history(history, max_exchanges)] on a list of
    exchanges. *)
Definition _format_conversation_history (py_str : pyval -> string)
    (history : list pyval) (max_exchanges : Z) : res string :=
  match history with
  | [] => Ok ""
  | _ =>
      let recent_history :=
        if (Z.of_nat (List.length history) >? max_exchanges)%Z
        then slice_from (- max_exchanges) history
        else history in
      match format_exchanges py_str recent_history with
      | Raise e => Raise e
      | Ok lines => Ok (join nl ("Previous Conversation:" :: lines))
      end
  end.

(** [_get_error_response(error)]. *)
Definition _get_error_response (error : exn) : string :=
  let error_str := lower (str_of_exn error) in
  if contains "quota" error_str || contains "rate limit" error_str then
    "I'm currently experiencing high demand. Please try again in a moment."
  else if contains "api key" error_str || contains "authentication" error_str then
    "There's a configuration issue with the chatbot. Please contact support."
  else if contains "safety" error_str || contains "blocked" error_str then
    "I can't respond to that type of question. "
    ++ "Please ask about university admissions, programs, or fees."
  else
    "I'm having trouble processing your request right now. "
    ++ "Please try again or rephrase your question.".

(** What [_format_conversation_history] raises on a history that is true
    but is not a list, with the default of five exchanges: [len] fails on a
    number; the characters of a string and the keys of an object have no
    [get]; an object of more than five keys cannot be sliced. *)
Definition not_a_list (conversation_history : pyval) : exn :=
  match conversation_history with
  | PDict entries =>
      if (5 <? List.length entries)%nat
      then OtherException "unhashable type: 'slice'"
      else OtherException "'str' object has no attribute 'get'"
  | PStr _ => OtherException "'str' object has no attribute 'get'"
  | _ => OtherException ("object of type '" ++ type_name conversation_history
                         ++ "' has no len()")
  end.

(** The prompt [generate_response] builds, or the exception raised on the
    way. *)
Definition build_prompt (self : GeminiClient) (py_str : pyval -> string)
    (compressed_prompt conversation_history : pyval) : res string :=
  let full_prompt :=
    system_instruction self ++ nl ++ nl ++ format py_str compressed_prompt in
  if truth conversation_history then
    match conversation_history with
    | PList history =>
        match _format_conversation_history py_str history 5 with
        | Raise e => Raise e
        | Ok history_text =>
            if truthy history_text
            then Ok (full_prompt ++ nl ++ nl ++ history_text)
            else Ok full_prompt
        end
    | _ => Raise (not_a_list conversation_history)
    end
  else Ok full_prompt.

Definition EMPTY_RESPONSE : string :=
  "I apologize, but I couldn't generate a response. "
  ++ "Please try rephrasing your question.".

(** [self.generate_response(compressed_prompt, conversation_history)].
    [generate_content prompt] is the text of the model's response, or the
    exception raised by the call or by reading the text. *)
Definition client_generate_response (self : GeminiClient)
    (py_str : pyval -> string) (generate_content : string -> res string)
    (compressed_prompt conversation_history : pyval) : string :=
  match build_prompt self py_str compressed_prompt conversation_history with
  | Raise e => _get_error_response e
  | Ok full_prompt =>
      match generate_content full_prompt with
      | Raise e => _get_error_response e
      | Ok text => if truthy text then strip text else EMPTY_RESPONSE
      end
  end.

(** The module-level [generate_response]: [client] is what
    [get_gemini_client()] returns or raises. *)
Definition generate_response (client : res GeminiClient)
    (py_str : pyval -> string) (generate_content : string -> res string)
    (compressed_prompt conversation_history : pyval) : res string :=
  match client with
  | Raise e => Raise e
  | Ok self =>
      Ok (client_generate_response self py_str generate_content
            compressed_prompt conversation_history)
  end.

End Gemini.

Import PyStr Py Utils Ingest Scaledown App.

(* ====================================================================== *)
(** * Sample inputs and predicates *)

(** The power [2^k] of an integer exponent, as a rational. *)
Definition pow2 (k : Z) : Q := (2 ^ k)%Q.

(** A configured compressor, with the constants of config.py. *)
Definition configured : ScaledownCompressor :=
  {| api_key := "sk-test"; api_url := "https://api.scaledown.xyz/compress/raw/";
     default_model := "gemini-2.5-flash"; default_rate := "auto"; timeout := 15 |}.

(** The same compressor with no key. *)
Definition unconfigured : ScaledownCompressor :=
  {| api_key := ""; api_url := api_url configured;
     default_model := default_model configured;
     default_rate := default_rate configured; timeout := timeout configured |}.

(** A service that answers every request with the JSON document [data]. *)
Definition answers (data : pyval) : Request -> res Response :=
  fun _ => Ok {| raise_for_status := None; json := Ok data |}.

(** A reply with status 200 that reports success but gives [null] for the
    number of original tokens. *)
Definition null_tokens_reply : pyval :=
  PDict [("results", PDict [("compressed_prompt", PStr "deadline?")]);
         ("total_original_tokens", PNone);
         ("total_compressed_tokens", PInt 5);
         ("latency_ms", PInt 12);
         ("successful", PBool true)].

(** The exceptions of the named categories are raised before [result] is
    touched: by [requests.post] (timeout, transport error), by
    [raise_for_status] (HTTP status) or by [json()] (malformed body). *)
Definition raised_before_parsing (reply : res Response) (e : exn) : Prop :=
  reply = Raise e
  \/ (exists response, reply = Ok response /\ raise_for_status response = Some e)
  \/ (exists response, reply = Ok response /\ raise_for_status response = None
                       /\ json response = Raise e).

(** A reply that leaves out the token counts. *)
Definition bare_reply : pyval :=
  PDict [("results", PDict [("compressed_prompt", PStr "deadline?")]);
         ("successful", PBool true)].

(** A reply with 1000 original and 250 compressed tokens. *)
Definition tokens_reply : pyval :=
  PDict [("results", PDict [("compressed_prompt", PStr "deadline?")]);
         ("total_original_tokens", PInt 1000);
         ("total_compressed_tokens", PInt 250);
         ("latency_ms", PInt 12);
         ("successful", PBool true)].




(** The text "a", space, NUL, space, "b". *)
Definition spaced_nul : string := "a " ++ String nul " b".

(** A token of [split]: not empty, no whitespace. *)
Fixpoint nonspace (s : string) : bool :=
  match s with
  | EmptyString => true
  | String c s' => negb (isspace c) && nonspace s'
  end.

Definition is_token (t : string) : bool := truthy t && nonspace t.

(** The last character, if any, is not whitespace. *)
Fixpoint ends_nonspace (s : string) : bool :=
  match s with
  | EmptyString => true
  | String c EmptyString => negb (isspace c)
  | String _ s' => ends_nonspace s'
  end.

Fixpoint mentions (c : ascii) (s : string) : bool :=
  match s with
  | EmptyString => false
  | String a s' => Ascii.eqb a c || mentions c s'
  end.

(** The string asks for a directory: it ends with a slash or with a "."
    component. *)
Definition asks_directory (p : string) : bool :=
  let c := last (split_slash "" p) "" in
  String.eqb c "" || String.eqb c ".".

(** The operating system over a table of files, which lists each file
    under the string [Path] writes for it: doubled slashes and "."
    components lead to the same file, and a string that asks for a
    directory does not find a regular file. *)
Definition posix (files : string -> option node) : filesystem :=
  fun p =>
    match files (path_str p) with
    | Some (RegularFile data) =>
        if asks_directory p then None else Some (RegularFile data)
    | found => found
    end.

(** A data directory with one text file that holds two spaces and a line
    feed. *)
Definition blank_file_system : filesystem :=
  posix (fun p =>
    if String.eqb p "college_data" then Some Directory
    else if String.eqb p "college_data/blank.txt"
         then Some (RegularFile (Ok (list_byte_of_string ("  " ++ nl))))
         else None).

(** A decoder that reads every byte as the character of the same number
    (what the three encodings agree on for ASCII bytes). *)
Definition decode_bytes : string -> list Byte.byte -> option string :=
  fun _ bytes => Some (string_of_list_byte bytes).

(** The corpus cache never holds the empty string. *)
Definition context_ok (st : AppState) : Prop :=
  forall c, _global_context_cache st = Some c -> truthy c = true.

(** The compression cache only holds results whose [successful] is true. *)
Definition compression_ok (st : AppState) : Prop :=
  forall r, _compressed_context_cache st = Some r -> truth (successful r) = true.

Definition no_pages : WebData :=
  {| scraped_data := []; web_errors := []; cached := false |}.

(** A stand-in for the timestamp codec of the library, enough to run the
    cache: it writes an instant as its number of microseconds in decimal,
    and reads such a number as a naive instant. *)
Definition decimal_datetime : datetime_lib :=
  {| isoformat := str_of_Z;
     fromisoformat :=
       fun s => option_map (fun n => Naive (Z.of_int n)) (NilZero.int_of_string s) |}.

Definition empty_storage : storage := fun _ => None.

(** A machine without the data directory. *)
Definition no_files : world :=
  {| fs := fun _ => None;
     glob := fun _ _ => [];
     PDF_LIBRARY := Some pdfplumber;
     pages := fun _ => Ok [];
     decode := fun _ bytes => Some (string_of_list_byte bytes) |}.

(** Scraping switched off in the configuration. *)
Definition scraping_off : Scraper.world :=
  {| Scraper.SCRAPING_ENABLED := false;
     Scraper.CACHE_DIR := "cache";
     Scraper.CACHE_TTL := 3600;
     Scraper.dt := decimal_datetime;
     Scraper.md5 := fun u => u;
     Scraper.read_time := fun _ => 0%Z;
     Scraper.write_time := fun _ => 0%Z;
     Scraper.io_ok := fun _ => true;
     Scraper.http_get := fun _ => Raise (RequestException "Connection refused") |}.

Definition no_targets : Scraper.ScrapeConfig :=
  {| Scraper.base_url := "https://university-website.edu";
     Scraper.targets := [];
     Scraper.headers := None;
     Scraper.timeout := None |}.

(** A server whose compression service answers [reply]; it has no data
    directory and does not scrape, so its context is the local header. *)
Definition serving (reply : pyval) : env :=
  {| local_world := no_files; COLLEGE_DATA_DIR := "college_data";
     web_world := scraping_off; SCRAPING_CONFIG := no_targets;
     cache_files := empty_storage;
     compressor := configured; post := answers reply;
     generate_response := fun _ _ => Ok "The deadline is January 15.";
     py_str := fun _ => "" |}.

(** The JSON body of a chat request. *)
Definition asking (question : string) : pyval := PDict [("message", PStr question)].

(** A storage whose cache file holds a JSON object with no timestamp. *)
Definition undated_storage : storage :=
  write empty_storage "cache/web_cache_k.json"
        (JsonText (PDict [("data", PStr "page")])).

(** The entry [save_json_cache] writes at the instant [t]. *)
Definition cache_entry (dt : datetime_lib) (t : Z) (payload : pyval) : pyval :=
  PDict [("timestamp", PStr (isoformat dt t)); ("data", payload)].

(** The files the loop counts as loaded and as failed. *)
Definition loads (w : world) (file_path : string) : bool :=
  match extract_by_suffix w file_path with
  | Some doc => negb (has_error doc)
  | None => false
  end.

Definition fails (w : world) (file_path : string) : bool :=
  match extract_by_suffix w file_path with
  | Some doc => has_error doc
  | None => false
  end.

Definition keys {V : Type} (d : list (string * V)) : list string := map fst d.

(** A directory with the two files a.pdf and a.txt, both readable. *)
Definition twin_world : world :=
  {| fs := posix (fun p =>
             if String.eqb p "college_data" then Some Directory
             else if String.eqb p "college_data/a.pdf"
                  then Some (RegularFile (Ok []))
             else if String.eqb p "college_data/a.txt"
                  then Some (RegularFile (Ok (list_byte_of_string "Deadline: Jan 15.")))
             else None);
     glob := fun dir pattern =>
               if String.eqb pattern "*.pdf" then [dir ++ "/a.pdf"]
               else if String.eqb pattern "*.txt" then [dir ++ "/a.txt"]
               else [];
     PDF_LIBRARY := Some pdfplumber;
     pages := fun _ => Ok [Ok (Some "Fee: $75.")];
     decode := decode_bytes |}.


(** [h] occurs in [s]. *)
Definition occurs (h s : string) : Prop := exists pre post, s = pre ++ h ++ post.

(** The text of the live-data header line. *)
Definition live_header_line : string := "=== LIVE DATA FROM UNIVERSITY WEBSITE ===".

(** The local-files section and the live-data section of the merged text. *)
Definition local_section (local_data : LocalCorpus) : string :=
  join nl (LOCAL_HEADER :: local_parts (files_data local_data)).

Definition live_section (web_data : WebData) : string :=
  join nl (LIVE_HEADER :: web_parts (scraped_data web_data)).

(** A corpus whose first document holds the text of the live-data header
    line. *)
Definition quoting_corpus : LocalCorpus :=
  {| files_data :=
       [("notes", {| filename := "notes.txt"; content := live_header_line;
                     metadata := [("encoding", PStr "utf-8")]; Ingest.error := None |});
        ("fees", {| filename := "fees.txt"; content := "Fee: $75.";
                    metadata := [("encoding", PStr "utf-8")]; Ingest.error := None |})];
     errors := [];
     summary := {| total_files := 2; Ingest.successful := 2; failed := 0 |} |}.

(** The corpus of the end-to-end scenario, and one scraped page. *)
Definition admissions_corpus : LocalCorpus :=
  {| files_data :=
       [("admissions",
         {| filename := "admissions.txt"; content := "Deadline: Jan 15. Fee: $75.";
            metadata := [("encoding", PStr "utf-8")]; Ingest.error := None |})];
     errors := [];
     summary := {| total_files := 1; Ingest.successful := 1; failed := 0 |} |}.

Definition tuition_page : WebData :=
  {| scraped_data :=
       [("/tuition", {| url := "https://university-website.edu/tuition";
                        page_content := "Tuition: $9000.";
                        selectors_found := ["tuition_table"] |})];
     web_errors := []; cached := false |}.

(** ** Further predicates and sample inputs *)

(** Every character of [s] satisfies [P]. *)
Fixpoint all_chars (P : ascii -> bool) (s : string) : bool :=
  match s with
  | EmptyString => true
  | String c s' => P c && all_chars P s'
  end.

(** The first character, if any, is not whitespace. *)
Definition starts_nonspace (s : string) : bool :=
  match s with
  | EmptyString => true
  | String c _ => negb (isspace c)
  end.

(** A character that is not whitespace, or is the plain space. *)
Definition plain (c : ascii) : bool := negb (isspace c) || Ascii.eqb c " ".

Definition not_nul (c : ascii) : bool := negb (Ascii.eqb c nul).

(** A text file and a PDF without text, side by side. *)
Definition scanned_world : world :=
  {| fs := posix (fun p =>
             if String.eqb p "college_data" then Some Directory
             else if String.eqb p "college_data/scan.pdf"
                  then Some (RegularFile (Ok []))
             else None);
     glob := fun dir pattern =>
               if String.eqb pattern "*.pdf" then [dir ++ "/scan.pdf"] else [];
     PDF_LIBRARY := Some PyPDF2;
     pages := fun _ => Ok [Ok None; Ok (Some "")];
     decode := decode_bytes |}.

(** A page has no text. *)
Definition no_text (page : res (option string)) : Prop :=
  page = Ok None \/ page = Ok (Some "").


(** The line the loop appends to [errors] for a failed file. *)
Definition error_line (w : world) (file_path : string) : string :=
  path_name file_path ++ ": "
  ++ match extract_by_suffix w file_path with
     | Some doc => match Ingest.error doc with Some m => m | None => "" end
     | None => ""
     end.

(** The same world with another directory listing. *)
Definition relisted (w : world) (listing : string -> string -> list string) : world :=
  {| fs := fs w; glob := listing; PDF_LIBRARY := PDF_LIBRARY w;
     pages := pages w; decode := decode w |}.

(** A directory with the text files fees.txt, which has a text, and
    blank.txt, which has only spaces. *)
Definition texts_world : world :=
  {| fs := posix (fun p =>
             if String.eqb p "college_data" then Some Directory
             else if String.eqb p "college_data/fees.txt"
                  then Some (RegularFile (Ok (list_byte_of_string "Fee: $75.")))
             else if String.eqb p "college_data/blank.txt"
                  then Some (RegularFile (Ok (list_byte_of_string "  ")))
             else None);
     glob := fun dir pattern =>
               if String.eqb pattern "*.txt"
               then [dir ++ "/fees.txt"; dir ++ "/blank.txt"] else [];
     PDF_LIBRARY := Some pdfplumber;
     pages := fun _ => Ok [];
     decode := decode_bytes |}.

(** The listing of [texts_world] in the opposite order. *)
Definition blank_first : string -> string -> list string :=
  fun dir pattern =>
    if String.eqb pattern "*.txt"
    then [dir ++ "/blank.txt"; dir ++ "/fees.txt"] else [].

(** *** The scraper *)

Definition full_url (config : Scraper.ScrapeConfig) (target : Scraper.ScrapeTarget)
  : string :=
  Scraper.base_url config ++ Scraper.target_url target.

(** The request the scraper sends for a target. *)
Definition request_of (config : Scraper.ScrapeConfig) (target : Scraper.ScrapeTarget)
  : Scraper.GetRequest :=
  {| Scraper.get_url := full_url config target;
     Scraper.get_headers :=
       match Scraper.headers config with Some h => h | None => [] end;
     Scraper.get_timeout :=
       match Scraper.timeout config with Some t => t | None => 10%Z end |}.

(** The cache file of a target. *)
Definition cache_file (w : Scraper.world) (config : Scraper.ScrapeConfig)
    (target : Scraper.ScrapeTarget) : string :=
  Scraper.cache_file_of w (full_url config target).

(** What fetching a target gives: the page as the scraper records it, or
    the exception raised by the request or by a selector. *)
Definition live_outcome (w : Scraper.world) (config : Scraper.ScrapeConfig)
    (target : Scraper.ScrapeTarget) : res pyval :=
  match Scraper.http_get w (request_of config target) with
  | Raise e => Raise e
  | Ok page =>
      match Scraper.extract_content page (Scraper.selectors target) [] with
      | Raise e => Raise e
      | Ok extracted_content =>
          Ok (Scraper.scraped_info
                {| url := full_url config target;
                   page_content := sanitize_text (join " " (map snd extracted_content));
                   selectors_found := map fst extracted_content |})
      end
  end.

(** The error line of a target whose fetch raised [e]. *)
Definition scrape_error_line (config : Scraper.ScrapeConfig)
    (target : Scraper.ScrapeTarget) (e : exn) : string :=
  if Scraper.is_request_exception e
  then "Failed to scrape " ++ full_url config target ++ ": " ++ str_of_exn e
  else "Error parsing " ++ full_url config target ++ ": " ++ str_of_exn e.

(** The pages and the error lines of the targets, in order. *)
Definition live_pages (w : Scraper.world) (config : Scraper.ScrapeConfig)
    (todo : list Scraper.ScrapeTarget) : list (string * pyval) :=
  flat_map (fun target =>
              match live_outcome w config target with
              | Ok info => [(Scraper.target_url target, info)]
              | Raise _ => []
              end) todo.

Definition live_errors (w : Scraper.world) (config : Scraper.ScrapeConfig)
    (todo : list Scraper.ScrapeTarget) : list string :=
  flat_map (fun target =>
              match live_outcome w config target with
              | Ok _ => []
              | Raise e => [scrape_error_line config target e]
              end) todo.

(** The storage after the targets were fetched and cached, in order. *)
Definition cached_storage (w : Scraper.world) (config : Scraper.ScrapeConfig)
    (todo : list Scraper.ScrapeTarget) (fs : storage) : storage :=
  fold_left (fun fs target =>
               match live_outcome w config target with
               | Ok info =>
                   snd (save_json_cache (Scraper.dt w) fs
                          (Scraper.write_time w (full_url config target))
                          (Scraper.io_ok w (cache_file w config target))
                          (cache_file w config target) info)
               | Raise _ => fs
               end) todo fs.

(** A site of two pages: /admissions answers, /tuition times out. *)
Definition admissions_target : Scraper.ScrapeTarget :=
  {| Scraper.target_url := "/admissions";
     Scraper.selectors := [("main_content", "div.content"); ("deadlines", "table.deadlines")] |}.

Definition tuition_target : Scraper.ScrapeTarget :=
  {| Scraper.target_url := "/tuition";
     Scraper.selectors := [("fees", "table.fees")] |}.

Definition site_config : Scraper.ScrapeConfig :=
  {| Scraper.base_url := "https://university-website.edu";
     Scraper.targets := [admissions_target; tuition_target];
     Scraper.headers := Some [("User-Agent", "UniversityAdmissionsBot/1.0 (Educational Purpose)")];
     Scraper.timeout := Some 10%Z |}.

Definition admissions_html : Scraper.Page :=
  fun selector =>
    if String.eqb selector "div.content" then Ok ["Apply online."; "Fee: $75."]
    else Ok [].

Definition site_world : Scraper.world :=
  {| Scraper.SCRAPING_ENABLED := true;
     Scraper.CACHE_DIR := "cache";
     Scraper.CACHE_TTL := 3600;
     Scraper.dt := decimal_datetime;
     Scraper.md5 := fun u => u;
     Scraper.read_time := fun _ => 60000000%Z;
     Scraper.write_time := fun _ => 0%Z;
     Scraper.io_ok := fun _ => true;
     Scraper.http_get :=
       fun request =>
         if String.eqb (Scraper.get_url request)
                       "https://university-website.edu/admissions"
         then Ok admissions_html
         else Raise (Timeout "Read timed out.") |}.

(** The same site one minute later, unreachable. *)
Definition offline_world : Scraper.world :=
  {| Scraper.SCRAPING_ENABLED := true;
     Scraper.CACHE_DIR := "cache";
     Scraper.CACHE_TTL := 3600;
     Scraper.dt := decimal_datetime;
     Scraper.md5 := fun u => u;
     Scraper.read_time := fun _ => 60000000%Z;
     Scraper.write_time := fun _ => 60000000%Z;
     Scraper.io_ok := fun _ => true;
     Scraper.http_get := fun _ => Raise (RequestException "Connection refused") |}.

(** The configuration with the page that answers only. *)
Definition admissions_only : Scraper.ScrapeConfig :=
  {| Scraper.base_url := "https://university-website.edu";
     Scraper.targets := [admissions_target];
     Scraper.headers := None;
     Scraper.timeout := None |}.

(** The page a target gave when it was fetched. *)
Definition page_of (w : Scraper.world) (config : Scraper.ScrapeConfig)
    (target : Scraper.ScrapeTarget) : pyval :=
  match live_outcome w config target with
  | Ok info => info
  | Raise _ => PNone
  end.

(** A storage whose cache file for /admissions holds an object with
    neither timestamp nor data. *)
Definition poisoned_storage : storage :=
  write empty_storage (cache_file site_world site_config admissions_target)
        (JsonText (PDict [("note", PStr "edited by hand")])).

(** A service that answers with status 200 and a body that is not JSON. *)
Definition answers_html : Request -> res Response :=
  fun _ => Ok {| raise_for_status := None;
                 json := Raise (RequestsJSONDecodeError
                                  "Expecting value: line 1 column 1 (char 0)") |}.

(** The event is a chat request. *)
Definition is_chat (ev : event) : Prop :=
  match ev with
  | Chat _ _ => True
  | Reload _ => False
  end.

(** The statistics [chat] reports for a compression result. *)
Definition stats_of (r : CompressionResult) (now_cached : bool) : compression_stats :=
  {| stats_original_tokens := original_tokens r;
     stats_compressed_tokens := compressed_tokens r;
     stats_compression_ratio := compression_ratio r;
     stats_successful := successful r;
     stats_latency_ms := latency_ms r;
     stats_cached := now_cached |}.

(** A data directory with the admissions file. *)
Definition admissions_world : world :=
  {| fs := posix (fun p =>
             if String.eqb p "college_data" then Some Directory
             else if String.eqb p "college_data/admissions.txt"
                  then Some (RegularFile
                               (Ok (list_byte_of_string "Deadline: Jan 15. Fee: $75.")))
             else None);
     glob := fun dir pattern =>
               if String.eqb pattern "*.txt" then [dir ++ "/admissions.txt"] else [];
     PDF_LIBRARY := Some pdfplumber;
     pages := fun _ => Ok [];
     decode := decode_bytes |}.

(** A server whose corpus is the admissions file. *)
Definition admissions_server (reply : pyval) : env :=
  {| local_world := admissions_world; COLLEGE_DATA_DIR := "college_data";
     web_world := scraping_off; SCRAPING_CONFIG := no_targets;
     cache_files := empty_storage;
     compressor := configured; post := answers reply;
     generate_response := fun _ _ => Ok "The deadline is January 15.";
     py_str := fun _ => "" |}.

(** A machine on which the cache file of /admissions was written by hand
    and holds a string where the scraper stores a page. *)
Definition hand_made_cache : storage :=
  write empty_storage (cache_file site_world admissions_only admissions_target)
        (JsonText (PDict [("data", PStr "page")])).

Definition hand_made_cache_server (reply : pyval) : env :=
  {| local_world := no_files; COLLEGE_DATA_DIR := "college_data";
     web_world := site_world; SCRAPING_CONFIG := admissions_only;
     cache_files := hand_made_cache;
     compressor := configured; post := answers reply;
     generate_response := fun _ _ => Ok "The deadline is January 15.";
     py_str := fun _ => "" |}.

(** The state of a server that answered one question. *)
Definition warmed_up : AppState :=
  fst (fst (chat (serving tokens_reply) (asking "What is the deadline?") startup)).

(** *** The generation client *)

Definition GENERIC_ERROR : string :=
  "I'm having trouble processing your request right now. "
  ++ "Please try again or rephrase your question.".

(** The server [base] with the generation client of gemini_client.py:
    [client] is what [get_gemini_client()] returns or raises and
    [generate_content] is the model. *)
Definition with_gemini (base : env) (client : res Gemini.GeminiClient)
    (generate_content : string -> res string) : env :=
  {| local_world := local_world base; COLLEGE_DATA_DIR := COLLEGE_DATA_DIR base;
     web_world := web_world base; SCRAPING_CONFIG := SCRAPING_CONFIG base;
     cache_files := cache_files base;
     compressor := compressor base; post := post base;
     generate_response :=
       Gemini.generate_response client (py_str base) generate_content;
     py_str := py_str base |}.

(** One exchange of a conversation. *)
Definition exchange (user assistant : string) : pyval :=
  PDict [("user", PStr user); ("assistant", PStr assistant)].

(** Six exchanges, the first being the oldest. *)
Definition six_exchanges : list pyval :=
  [exchange "q1" "a1"; exchange "q2" "a2"; exchange "q3" "a3";
   exchange "q4" "a4"; exchange "q5" "a5"; exchange "q6" "a6"].

Definition sample_client : Gemini.GeminiClient :=
  {| Gemini.api_key := "g-test"; Gemini.model_name := "gemini-2.5-flash";
     Gemini.system_instruction := "You are an admissions assistant." |}.

(** A model that answers with spaces only. *)
Definition blank_model : string -> res string := fun _ => Ok "   ".

(** The dictionaries of pages, as [scrape_website] records them. *)
Definition recorded (pages : list (string * ScrapedPage)) : list (string * pyval) :=
  map (fun kv => (fst kv, Scraper.scraped_info (snd kv))) pages.


(* ====================================================================== *)
(** * Properties *)

Example sanitize_sample :
  sanitize_text ("Test   with   excessive    whitespace" ++ nl ++ nl ++ "and newlines")
  = "Test with excessive whitespace and newlines".
Proof. reflexivity. Qed.

(** ** Floats: the division of two integers *)

Section Floats.
Local Open Scope Q_scope.





Lemma pow2_lt j k : (j < k)%Z -> pow2 j < pow2 k.
Proof. intros H. apply Qpower_lt_compat_l; [exact H | reflexivity]. Qed.



















End Floats.

(** ** The prompt compressor *)

(** With no key, [compress] takes the first branch. *)
Lemma compress_unconfigured self post context prompt model rate :
  api_key self = "" ->
  compress self post context prompt model rate
  = (set_error "API key not configured"
       (set_compressed_prompt (PStr (fallback_prompt context prompt)) initial_result),
     []).
Proof.
  intros Hkey. unfold compress. rewrite Hkey. reflexivity.
Qed.

(** C2.  When no API key is configured, [compress] sends no request and
    returns, whatever the service would do, the result with
    [successful = False], [error = "API key not configured"] and the prompt
    [context + "\n\nUser Query: " + question]. *)
Theorem compress_without_api_key :
  forall self post context question model rate,
    api_key self = "" ->
    let '(result, sent) := compress self post context question model rate in
    sent = []
    /\ successful result = PBool false
    /\ error result = Some "API key not configured"
    /\ compressed_prompt result
       = PStr (context ++ nl ++ nl ++ "User Query: " ++ question).
Proof.
  intros self post context question model rate Hkey.
  rewrite (compress_unconfigured self post context question model rate Hkey).
  cbn. repeat split.
Qed.

(** The scenario of the specification: no key, "ctx", "What is the
    deadline?". *)
Lemma compress_without_api_key_witness :
  api_key unconfigured = ""
  /\ let '(result, sent) :=
       compress unconfigured (answers null_tokens_reply)
                "ctx" "What is the deadline?" None None in
     sent = []
     /\ successful result = PBool false
     /\ error result = Some "API key not configured"
     /\ compressed_prompt result
        = PStr ("ctx" ++ nl ++ nl ++ "User Query: " ++ "What is the deadline?").
Proof.
  split.
  - reflexivity.
  - apply (compress_without_api_key unconfigured (answers null_tokens_reply)
             "ctx" "What is the deadline?" None None).
    reflexivity.
Defined.

(** *** Failures of the compression call *)

Lemma error_message_not_empty self e : error_message self e <> "".
Proof. destruct e; discriminate. Qed.

(** Whatever exception the [try] block raises, the matching [except] clause
    sets a non-empty message and the uncompressed prompt. *)
Lemma compress_failure_fallback self post context prompt model rate r e :
  api_key self <> "" ->
  try_block context prompt
    (post (build_request self context prompt model rate)) initial_result
  = (r, Raise e) ->
  let result := fst (compress self post context prompt model rate) in
  error result = Some (error_message self e)
  /\ compressed_prompt result = PStr (fallback_prompt context prompt)
  /\ successful result = successful r.
Proof.
  intros Hkey Htry. unfold compress.
  destruct (api_key self) as [|c k]; [congruence|]. cbn [truthy negb].
  rewrite Htry. cbn. repeat split.
Qed.

Lemma try_block_raised_before_parsing context prompt reply e r :
  raised_before_parsing reply e ->
  try_block context prompt reply r = (r, Raise e).
Proof.
  intros [-> | [(response & -> & Hs) | (response & -> & Hs & Hj)]].
  - reflexivity.
  - unfold try_block, bind, lift. rewrite Hs. reflexivity.
  - unfold try_block, bind, lift. rewrite Hs, Hj. reflexivity.
Qed.

(** For these categories the result is unsuccessful, with the message of
    the category and the uncompressed prompt. *)
Lemma compress_named_failure self post context prompt model rate e :
  api_key self <> "" ->
  raised_before_parsing (post (build_request self context prompt model rate)) e ->
  let result := fst (compress self post context prompt model rate) in
  successful result = PBool false
  /\ error result = Some (error_message self e)
  /\ error_message self e <> ""
  /\ compressed_prompt result = PStr (fallback_prompt context prompt).
Proof.
  intros Hkey Hraised.
  pose proof (try_block_raised_before_parsing context prompt _ e initial_result Hraised)
    as Htry.
  destruct (compress_failure_fallback self post context prompt model rate _ e Hkey Htry)
    as (He & Hp & Hs).
  cbn zeta. rewrite He, Hp, Hs. repeat split. apply error_message_not_empty.
Qed.

(** C1.  An exception raised after the reply's fields were copied leaves
    the copied [successful] in place: with a reply that reports success and
    a [null] token count, [compress] returns the fallback prompt and an
    error message together with [successful = True]. *)
Theorem compress_fallback_reports_success :
  let result :=
    fst (compress configured (answers null_tokens_reply)
                  "ctx" "What is the deadline?" None None) in
  successful result = PBool true
  /\ error result
     = Some ("Unexpected error in Scaledown compression: "
             ++ "'>' not supported between instances of 'NoneType' and 'int'")
  /\ compressed_prompt result
     = PStr ("ctx" ++ nl ++ nl ++ "User Query: " ++ "What is the deadline?").
Proof. cbn. repeat split. Qed.

(** *** The compression ratio *)






(** The example of the specification: 1000 tokens compressed to 250 give
    the ratio 4.0. *)
Example ratio_1000_250 :
  (compression_ratio
     (fst (compress configured (answers tokens_reply)
                    "ctx" "What is the deadline?" None None)) == 4)%Q.
Proof. vm_compute. reflexivity. Qed.

(** Without token counts the ratio is the one of the character counts:
    3 + 21 characters over the 9 of the compressed prompt, which is the
    float 2.6666666666666665. *)
Example ratio_without_counts :
  (compression_ratio
     (fst (compress configured (answers bare_reply)
                    "ctx" "What is the deadline?" None None))
   == 6004799503160661 # 2251799813685248)%Q.
Proof. vm_compute. reflexivity. Qed.

(** ** Sanitization *)

(** C6.  Removing the NUL characters after the whitespace was collapsed
    can put two spaces side by side, which a second pass collapses: on
    [spaced_nul] the first pass gives "a  b" and the second "a b". *)
Theorem sanitize_text_twice_differs :
  sanitize_text spaced_nul = "a  b"
  /\ sanitize_text (sanitize_text spaced_nul) = "a b"
  /\ sanitize_text (sanitize_text spaced_nul) <> sanitize_text spaced_nul.
Proof. cbn. repeat split. discriminate. Qed.

(** *** Texts without NUL characters

    The defect is in the order of the two steps only: on a text that has no
    NUL character a second pass changes nothing. *)

Lemma app_assoc_str (a b c : string) : (a ++ b) ++ c = a ++ b ++ c.
Proof. induction a as [|x a IH]; cbn; [reflexivity | rewrite IH; reflexivity]. Qed.

Lemma app_empty_str (a : string) : a ++ "" = a.
Proof. induction a as [|x a IH]; cbn; [reflexivity | rewrite IH; reflexivity]. Qed.

Lemma nonspace_app a b : nonspace (a ++ b) = nonspace a && nonspace b.
Proof.
  induction a as [|x a IH]; cbn; [reflexivity|].
  rewrite IH, andb_assoc. reflexivity.
Qed.

Lemma mentions_app c a b : mentions c (a ++ b) = mentions c a || mentions c b.
Proof.
  induction a as [|x a IH]; cbn; [reflexivity|].
  rewrite IH, orb_assoc. reflexivity.
Qed.

Lemma flush_tokens cur :
  nonspace cur = true -> Forall (fun t => is_token t = true) (flush cur).
Proof.
  intros H. unfold flush. destruct (truthy cur) eqn:E; constructor; [|constructor].
  unfold is_token. rewrite E, H. reflexivity.
Qed.

Lemma split_from_tokens s :
  forall cur, nonspace cur = true ->
              Forall (fun t => is_token t = true) (split_from cur s).
Proof.
  induction s as [|c s IH]; intros cur Hcur; cbn.
  - apply flush_tokens. exact Hcur.
  - destruct (isspace c) eqn:E.
    + apply Forall_app. split; [apply flush_tokens; exact Hcur | apply IH; reflexivity].
    + apply IH. rewrite nonspace_app, Hcur. cbn. rewrite E. reflexivity.
Qed.

Lemma split_from_mentions c s :
  forall cur, mentions c cur = false -> mentions c s = false ->
              Forall (fun t => mentions c t = false) (split_from cur s).
Proof.
  induction s as [|a s IH]; intros cur Hcur Hs; cbn.
  - unfold flush. destruct (truthy cur); repeat constructor. exact Hcur.
  - cbn in Hs. apply orb_false_iff in Hs. destruct Hs as [Ha Hs].
    destruct (isspace a).
    + apply Forall_app. split.
      * unfold flush. destruct (truthy cur); repeat constructor. exact Hcur.
      * apply IH; [reflexivity | exact Hs].
    + apply IH; [|exact Hs]. rewrite mentions_app, Hcur. cbn. rewrite Ha. reflexivity.
Qed.

(** Reading a run that has no whitespace only extends the current token. *)
Lemma split_from_run t :
  nonspace t = true ->
  forall cur rest, split_from cur (t ++ rest) = split_from (cur ++ t) rest.
Proof.
  induction t as [|c t IH]; intros Ht cur rest; cbn.
  - rewrite app_empty_str. reflexivity.
  - cbn in Ht. apply andb_true_iff in Ht. destruct Ht as [Hc Ht].
    apply negb_true_iff in Hc. rewrite Hc, (IH Ht), app_assoc_str. reflexivity.
Qed.

(** [split] undoes [join] on tokens. *)
Lemma split_join_tokens tokens :
  Forall (fun t => is_token t = true) tokens -> split (join " " tokens) = tokens.
Proof.
  induction 1 as [|t ts Ht Hts IH]; [reflexivity|].
  unfold is_token in Ht. apply andb_true_iff in Ht. destruct Ht as [Hne Hns].
  unfold split in *. destruct ts as [|t' ts].
  - cbn [join]. rewrite <- (app_empty_str t) at 1.
    rewrite (split_from_run t Hns). cbn. unfold flush. rewrite Hne. reflexivity.
  - change (join " " (t :: t' :: ts)) with (t ++ " " ++ join " " (t' :: ts)).
    rewrite (split_from_run t Hns). cbn [append split_from].
    change (isspace " ") with true. cbn iota. rewrite IH.
    unfold flush. rewrite Hne. reflexivity.
Qed.

Lemma join_tokens_head tokens :
  Forall (fun t => is_token t = true) tokens ->
  tokens = [] \/ exists c rest, isspace c = false /\ join " " tokens = String c rest.
Proof.
  intros [|t ts Ht _]; [left; reflexivity | right].
  unfold is_token in Ht. destruct t as [|c t]; [discriminate Ht|].
  cbn in Ht. apply andb_true_iff in Ht. destruct Ht as [Hc _].
  apply negb_true_iff in Hc. exists c.
  destruct ts; eexists; (split; [exact Hc | reflexivity]).
Qed.

Lemma lstrip_join_tokens ts :
  Forall (fun t => is_token t = true) ts -> lstrip (join " " ts) = join " " ts.
Proof.
  intros H. destruct (join_tokens_head ts H) as [-> | (c & rest & Hc & ->)].
  - reflexivity.
  - cbn. rewrite Hc. reflexivity.
Qed.

Lemma rstrip_ends_nonspace s : ends_nonspace s = true -> rstrip s = s.
Proof.
  induction s as [|c s IH]; [reflexivity|].
  intros H. cbn [rstrip]. destruct s as [|c' s].
  - cbn in *. apply negb_true_iff in H. rewrite H. reflexivity.
  - rewrite (IH H). cbn [truthy negb]. rewrite andb_false_r. reflexivity.
Qed.

Lemma ends_nonspace_app a b :
  truthy b = true -> ends_nonspace (a ++ b) = ends_nonspace b.
Proof.
  intros Hb. induction a as [|x a IH]; [reflexivity|].
  cbn [append ends_nonspace]. rewrite IH.
  destruct (a ++ b) eqn:E; [|reflexivity].
  destruct a; cbn in E; [subst b; discriminate Hb | discriminate E].
Qed.

Lemma nonspace_ends t : nonspace t = true -> ends_nonspace t = true.
Proof.
  induction t as [|c t IH]; [reflexivity|].
  cbn. intros H. apply andb_true_iff in H. destruct H as [Hc Ht].
  destruct t; [exact Hc | apply IH; exact Ht].
Qed.

Lemma ends_nonspace_join tokens :
  Forall (fun t => is_token t = true) tokens ->
  ends_nonspace (join " " tokens) = true.
Proof.
  induction 1 as [|t ts Ht Hts IH]; [reflexivity|].
  unfold is_token in Ht. apply andb_true_iff in Ht. destruct Ht as [_ Hns].
  destruct ts as [|t' ts].
  - apply nonspace_ends. exact Hns.
  - change (join " " (t :: t' :: ts)) with (t ++ " " ++ join " " (t' :: ts)).
    destruct (join_tokens_head (t' :: ts) Hts) as [E | (c & rest & _ & E)];
      [discriminate E|].
    rewrite ends_nonspace_app by reflexivity.
    rewrite E in *. exact IH.
Qed.

Lemma strip_join_tokens ts :
  Forall (fun t => is_token t = true) ts -> strip (join " " ts) = join " " ts.
Proof.
  intros H. unfold strip. rewrite (lstrip_join_tokens ts H).
  apply rstrip_ends_nonspace, ends_nonspace_join. exact H.
Qed.

Lemma remove_char_absent c s : mentions c s = false -> remove_char c s = s.
Proof.
  induction s as [|a s IH]; [reflexivity|].
  cbn. intros H. apply orb_false_iff in H. destruct H as [Ha Hs].
  rewrite Ha, (IH Hs). reflexivity.
Qed.

Lemma mentions_join c tokens :
  mentions c " " = false ->
  Forall (fun t => mentions c t = false) tokens ->
  mentions c (join " " tokens) = false.
Proof.
  intros Hsp. induction 1 as [|t ts Ht Hts IH]; [reflexivity|].
  destruct ts as [|t' ts]; [exact Ht|].
  change (join " " (t :: t' :: ts)) with (t ++ " " ++ join " " (t' :: ts)).
  rewrite !mentions_app, Ht, Hsp, IH. reflexivity.
Qed.

(** On a text without NUL, [sanitize_text] is the tokens joined by single
    spaces. *)
Lemma sanitize_text_without_nul x :
  mentions nul x = false -> sanitize_text x = join " " (split x).
Proof.
  intros Hx. unfold sanitize_text. destruct x as [|c x]; [reflexivity|].
  cbn [truthy negb].
  assert (Htok : Forall (fun t => is_token t = true) (split (String c x))).
  { apply split_from_tokens. reflexivity. }
  rewrite remove_char_absent.
  - apply strip_join_tokens. exact Htok.
  - apply mentions_join; [reflexivity|].
    apply split_from_mentions; [reflexivity | exact Hx].
Qed.

(** [sanitize_text] is idempotent on the texts that have no NUL character. *)
Lemma sanitize_text_idempotent_without_nul x :
  mentions nul x = false -> sanitize_text (sanitize_text x) = sanitize_text x.
Proof.
  intros Hx. rewrite (sanitize_text_without_nul x Hx).
  assert (Htok : Forall (fun t => is_token t = true) (split x)).
  { apply split_from_tokens. reflexivity. }
  rewrite sanitize_text_without_nul.
  - rewrite (split_join_tokens _ Htok). reflexivity.
  - apply mentions_join; [reflexivity|].
    apply split_from_mentions; [reflexivity | exact Hx].
Qed.

(** ** The document extractor *)

Lemma read_with_first decode before encoding after bytes text :
  Forall (fun enc => decode enc bytes = None) before ->
  decode encoding bytes = Some text ->
  read_with decode (before ++ encoding :: after)%list bytes
  = Some (sanitize_text text, encoding).
Proof.
  intros Hbefore Hdec. induction Hbefore as [|enc before Henc _ IH]; cbn.
  - rewrite Hdec. reflexivity.
  - rewrite Henc. exact IH.
Qed.

(** C10.  For an existing regular .txt file that can be read, if the first
    encoding that decodes its bytes gives a text which sanitizes to the
    empty string, [extract_text_from_txt] returns a document with
    [error = "Failed to decode text file"] and empty content, although the
    encoding that decoded it is recorded. *)
Theorem empty_text_reported_undecodable :
  forall fs decode file_path bytes before encoding after text,
    validate_file_path fs file_path [".txt"] = true ->
    fs file_path = Some (RegularFile (Ok bytes)) ->
    encodings = (before ++ encoding :: after)%list ->
    Forall (fun enc => decode enc bytes = None) before ->
    decode encoding bytes = Some text ->
    sanitize_text text = "" ->
    let doc := extract_text_from_txt fs decode file_path in
    Ingest.error doc = Some "Failed to decode text file"
    /\ content doc = ""
    /\ metadata doc = [("encoding", PStr encoding)]
    /\ filename doc = path_name file_path.
Proof.
  intros fs decode file_path bytes before encoding after text
         Hvalid Hfile Henc Hbefore Hdec Hempty.
  unfold extract_text_from_txt. rewrite Hvalid, Hfile. cbn [negb].
  rewrite Henc, (read_with_first decode before encoding after bytes text Hbefore Hdec).
  rewrite Hempty. cbn. repeat split.
Qed.

(** The file of two spaces and a line feed decodes under the first
    encoding and is reported as undecodable. *)
Lemma empty_text_reported_undecodable_witness :
  let doc := extract_text_from_txt blank_file_system decode_bytes
               "college_data/blank.txt" in
  Ingest.error doc = Some "Failed to decode text file"
  /\ content doc = ""
  /\ metadata doc = [("encoding", PStr "utf-8")]
  /\ filename doc = path_name "college_data/blank.txt".
Proof.
  refine (empty_text_reported_undecodable blank_file_system decode_bytes
            "college_data/blank.txt" (list_byte_of_string ("  " ++ nl))
            [] "utf-8" ["latin-1"; "cp1252"] ("  " ++ nl) _ _ _ _ _ _);
    [reflexivity | reflexivity | reflexivity | constructor
    | reflexivity | reflexivity].
Defined.

(** ** The corpus merger and the context cache *)

Lemma startswith_app p s : startswith p (p ++ s) = true.
Proof.
  induction p as [|a p IH]; cbn.
  - reflexivity.
  - rewrite Ascii.eqb_refl. exact IH.
Qed.

Lemma startswith_refl p : startswith p p = true.
Proof.
  induction p as [|a p IH]; cbn.
  - reflexivity.
  - rewrite Ascii.eqb_refl. exact IH.
Qed.

Lemma startswith_join_head sep x rest : startswith x (join sep (x :: rest)) = true.
Proof.
  destruct rest as [|y rest]; cbn [join].
  - apply startswith_refl.
  - apply startswith_app.
Qed.

Lemma merge_data_parts local_data web_data :
  exists rest, merge_data local_data web_data = join nl (LOCAL_HEADER :: rest).
Proof.
  unfold merge_data. destruct (scraped_data web_data); eexists; reflexivity.
Qed.

Lemma merge_data_starts_with_header local_data web_data :
  startswith LOCAL_HEADER (merge_data local_data web_data) = true.
Proof.
  destruct (merge_data_parts local_data web_data) as [rest ->].
  apply startswith_join_head.
Qed.

Lemma merge_data_truthy local_data web_data :
  truthy (merge_data local_data web_data) = true.
Proof.
  pose proof (merge_data_starts_with_header local_data web_data) as H.
  destruct (merge_data local_data web_data); [discriminate H | reflexivity].
Qed.

(** The merge of the loaders' dictionaries, when it does not raise, also
    begins with the local header. *)
Lemma merge_scraped_starts_with_header py_str local_data web_data merged :
  Context.merge_data py_str local_data web_data = Ok merged ->
  startswith LOCAL_HEADER merged = true.
Proof.
  unfold Context.merge_data.
  destruct (Scraper.scraped_data web_data) as [|page pages].
  - intros H.
    assert (E : merged = join nl (LOCAL_HEADER :: local_parts (files_data local_data)))
      by (cbn [app] in H; congruence).
    rewrite E. apply startswith_join_head.
  - destruct (Context.web_parts py_str (page :: pages)) as [parts|e]; [|discriminate].
    destruct (Context.joinable _ parts) as [texts|e]; [|discriminate].
    intros H.
    assert (E : merged
                = join nl (LOCAL_HEADER
                           :: (local_parts (files_data local_data)
                               ++ [LIVE_HEADER]) ++ texts)%list)
      by (cbn [app] in H; congruence).
    rewrite E. apply startswith_join_head.
Qed.

Lemma get_complete_context_truthy e result :
  get_complete_context e = Ok result ->
  truthy (Context.context result) = true.
Proof.
  unfold get_complete_context, Context.get_complete_context.
  destruct (if true && Scraper.SCRAPING_ENABLED (web_world e)
            then Scraper.scrape_website (web_world e) (SCRAPING_CONFIG e) true
                   (cache_files e)
            else _) as [[web_result fs'] sent].
  cbn [fst].
  destruct (Context.merge_data (py_str e) _ web_result) as [merged|ex] eqn:Hmerge;
    [|discriminate].
  intros [= <-]. cbn [Context.context].
  pose proof (merge_scraped_starts_with_header _ _ _ _ Hmerge) as H.
  destruct merged; [discriminate H | reflexivity].
Qed.

Lemma load_global_context_truthy e st :
  context_ok st ->
  context_ok (fst (load_global_context e st))
  /\ forall context, snd (load_global_context e st) = Ok context ->
                     truthy context = true.
Proof.
  intros Hok. unfold load_global_context.
  destruct (_global_context_cache st) as [c|] eqn:Hc; cbn.
  - split; [exact Hok | intros context [= <-]; apply Hok; exact Hc].
  - destruct (get_complete_context e) as [result|ex] eqn:Hget; cbn.
    + rewrite (get_complete_context_truthy e result Hget). split.
      * intros c [= <-]. apply (get_complete_context_truthy e result Hget).
      * intros context [= <-]. apply (get_complete_context_truthy e result Hget).
    + split; [exact Hok | discriminate].
Qed.

Lemma load_global_context_keeps_compression e st :
  _compressed_context_cache (fst (load_global_context e st))
  = _compressed_context_cache st.
Proof.
  unfold load_global_context. destruct (_global_context_cache st); [reflexivity|].
  destruct (get_complete_context e); reflexivity.
Qed.

Lemma compress_or_reuse_keeps_context e st context user_message :
  _global_context_cache (fst (fst (compress_or_reuse e st context user_message)))
  = _global_context_cache st.
Proof.
  unfold compress_or_reuse. destruct (_compressed_context_cache st).
  - reflexivity.
  - destruct (compress_context _ _ _ _) as [r sent].
    destruct (truth (successful r)); reflexivity.
Qed.

(** The shape of [chat]: either it answers without having changed a
    cache, or it has loaded the context, compresses or reuses, and
    generates. *)
Lemma chat_cases e data st :
  (exists status message code,
      chat e data st = (st, ErrorResponse status message code, [])
      /\ code <> "NO_CONTEXT")
  \/ (exists user_message history context,
         get_message data = Ok user_message
         /\ get data "history" (PList []) = Ok history
         /\ truthy user_message = true
         /\ snd (load_global_context e st) = Ok context
         /\ let st1 := fst (load_global_context e st) in
            if truthy context then
              let step := compress_or_reuse e st1 context user_message in
              fst (fst (chat e data st)) = fst (fst step)
              /\ snd (chat e data st) = snd step
              /\ (forall m, snd (fst (chat e data st)) <> ErrorResponse 500 m "NO_CONTEXT")
            else
              chat e data st
              = (st1, ErrorResponse 500
                        "Chatbot context not available. Please try again later."
                        "NO_CONTEXT", [])).
Proof.
  unfold chat. destruct (truth data); cbn [negb].
  2:{ left. do 3 eexists. split; [reflexivity | discriminate]. }
  destruct (get_message data) as [user_message|ex].
  2:{ left. do 3 eexists. split; [reflexivity | discriminate]. }
  destruct (get data "history" (PList [])) as [history|ex].
  2:{ left. do 3 eexists. split; [reflexivity | discriminate]. }
  destruct (truthy user_message) eqn:Hmsg; cbn [negb].
  2:{ left. do 3 eexists. split; [reflexivity | discriminate]. }
  destruct (load_global_context e st) as [st1 [context|ex]] eqn:Hload.
  2:{ assert (Hst : st1 = st).
      { revert Hload. unfold load_global_context.
        destruct (_global_context_cache st); [intros H; discriminate H|].
        destruct (get_complete_context e); [intros H; discriminate H|].
        intros [= <- _]. reflexivity. }
      rewrite Hst. left. do 3 eexists. split; [reflexivity | discriminate]. }
  right. exists user_message, history, context.
  split; [reflexivity|]. split; [reflexivity|]. split; [exact Hmsg|].
  split; [reflexivity|]. cbn [fst snd].
  destruct (truthy context); cbn [negb]; [|reflexivity].
  destruct (compress_or_reuse e st1 context user_message) as [[st2 cr] sent].
  destruct (generate_response e (compressed_prompt cr) history);
    cbn; repeat split; discriminate.
Qed.

Lemma chat_context_ok e data st :
  context_ok st ->
  context_ok (fst (fst (chat e data st)))
  /\ forall m, snd (fst (chat e data st)) <> ErrorResponse 500 m "NO_CONTEXT".
Proof.
  intros Hok.
  destruct (chat_cases e data st)
    as [(status & message & code & -> & Hcode)
       | (user_message & history & context & _ & _ & _ & Hload & Hrest)].
  - cbn. split; [exact Hok | intros m [= _ _ Hc]; congruence].
  - destruct (load_global_context_truthy e st Hok) as [Hok1 Htruthy].
    cbn zeta in Hrest. rewrite (Htruthy context Hload) in Hrest.
    destruct Hrest as (Hst & _ & Hresp). split; [|exact Hresp].
    rewrite Hst. intros c Hc.
    rewrite compress_or_reuse_keeps_context in Hc. apply Hok1. exact Hc.
Qed.

Lemma reload_context_ok e st : context_ok (fst (reload_context e st)).
Proof.
  unfold reload_context.
  pose proof (load_global_context_truthy e
                {| _global_context_cache := None; _compressed_context_cache := None |})
    as H.
  destruct (load_global_context e _) as [st1 [context|ex]]; cbn in *;
    apply H; intros c [=].
Qed.

(** An invariant of every request holds after every sequence of requests. *)
Lemma run_invariant (P : AppState -> Prop) :
  P startup ->
  (forall st ev, P st -> P (handle_event st ev)) ->
  forall events, P (run events).
Proof.
  intros Hstart Hstep events. unfold run.
  revert Hstart. generalize startup as st.
  induction events as [|ev events IH]; intros st Hst; cbn.
  - exact Hst.
  - apply IH. apply Hstep. exact Hst.
Qed.

Lemma run_context_ok events : context_ok (run events).
Proof.
  apply run_invariant.
  - intros c [=].
  - intros st [e data | e] Hok.
    + exact (proj1 (chat_context_ok e data st Hok)).
    + exact (reload_context_ok e st).
Qed.

(** C8.  Whatever the local corpus and the scraped data, both empty
    included, the merged context begins with the local-files header line
    and so is not empty; hence after any sequence of requests the corpus
    cache is never empty and [chat] never answers NO_CONTEXT. *)
Theorem merged_context_never_empty :
  (forall local_data web_data,
      startswith LOCAL_HEADER (merge_data local_data web_data) = true
      /\ merge_data local_data web_data <> "")
  /\ (forall events e data message,
         snd (fst (chat e data (run events)))
         <> ErrorResponse 500 message "NO_CONTEXT").
Proof.
  split.
  - intros local_data web_data. split.
    + apply merge_data_starts_with_header.
    + pose proof (merge_data_truthy local_data web_data) as H.
      intros Heq. rewrite Heq in H. discriminate H.
  - intros events e data message.
    exact (proj2 (chat_context_ok e data (run events) (run_context_ok events)) message).
Qed.

(** ** The compression cache *)

Lemma compress_or_reuse_compression_ok e st context user_message :
  compression_ok st ->
  compression_ok (fst (fst (compress_or_reuse e st context user_message))).
Proof.
  intros Hok. unfold compress_or_reuse.
  destruct (_compressed_context_cache st) as [cached_result|] eqn:Hc.
  - exact Hok.
  - destruct (compress_context _ _ _ _) as [r sent].
    destruct (truth (successful r)) eqn:Hs; cbn.
    + intros r' [= <-]. exact Hs.
    + exact Hok.
Qed.

(** A result that is not successful is not stored, and the request was
    sent: the next call finds the cache empty and compresses again. *)
Lemma compress_or_reuse_unsuccessful e st context user_message :
  _compressed_context_cache st = None ->
  truth (successful (fst (compress_context (compressor e) (post e)
                                           context user_message))) = false ->
  let step := compress_or_reuse e st context user_message in
  _compressed_context_cache (fst (fst step)) = None
  /\ snd (fst step) = fst (compress_context (compressor e) (post e)
                                            context user_message)
  /\ snd step = snd (compress_context (compressor e) (post e) context user_message).
Proof.
  intros Hnone Hs. unfold compress_or_reuse. rewrite Hnone.
  destruct (compress_context _ _ _ _) as [r sent]. cbn in *. rewrite Hs.
  repeat split. exact Hnone.
Qed.

Lemma chat_compression_ok e data st :
  compression_ok st -> compression_ok (fst (fst (chat e data st))).
Proof.
  intros Hok.
  assert (Hok1 : compression_ok (fst (load_global_context e st))).
  { intros r Hr. rewrite load_global_context_keeps_compression in Hr.
    apply Hok. exact Hr. }
  destruct (chat_cases e data st)
    as [(status & message & code & -> & _)
       | (user_message & history & context & _ & _ & _ & _ & Hrest)].
  - exact Hok.
  - cbn zeta in Hrest.
    destruct (truthy context).
    + destruct Hrest as (-> & _).
      apply compress_or_reuse_compression_ok. exact Hok1.
    + rewrite Hrest. exact Hok1.
Qed.

Lemma reload_compression_ok e st : compression_ok (fst (reload_context e st)).
Proof.
  unfold reload_context.
  pose proof (load_global_context_keeps_compression e
                {| _global_context_cache := None; _compressed_context_cache := None |})
    as H.
  destruct (load_global_context e _) as [st1 [context|ex]]; cbn in *;
    intros r Hr; rewrite H in Hr; discriminate Hr.
Qed.

(** After any sequence of requests, a cached compression result has a true
    [successful]. *)
Lemma run_compression_ok events : compression_ok (run events).
Proof.
  apply run_invariant.
  - intros r [=].
  - intros st [e data | e] Hok.
    + exact (chat_compression_ok e data st Hok).
    + exact (reload_compression_ok e st).
Qed.

(** [reload_context] empties the compression cache. *)
Lemma reload_clears_compression e st :
  _compressed_context_cache (fst (reload_context e st)) = None.
Proof.
  unfold reload_context.
  pose proof (load_global_context_keeps_compression e
                {| _global_context_cache := None; _compressed_context_cache := None |})
    as H.
  destruct (load_global_context e _) as [st1 [context|ex]]; exact H.
Qed.

(** C9.  When the service reports success with a [null] token count, the
    fallback result of [compress] has a true [successful], so [chat] stores
    it: the cache then holds a result with an error message and the
    uncompressed prompt, and the next request, although the service now
    answers well, sends nothing and reuses it. *)
Theorem fallback_result_is_cached :
  let st := fst (fst (chat (serving null_tokens_reply)
                           (asking "What is the deadline?") startup)) in
  (exists r,
      _compressed_context_cache st = Some r
      /\ error r
         = Some ("Unexpected error in Scaledown compression: "
                 ++ "'>' not supported between instances of 'NoneType' and 'int'")
      /\ compressed_prompt r
         = PStr (fallback_prompt LOCAL_HEADER "What is the deadline?"))
  /\ snd (chat (serving tokens_reply) (asking "And the fee?") st) = [].
Proof.
  cbn. split.
  - eexists. repeat split.
  - reflexivity.
Qed.

(** ** The disk cache *)

Lemma write_same fs path f : write fs path f path = Some f.
Proof. unfold write. rewrite String.eqb_refl. reflexivity. Qed.

Lemma load_stored_entry dt TTL fs now key t payload :
  fs key = Some (JsonText (cache_entry dt t payload)) ->
  fromisoformat dt (isoformat dt t) = Some (Naive t) ->
  load_json_cache dt TTL fs now key
  = if (now - t >? TTL * 1000000)%Z then PNone else cache_entry dt t payload.
Proof.
  intros Hfile Hcodec. unfold load_json_cache, load_json_cache_try.
  rewrite Hfile. cbn. rewrite Hcodec. cbn.
  destruct (now - t >? TTL * 1000000)%Z; reflexivity.
Qed.




(** ** The local corpus loader *)

Lemma dict_set_keys_new {V : Type} k (v : V) d :
  ~ In k (keys d) -> keys (dict_set k v d) = (keys d ++ [k])%list.
Proof.
  induction d as [|[k' v'] d IH]; cbn; intros Hnot.
  - reflexivity.
  - destruct (String.eqb k' k) eqn:E.
    + apply String.eqb_eq in E. exfalso. apply Hnot. left. exact E.
    + cbn. f_equal. apply IH. intros Hin. apply Hnot. right. exact Hin.
Qed.

Lemma dict_set_keys_old {V : Type} k (v : V) d :
  In k (keys d) -> keys (dict_set k v d) = keys d.
Proof.
  induction d as [|[k' v'] d IH]; cbn; intros Hin.
  - contradiction.
  - destruct (String.eqb k' k) eqn:E.
    + reflexivity.
    + cbn. f_equal. apply IH. destruct Hin as [Heq | Hin]; [|exact Hin].
      apply String.eqb_neq in E. congruence.
Qed.

(** The counters and the error list after the loop. *)
Lemma load_loop_counts w files :
  forall result,
    let final := fold_left (load_one w) files result in
    total_files (summary final) = total_files (summary result)
    /\ Ingest.successful (summary final)
       = Ingest.successful (summary result) + List.length (filter (loads w) files)
    /\ failed (summary final)
       = failed (summary result) + List.length (filter (fails w) files)
    /\ List.length (errors final)
       = List.length (errors result) + List.length (filter (fails w) files).
Proof.
  induction files as [|file_path files IH]; intros result; cbn zeta.
  - cbn. repeat split; lia.
  - cbn [fold_left filter].
    destruct (IH (load_one w result file_path)) as (Ht & Hs & Hf & He).
    rewrite Ht, Hs, Hf, He. clear IH Ht Hs Hf He.
    unfold load_one, loads, fails.
    destruct (extract_by_suffix w file_path) as [doc|].
    + destruct (has_error doc); cbn; rewrite ?length_app; cbn; repeat split; lia.
    + cbn. repeat split; lia.
Qed.

Lemma load_one_loaded w result file_path :
  loads w file_path = true ->
  exists doc,
    files_data (load_one w result file_path)
    = dict_set (path_stem file_path) doc (files_data result).
Proof.
  unfold loads, load_one.
  destruct (extract_by_suffix w file_path) as [doc|]; [|discriminate].
  destruct (has_error doc); [discriminate|]. intros _. exists doc. reflexivity.
Qed.

Lemma load_one_not_loaded w result file_path :
  loads w file_path = false ->
  files_data (load_one w result file_path) = files_data result.
Proof.
  unfold loads, load_one.
  destruct (extract_by_suffix w file_path) as [doc|]; [|reflexivity].
  destruct (has_error doc); [reflexivity | discriminate].
Qed.

(** The keys of the documents mapping after the loop, when no two loaded
    files share a stem. *)
Lemma load_loop_keys w files :
  forall result,
    NoDup (keys (files_data result)
           ++ map path_stem (filter (loads w) files))%list ->
    keys (files_data (fold_left (load_one w) files result))
    = (keys (files_data result) ++ map path_stem (filter (loads w) files))%list.
Proof.
  induction files as [|file_path files IH]; intros result Hnodup.
  - cbn. rewrite app_nil_r. reflexivity.
  - cbn [fold_left filter] in *.
    destruct (loads w file_path) eqn:E.
    + destruct (load_one_loaded w result file_path E) as [doc Hdoc].
      cbn [map] in *.
      assert (Hfresh : ~ In (path_stem file_path) (keys (files_data result))).
      { intros Hin. apply NoDup_remove_2 in Hnodup. apply Hnodup.
        apply in_or_app. left. exact Hin. }
      rewrite IH; rewrite Hdoc, (dict_set_keys_new _ _ _ Hfresh), <- app_assoc.
      * reflexivity.
      * exact Hnodup.
    + rewrite IH; rewrite (load_one_not_loaded w result file_path E).
      * reflexivity.
      * exact Hnodup.
Qed.

(** What the loader does hold: over an existing directory, the counters
    and the error list count the loaded and the failed files, in whatever
    order they are listed; the mapping has one document per loaded file
    when the loaded files have pairwise distinct stems. *)
Lemma load_local_data_counts w data_dir :
  fs w data_dir <> None ->
  let all_files := flat_map (glob w data_dir) ["*.pdf"; "*.txt"] in
  let corpus := load_local_data w data_dir in
  let N := List.length (filter (loads w) all_files) in
  let M := List.length (filter (fails w) all_files) in
  total_files (summary corpus) = List.length all_files
  /\ Ingest.successful (summary corpus) = N
  /\ failed (summary corpus) = M
  /\ List.length (errors corpus) = M
  /\ (NoDup (map path_stem (filter (loads w) all_files)) ->
      List.length (files_data corpus) = N).
Proof.
  intros Hdir. cbn zeta. unfold load_local_data.
  destruct (fs w data_dir) as [n|]; [|congruence].
  match goal with
  | |- context [fold_left (load_one w) ?files ?r] =>
      destruct (load_loop_counts w files r) as (Ht & Hs & Hf & He);
      pose proof (load_loop_keys w files r) as Hk
  end.
  cbn zeta in *. rewrite Ht, Hs, Hf, He. cbn. repeat split.
  intros Hnodup. specialize (Hk Hnodup). cbn in Hk.
  unfold keys in Hk. apply (f_equal (@List.length string)) in Hk.
  rewrite !length_map in Hk. exact Hk.
Qed.

(** Every listed file whose suffix is .pdf or .txt is either loaded or
    failed, so the two counters add up to the number of files. *)
Lemma loads_or_fails w file_path :
  lower (path_suffix file_path) = ".pdf" \/ lower (path_suffix file_path) = ".txt" ->
  loads w file_path = negb (fails w file_path).
Proof.
  unfold loads, fails, extract_by_suffix. intros [-> | ->]; cbn.
  - reflexivity.
  - reflexivity.
Qed.

Lemma count_split {A : Type} (f g : A -> bool) (l : list A) :
  Forall (fun x => f x = negb (g x)) l ->
  List.length (filter f l) + List.length (filter g l) = List.length l.
Proof.
  induction 1 as [|x l Hx _ IH]; cbn.
  - reflexivity.
  - rewrite Hx. destruct (g x); cbn; lia.
Qed.

(** The counters do not depend on the order of the listing. *)
Lemma count_permutation {A : Type} (f : A -> bool) (l l' : list A) :
  Permutation l l' -> List.length (filter f l) = List.length (filter f l').
Proof.
  induction 1 as [| x l l' _ IH | x y l | l l' l'' _ IH1 _ IH2]; cbn.
  - reflexivity.
  - destruct (f x); cbn; congruence.
  - destruct (f x), (f y); reflexivity.
  - congruence.
Qed.

(** C4.  The documents are keyed by the stem of the file name, so of two
    files that differ only in their extension the second replaces the
    first: with a.pdf and a.txt both extracted without error, the loader
    counts two successful files and no error but returns one document. *)
Theorem same_stem_keeps_one_document :
  let corpus := load_local_data twin_world "college_data" in
  total_files (summary corpus) = 2
  /\ Ingest.successful (summary corpus) = 2
  /\ failed (summary corpus) = 0
  /\ errors corpus = []
  /\ List.length (files_data corpus) = 1
  /\ map (fun kv => (fst kv, filename (snd kv), content (snd kv))) (files_data corpus)
     = [("a", "a.txt", "Deadline: Jan 15.")].
Proof. cbn. repeat split. Qed.

(** ** Substrings *)

Lemma startswith_true p s : startswith p s = true <-> exists post, s = p ++ post.
Proof.
  revert s. induction p as [|a p IH]; intros s; cbn.
  - split; [intros _; exists s; reflexivity | reflexivity].
  - destruct s as [|b s].
    + split; [discriminate | intros [post H]; discriminate H].
    + rewrite andb_true_iff, IH. split.
      * intros [Hab [post ->]]. apply Ascii.eqb_eq in Hab. subst b.
        exists post. reflexivity.
      * intros [post [= -> ->]]. split; [apply Ascii.eqb_refl | exists post; reflexivity].
Qed.

Lemma contains_unfold h s :
  contains h s
  = startswith h s
    || match s with EmptyString => false | String _ s' => contains h s' end.
Proof. destruct s; reflexivity. Qed.

Lemma contains_true h s : contains h s = true <-> occurs h s.
Proof.
  split.
  - induction s as [|a s IH]; rewrite contains_unfold, orb_true_iff.
    + intros [H | H]; [|discriminate H].
      apply startswith_true in H. destruct H as [post ->]. exists "", post. reflexivity.
    + intros [H | H].
      * apply startswith_true in H. destruct H as [post ->]. exists "", post. reflexivity.
      * destruct (IH H) as (pre & post & ->). exists (String a pre), post. reflexivity.
  - intros (pre & post & ->). induction pre as [|a pre IH].
    + rewrite contains_unfold. cbn [append].
      rewrite (proj2 (startswith_true h (h ++ post))); [reflexivity|].
      exists post. reflexivity.
    + cbn [append]. rewrite contains_unfold, IH. apply orb_true_r.
Qed.

Lemma occurs_cons h a s : occurs h s -> occurs h (String a s).
Proof. intros (pre & post & ->). exists (String a pre), post. reflexivity. Qed.

(** A prefix of [x ++ c :: y] in which [c] does not occur is a prefix of [x]. *)
Lemma prefix_before_char h c :
  mentions c h = false ->
  forall x y post, x ++ String c y = h ++ post -> exists post', x = h ++ post'.
Proof.
  induction h as [|b h IH]; intros Hc x y post Heq.
  - exists x. reflexivity.
  - cbn in Hc. apply orb_false_iff in Hc. destruct Hc as [Hb Hc].
    destruct x as [|a x]; cbn in Heq.
    + injection Heq as Hcb _. subst b. rewrite Ascii.eqb_refl in Hb. discriminate Hb.
    + injection Heq as Hab Heq. subst b.
      destruct (IH Hc x y post Heq) as [post' ->]. exists post'. reflexivity.
Qed.

(** An occurrence of [h] cannot cover a character that [h] does not have. *)
Lemma occurs_split_char h c x y :
  mentions c h = false ->
  occurs h (x ++ String c y) -> occurs h x \/ occurs h y.
Proof.
  intros Hc (pre & post & Heq). revert x Heq.
  induction pre as [|a pre IH]; intros x Heq.
  - cbn in Heq. destruct (prefix_before_char h c Hc x y post Heq) as [post' ->].
    left. exists "", post'. reflexivity.
  - destruct x as [|b x]; cbn in Heq.
    + injection Heq as _ Hy. right. exists pre, post. exact Hy.
    + injection Heq as Hab Heq. subst b.
      destruct (IH x Heq) as [H | H]; [left | right].
      * apply occurs_cons. exact H.
      * exact H.
Qed.

(** An occurrence of [h] cannot start at a character other than its first. *)
Lemma occurs_skip_front b h g s :
  mentions b g = false ->
  occurs (String b h) (g ++ s) -> occurs (String b h) s.
Proof.
  induction g as [|a g IH]; cbn; intros Hb Hocc.
  - exact Hocc.
  - apply orb_false_iff in Hb. destruct Hb as [Hab Hb]. apply IH; [exact Hb|].
    destruct Hocc as ([|a' pre] & post & Heq); cbn in Heq.
    + injection Heq as Heq _. subst a. rewrite Ascii.eqb_refl in Hab. discriminate Hab.
    + injection Heq as _ Heq. exists pre, post. exact Heq.
Qed.

Lemma snoc_inj s t a b : s ++ String a "" = t ++ String b "" -> s = t /\ a = b.
Proof.
  revert t. induction s as [|x s IH]; intros [|y t] Heq; cbn in Heq.
  - injection Heq as ->. split; reflexivity.
  - injection Heq as _ Heq. destruct t; discriminate Heq.
  - injection Heq as _ Heq. destruct s; discriminate Heq.
  - injection Heq as -> Heq. destruct (IH t Heq) as [-> ->]. split; reflexivity.
Qed.

Lemma snoc_cases s : s = "" \/ exists t a, s = t ++ String a "".
Proof.
  induction s as [|x s IH].
  - left. reflexivity.
  - right. destruct IH as [-> | (t & a & ->)].
    + exists "", x. reflexivity.
    + exists (String x t), a. reflexivity.
Qed.

(** An occurrence of [h] cannot end at a character other than its last. *)
Lemma occurs_drop_last h b a s :
  a <> b ->
  occurs (h ++ String b "") (s ++ String a "") -> occurs (h ++ String b "") s.
Proof.
  intros Hab (pre & post & Heq).
  destruct (snoc_cases post) as [-> | (post' & c & ->)].
  - rewrite app_empty_str, <- app_assoc_str in Heq.
    apply snoc_inj in Heq. destruct Heq as [_ Heq]. contradiction.
  - assert (E : pre ++ (h ++ String b "") ++ post' ++ String c ""
               = (pre ++ (h ++ String b "") ++ post') ++ String c "").
    { rewrite !app_assoc_str. reflexivity. }
    rewrite E in Heq. apply snoc_inj in Heq. destruct Heq as [-> _].
    exists pre, post'. reflexivity.
Qed.

Lemma occurs_skip_back h b g :
  mentions b g = false ->
  forall s, occurs (h ++ String b "") (s ++ g) -> occurs (h ++ String b "") s.
Proof.
  induction g as [|a g IH]; cbn; intros Hb s Hocc.
  - rewrite app_empty_str in Hocc. exact Hocc.
  - apply orb_false_iff in Hb. destruct Hb as [Hab Hb].
    apply (occurs_drop_last h b a s).
    + intros ->. rewrite Ascii.eqb_refl in Hab. discriminate Hab.
    + apply (IH Hb). rewrite app_assoc_str. exact Hocc.
Qed.

(** An occurrence in a joined text of a string without the separator
    character lies in one of the parts. *)
Lemma occurs_join h c parts :
  mentions c h = false ->
  occurs h (join (String c "") parts) ->
  h = "" \/ exists part, In part parts /\ occurs h part.
Proof.
  intros Hc. induction parts as [|x parts IH]; cbn [join].
  - intros (pre & post & Heq). left.
    destruct pre; [|discriminate Heq]. destruct h; [reflexivity | discriminate Heq].
  - destruct parts as [|y parts].
    + intros H. right. exists x. split; [left; reflexivity | exact H].
    + intros H. cbn [append] in H.
      apply (occurs_split_char h c x _ Hc) in H. destruct H as [H | H].
      * right. exists x. split; [left; reflexivity | exact H].
      * destruct (IH H) as [-> | (part & Hin & Hocc)]; [left; reflexivity|].
        right. exists part. split; [right; exact Hin | exact Hocc].
Qed.

(** ** The sections of the merged context *)

Lemma LIVE_HEADER_line : LIVE_HEADER = nl ++ nl ++ live_header_line ++ nl.
Proof. reflexivity. Qed.

Lemma join_app sep (l1 l2 : list string) :
  l1 <> [] -> l2 <> [] ->
  join sep (l1 ++ l2)%list = join sep l1 ++ sep ++ join sep l2.
Proof.
  intros H1 H2. induction l1 as [|x l1 IH]; [congruence|].
  destruct l1 as [|y l1].
  - destruct l2 as [|z l2]; [congruence | reflexivity].
  - change (join sep ((x :: y :: l1) ++ l2)%list)
      with (x ++ sep ++ join sep ((y :: l1) ++ l2)%list).
    rewrite IH by discriminate.
    change (join sep (x :: y :: l1)) with (x ++ sep ++ join sep (y :: l1)).
    rewrite !app_assoc_str. reflexivity.
Qed.

Lemma merge_data_without_pages local_data web_data :
  scraped_data web_data = [] ->
  merge_data local_data web_data = local_section local_data.
Proof. intros H. unfold merge_data. rewrite H. reflexivity. Qed.

Lemma merge_data_with_pages local_data web_data :
  scraped_data web_data <> [] ->
  merge_data local_data web_data
  = local_section local_data ++ nl ++ live_section web_data.
Proof.
  intros H. unfold merge_data, local_section, live_section.
  destruct (scraped_data web_data) as [|page pages]; [congruence|].
  apply join_app; discriminate.
Qed.

(** The header line occurs in the local section only where a file name or
    a content has it. *)
Lemma local_section_free_of_header local_data :
  (forall key doc, In (key, doc) (files_data local_data) ->
     contains live_header_line (filename doc) = false
     /\ contains live_header_line (content doc) = false) ->
  contains live_header_line (local_section local_data) = false.
Proof.
  intros Hfree. destruct (contains live_header_line (local_section local_data)) eqn:E;
    [exfalso | reflexivity].
  apply contains_true in E. unfold local_section in E.
  change nl with (String (ascii_of_nat 10) "") in E at 1.
  apply occurs_join in E; [|reflexivity].
  destruct E as [E | (part & [<- | Hin] & Hocc)]; [discriminate E | |].
  - apply contains_true in Hocc. discriminate Hocc.
  - unfold local_parts in Hin. apply in_flat_map in Hin.
    destruct Hin as ([key doc] & Hdoc & Hpart).
    destruct (Hfree key doc Hdoc) as [Hname Hcontent].
    cbn [snd In] in Hpart. destruct Hpart as [<- | [<- | []]].
    + assert (Hocc' : occurs live_header_line (filename doc)).
      { apply (occurs_skip_back "=== LIVE DATA FROM UNIVERSITY WEBSITE ==" "="
                 (" ---" ++ nl)); [reflexivity|].
        apply (occurs_skip_front "=" "== LIVE DATA FROM UNIVERSITY WEBSITE ==="
                 (nl ++ "--- ")); [reflexivity|].
        exact Hocc. }
      apply contains_true in Hocc'. congruence.
    + apply contains_true in Hocc. congruence.
Qed.

(** C5 as the specification words it fails: with no scraped page, the
    merged text of [quoting_corpus] contains the live-data header, the
    blank line before it and the line break after it included. *)
Lemma merged_local_text_contains_live_header :
  scraped_data no_pages = []
  /\ contains LIVE_HEADER (merge_data quoting_corpus no_pages) = true.
Proof. split; reflexivity. Qed.

(** C5, amended.  If the scraped input is empty, [merge_data] returns the
    local-files section alone, which contains the live-data header line
    only if a local file name or content contains it; if the scraped input
    is not empty, the result is the local-files section followed by a line
    break and the live-data section, which begins with the live-data
    header; and equal inputs, in the same order, give the same text. *)
Theorem merge_data_sections :
  forall local_data web_data,
    (scraped_data web_data = [] ->
       merge_data local_data web_data = local_section local_data
       /\ ((forall key doc, In (key, doc) (files_data local_data) ->
              contains live_header_line (filename doc) = false
              /\ contains live_header_line (content doc) = false) ->
           contains live_header_line (merge_data local_data web_data) = false))
    /\ (scraped_data web_data <> [] ->
          merge_data local_data web_data
          = local_section local_data ++ nl ++ live_section web_data
          /\ startswith LOCAL_HEADER (local_section local_data) = true
          /\ startswith LIVE_HEADER (live_section web_data) = true)
    /\ (forall local_data' web_data',
          files_data local_data' = files_data local_data ->
          scraped_data web_data' = scraped_data web_data ->
          merge_data local_data' web_data' = merge_data local_data web_data).
Proof.
  intros local_data web_data. split; [|split].
  - intros Hempty. rewrite (merge_data_without_pages _ _ Hempty).
    split; [reflexivity|]. apply local_section_free_of_header.
  - intros Hpages. split; [|split].
    + apply merge_data_with_pages. exact Hpages.
    + apply startswith_join_head.
    + apply startswith_join_head.
  - intros local_data' web_data' Hl Hw. unfold merge_data. rewrite Hl, Hw. reflexivity.
Qed.

(** The admissions corpus, merged with no page and with one page. *)
Lemma merge_data_sections_witness :
  contains live_header_line (merge_data admissions_corpus no_pages) = false
  /\ merge_data admissions_corpus tuition_page
     = local_section admissions_corpus ++ nl ++ live_section tuition_page.
Proof.
  split.
  - destruct (merge_data_sections admissions_corpus no_pages) as (Hempty & _ & _).
    destruct (Hempty eq_refl) as [_ Hfree]. apply Hfree.
    intros key doc [[= <- <-] | []]. split; reflexivity.
  - destruct (merge_data_sections admissions_corpus tuition_page) as (_ & Hpages & _).
    apply Hpages. discriminate.
Defined.

(* ====================================================================== *)
(** * Further properties of the code *)

(** ** utils.py: [truncate_text] *)

Lemma length_take n s : String.length (UtilsText.take n s) = Nat.min n (String.length s).
Proof.
  revert s. induction n as [|n IH]; intros [|c s]; cbn; try reflexivity.
  rewrite IH. reflexivity.
Qed.

Lemma take_prefix n s : exists dropped, s = UtilsText.take n s ++ dropped.
Proof.
  revert s. induction n as [|n IH]; intros s.
  - exists s. reflexivity.
  - destruct s as [|c s]; [exists ""; reflexivity|].
    destruct (IH s) as [dropped H]. exists dropped. cbn. rewrite <- H. reflexivity.
Qed.

Lemma length_append a b : String.length (a ++ b) = String.length a + String.length b.
Proof. induction a as [|c a IH]; cbn; [reflexivity | rewrite IH; reflexivity]. Qed.

(** X1.  [truncate_text] returns a text of at most [max_length] characters
    unchanged.  A longer text is cut to exactly [max_length] characters, a
    prefix of the text followed by the suffix, when the suffix is no longer
    than [max_length]; when the suffix is longer than [max_length] the
    result is longer than [max_length]. *)
Theorem truncate_text_length :
  forall text max_length suffix,
    let result := UtilsText.truncate_text text max_length suffix in
    ((Z.of_nat (String.length text) <= max_length)%Z -> result = text)
    /\ ((max_length < Z.of_nat (String.length text))%Z ->
        (Z.of_nat (String.length suffix) <= max_length)%Z ->
        Z.of_nat (String.length result) = max_length
        /\ exists kept dropped, text = kept ++ dropped /\ result = kept ++ suffix)
    /\ ((max_length < Z.of_nat (String.length text))%Z ->
        (max_length < Z.of_nat (String.length suffix))%Z ->
        (max_length < Z.of_nat (String.length result))%Z).
Proof.
  intros text max_length suffix. cbn zeta. unfold UtilsText.truncate_text.
  split; [|split].
  - intros H. apply Z.leb_le in H. rewrite H. reflexivity.
  - intros Hlong Hsuffix.
    destruct (Z.of_nat (String.length text) <=? max_length)%Z eqn:E;
      [apply Z.leb_le in E; lia|].
    unfold UtilsText.slice_to.
    destruct (0 <=? max_length - Z.of_nat (String.length suffix))%Z eqn:E0;
      [|apply Z.leb_gt in E0; lia].
    split.
    + rewrite length_append, length_take. lia.
    + destruct (take_prefix (Z.to_nat (max_length - Z.of_nat (String.length suffix))) text)
        as [dropped H].
      eexists; exists dropped. split; [exact H | reflexivity].
  - intros Hlong Hsuffix.
    destruct (Z.of_nat (String.length text) <=? max_length)%Z eqn:E;
      [apply Z.leb_le in E; lia|].
    unfold UtilsText.slice_to.
    destruct (0 <=? max_length - Z.of_nat (String.length suffix))%Z eqn:E0;
      [apply Z.leb_le in E0; lia|].
    rewrite length_append, length_take. lia.
Qed.

(** "Hello, world!" cut to 8 characters, and "abcdef" cut to 2: the second
    result has 8 characters. *)
Lemma truncate_text_length_witness :
  (Z.of_nat (String.length (UtilsText.truncate_text "Hello, world!" 8 "...")) = 8%Z
   /\ exists kept dropped,
       "Hello, world!" = kept ++ dropped
       /\ UtilsText.truncate_text "Hello, world!" 8 "..." = kept ++ "...")
  /\ (2 < Z.of_nat (String.length (UtilsText.truncate_text "abcdef" 2 "...")))%Z.
Proof.
  split.
  - apply (truncate_text_length "Hello, world!" 8 "..."); cbn; lia.
  - apply (truncate_text_length "abcdef" 2 "..."); cbn; lia.
Defined.

(** ** utils.py: what [sanitize_text] returns *)

Lemma all_chars_app P a b : all_chars P (a ++ b) = all_chars P a && all_chars P b.
Proof.
  induction a as [|c a IH]; cbn; [reflexivity|].
  rewrite IH, andb_assoc. reflexivity.
Qed.

Lemma all_chars_lstrip P s : all_chars P s = true -> all_chars P (lstrip s) = true.
Proof.
  induction s as [|c s IH]; cbn; [reflexivity|].
  intros H. destruct (isspace c); [|exact H].
  apply andb_true_iff in H. apply IH, H.
Qed.

Lemma all_chars_rstrip P s : all_chars P s = true -> all_chars P (rstrip s) = true.
Proof.
  induction s as [|c s IH]; cbn; [reflexivity|].
  intros H. apply andb_true_iff in H. destruct H as [Hc Hs].
  destruct (isspace c && negb (truthy (rstrip s))); [reflexivity|].
  cbn. rewrite Hc, (IH Hs). reflexivity.
Qed.

Lemma all_chars_remove_char P c s :
  all_chars P s = true -> all_chars P (remove_char c s) = true.
Proof.
  induction s as [|a s IH]; cbn; [reflexivity|].
  intros H. apply andb_true_iff in H. destruct H as [Ha Hs].
  destruct (Ascii.eqb a c); [apply IH, Hs|]. cbn. rewrite Ha, (IH Hs). reflexivity.
Qed.

Lemma not_nul_remove_char s : all_chars not_nul (remove_char nul s) = true.
Proof.
  induction s as [|a s IH]; cbn [remove_char all_chars]; [reflexivity|].
  destruct (Ascii.eqb a nul) eqn:E; [exact IH|].
  cbn [all_chars]. unfold not_nul at 1. rewrite E, IH. reflexivity.
Qed.

Lemma nonspace_plain t : nonspace t = true -> all_chars plain t = true.
Proof.
  induction t as [|c t IH]; cbn; [reflexivity|].
  intros H. apply andb_true_iff in H. destruct H as [Hc Ht].
  unfold plain at 1. rewrite Hc, (IH Ht). reflexivity.
Qed.

Lemma plain_join tokens :
  Forall (fun t => is_token t = true) tokens ->
  all_chars plain (join " " tokens) = true.
Proof.
  induction 1 as [|t ts Ht Hts IH]; [reflexivity|].
  unfold is_token in Ht. apply andb_true_iff in Ht. destruct Ht as [_ Hns].
  destruct ts as [|t' ts]; [apply nonspace_plain, Hns|].
  change (join " " (t :: t' :: ts)) with (t ++ " " ++ join " " (t' :: ts)).
  rewrite !all_chars_app, (nonspace_plain t Hns), IH. reflexivity.
Qed.

Lemma starts_nonspace_lstrip s : starts_nonspace (lstrip s) = true.
Proof.
  induction s as [|c s IH]; cbn; [reflexivity|].
  destruct (isspace c) eqn:E; [exact IH|]. cbn. rewrite E. reflexivity.
Qed.

Lemma starts_nonspace_rstrip s :
  starts_nonspace s = true -> starts_nonspace (rstrip s) = true.
Proof.
  destruct s as [|c s]; cbn; [reflexivity|].
  intros H. destruct (isspace c && negb (truthy (rstrip s))); [reflexivity | exact H].
Qed.

Lemma ends_nonspace_rstrip s : ends_nonspace (rstrip s) = true.
Proof.
  induction s as [|c s IH]; cbn [rstrip]; [reflexivity|].
  destruct (rstrip s) as [|c' r] eqn:E; cbn [truthy negb].
  - rewrite andb_true_r. destruct (isspace c) eqn:Ec; cbn; [reflexivity|].
    rewrite Ec. reflexivity.
  - rewrite andb_false_r. exact IH.
Qed.

Lemma mentions_all_chars c s :
  all_chars (fun a => negb (Ascii.eqb a c)) s = true -> mentions c s = false.
Proof.
  induction s as [|a s IH]; cbn; [reflexivity|].
  intros H. apply andb_true_iff in H. destruct H as [Ha Hs].
  apply negb_true_iff in Ha. rewrite Ha, (IH Hs). reflexivity.
Qed.

Lemma sanitize_text_no_nul text : mentions nul (sanitize_text text) = false.
Proof.
  unfold sanitize_text. destruct text as [|c text]; cbn [truthy negb]; [reflexivity|].
  apply mentions_all_chars. unfold strip.
  apply all_chars_rstrip, all_chars_lstrip. apply not_nul_remove_char.
Qed.

(** X2.  Whatever the text, [sanitize_text] returns a text with no NUL
    character, whose only whitespace characters are plain spaces (no tab,
    line break or other separator survives), and which neither starts nor
    ends with whitespace. *)
Theorem sanitize_text_output :
  forall text,
    mentions nul (sanitize_text text) = false
    /\ all_chars plain (sanitize_text text) = true
    /\ starts_nonspace (sanitize_text text) = true
    /\ ends_nonspace (sanitize_text text) = true.
Proof.
  intros text. unfold sanitize_text. destruct text as [|c text]; cbn [truthy negb].
  - repeat split.
  - set (joined := join " " (split (String c text))).
    assert (Htok : Forall (fun t => is_token t = true) (split (String c text))).
    { apply split_from_tokens. reflexivity. }
    split; [apply (sanitize_text_no_nul (String c text))|].
    unfold strip. repeat split.
    + apply all_chars_rstrip, all_chars_lstrip, all_chars_remove_char.
      apply plain_join. exact Htok.
    + apply starts_nonspace_rstrip, starts_nonspace_lstrip.
    + apply ends_nonspace_rstrip.
Qed.

(** X3.  A second pass of [sanitize_text] leaves every text without NUL
    characters as the first pass made it, namely the words of the text
    joined by single spaces; and for every text whatsoever a third pass
    changes nothing after the second. *)
Theorem sanitize_text_settles :
  (forall text,
      mentions nul text = false ->
      sanitize_text text = join " " (split text)
      /\ sanitize_text (sanitize_text text) = sanitize_text text)
  /\ (forall text,
         sanitize_text (sanitize_text (sanitize_text text))
         = sanitize_text (sanitize_text text)).
Proof.
  split.
  - intros text Hnul. split.
    + apply sanitize_text_without_nul. exact Hnul.
    + apply sanitize_text_idempotent_without_nul. exact Hnul.
  - intros text. apply sanitize_text_idempotent_without_nul.
    apply sanitize_text_no_nul.
Qed.

(** On the sample of the source a second pass changes nothing. *)
Lemma sanitize_text_settles_witness :
  let text := "Test   with   excessive    whitespace" ++ nl ++ nl ++ "and newlines" in
  mentions nul text = false
  /\ sanitize_text text = join " " (split text)
  /\ sanitize_text (sanitize_text text) = sanitize_text text.
Proof.
  cbn zeta. split; [reflexivity|].
  apply (proj1 sanitize_text_settles). reflexivity.
Defined.

(** ** utils.py: the disk cache, key by key *)

Lemma write_other fs path f other :
  other <> path -> write fs path f other = fs other.
Proof.
  intros H. unfold write. apply String.eqb_neq in H. rewrite H. reflexivity.
Qed.

(** X4.  A successful [save_json_cache] replaces whatever the file held:
    a load within the TTL of the last save returns the entry of the last
    payload, stamped with the instant of the last save; and it leaves
    every other cache file as it was, so loads of other files are not
    affected. *)
Theorem save_json_cache_last_write_wins :
  forall dt TTL fs key first second t1 t2,
    fromisoformat dt (isoformat dt t2) = Some (Naive t2) ->
    let fs1 := snd (save_json_cache dt fs t1 true key first) in
    let fs2 := snd (save_json_cache dt fs1 t2 true key second) in
    (forall now, (now - t2 <= TTL * 1000000)%Z ->
       load_json_cache dt TTL fs2 now key = cache_entry dt t2 second)
    /\ (forall other now,
          other <> key ->
          load_json_cache dt TTL fs2 now other = load_json_cache dt TTL fs now other).
Proof.
  intros dt TTL fs key first second t1 t2 Hcodec. cbn zeta. split.
  - intros now Hage.
    rewrite (load_stored_entry dt TTL _ now key t2 second).
    + destruct (now - t2 >? TTL * 1000000)%Z eqn:E; [|reflexivity].
      apply Z.gtb_lt in E. lia.
    + cbn. apply write_same.
    + exact Hcodec.
  - intros other now Hother. unfold load_json_cache, load_json_cache_try. cbn.
    rewrite !(write_other _ key _ other Hother). reflexivity.
Qed.

(** Two saves under one key, a load of that key and of another one. *)
Lemma save_json_cache_last_write_wins_witness :
  fromisoformat decimal_datetime (isoformat decimal_datetime 5000000)
  = Some (Naive 5000000)
  /\ let fs1 := snd (save_json_cache decimal_datetime undated_storage 0 true
                                     "cache/a.json" (PStr "old")) in
     let fs2 := snd (save_json_cache decimal_datetime fs1 5000000 true
                                     "cache/a.json" (PStr "new")) in
     load_json_cache decimal_datetime 3600 fs2 6000000 "cache/a.json"
     = cache_entry decimal_datetime 5000000 (PStr "new")
     /\ load_json_cache decimal_datetime 3600 fs2 6000000 "cache/web_cache_k.json"
        = load_json_cache decimal_datetime 3600 undated_storage 6000000
                          "cache/web_cache_k.json".
Proof.
  split; [reflexivity|].
  destruct (save_json_cache_last_write_wins decimal_datetime 3600 undated_storage
              "cache/a.json" (PStr "old") (PStr "new") 0 5000000 eq_refl)
    as [Hsame Hother].
  split.
  - apply (Hsame 6000000%Z). lia.
  - apply (Hother "cache/web_cache_k.json" 6000000%Z). discriminate.
Defined.

(** ** ingest.py: the two extractors *)






Lemma collect_pages_no_text pgs :
  Forall no_text pgs -> collect_pages pgs = Ok [].
Proof.
  induction 1 as [|page pgs Hpage _ IH]; cbn; [reflexivity|].
  destruct Hpage as [-> | ->]; rewrite IH; reflexivity.
Qed.


(** X7.  A PDF whose pages all have no text is not an error: the document
    has an empty content, its page count and no error, and the loader
    counts the file as loaded; an empty text file, by contrast, is a
    failure (C10). *)
Theorem pdf_without_text_is_loaded :
  forall w file_path pgs,
    lower (path_suffix file_path) = ".pdf" ->
    validate_file_path (fs w) file_path [".pdf"] = true ->
    PDF_LIBRARY w <> None ->
    pages w file_path = Ok pgs ->
    Forall no_text pgs ->
    let doc := extract_text_from_pdf (fs w) (PDF_LIBRARY w) (pages w) file_path in
    Ingest.error doc = None
    /\ content doc = ""
    /\ metadata doc = [("pages", PInt (Z.of_nat (List.length pgs)))]
    /\ loads w file_path = true.
Proof.
  intros w file_path pgs Hsuffix Hvalid Hlib Hpages Hnotext. cbn zeta.
  assert (Hdoc : extract_text_from_pdf (fs w) (PDF_LIBRARY w) (pages w) file_path
                 = {| filename := path_name file_path; content := "";
                      metadata := [("pages", PInt (Z.of_nat (List.length pgs)))];
                      Ingest.error := None |}).
  { unfold extract_text_from_pdf. rewrite Hvalid. cbn [negb].
    destruct (PDF_LIBRARY w); [|congruence].
    rewrite Hpages, (collect_pages_no_text pgs Hnotext). reflexivity. }
  rewrite Hdoc. cbn. repeat split.
  unfold loads, extract_by_suffix. rewrite Hsuffix. cbn. rewrite Hdoc. reflexivity.
Qed.

(** A scanned PDF of two pages. *)
Lemma pdf_without_text_is_loaded_witness :
  let doc := extract_text_from_pdf (fs scanned_world) (PDF_LIBRARY scanned_world)
               (pages scanned_world) "college_data/scan.pdf" in
  Ingest.error doc = None
  /\ content doc = ""
  /\ metadata doc = [("pages", PInt 2)]
  /\ loads scanned_world "college_data/scan.pdf" = true.
Proof.
  refine (pdf_without_text_is_loaded scanned_world "college_data/scan.pdf"
            [Ok None; Ok (Some "")] _ _ _ _ _);
    [reflexivity | reflexivity | discriminate | reflexivity |].
  constructor; [left; reflexivity|].
  constructor; [right; reflexivity | constructor].
Defined.

(** ** ingest.py: the accounts of [load_local_data] *)


Lemma load_one_errors w result p :
  errors (load_one w result p)
  = (errors result ++ (if fails w p then [error_line w p] else []))%list.
Proof.
  unfold load_one, fails, error_line.
  destruct (extract_by_suffix w p) as [doc|]; [|rewrite app_nil_r; reflexivity].
  destruct (has_error doc); [reflexivity | rewrite app_nil_r; reflexivity].
Qed.

Lemma load_loop_errors w files :
  forall result,
    errors (fold_left (load_one w) files result)
    = (errors result ++ map (error_line w) (filter (fails w) files))%list.
Proof.
  induction files as [|p files IH]; intros result; cbn [fold_left filter].
  - cbn. rewrite app_nil_r. reflexivity.
  - rewrite IH, load_one_errors. destruct (fails w p); cbn [map].
    + rewrite <- app_assoc. reflexivity.
    + rewrite app_nil_r. reflexivity.
Qed.

Lemma dict_set_keys_in {V : Type} k (v : V) d key :
  In key (keys (dict_set k v d)) <-> key = k \/ In key (keys d).
Proof.
  unfold keys in *. induction d as [|[k' v'] d IH]; cbn.
  - intuition congruence.
  - destruct (String.eqb k' k) eqn:E; cbn.
    + apply String.eqb_eq in E. subst k'. intuition congruence.
    + rewrite IH. intuition congruence.
Qed.



Lemma load_loop_key_set w files :
  forall result key,
    In key (keys (files_data (fold_left (load_one w) files result)))
    <-> In key (keys (files_data result))
        \/ exists p, In p files /\ loads w p = true /\ path_stem p = key.
Proof.
  induction files as [|p files IH]; intros result key; cbn [fold_left].
  - split; [intros H; left; exact H | intros [H | (p & [] & _)]; exact H].
  - rewrite IH. destruct (loads w p) eqn:E.
    + destruct (load_one_loaded w result p E) as [doc ->].
      rewrite dict_set_keys_in. split.
      * intros [[-> | H] | (q & Hq & Hl & Hs)].
        -- right. exists p. repeat split; [left; reflexivity | exact E].
        -- left. exact H.
        -- right. exists q. repeat split; [right; exact Hq | exact Hl | exact Hs].
      * intros [H | (q & [<- | Hq] & Hl & Hs)].
        -- left. right. exact H.
        -- left. left. symmetry. exact Hs.
        -- right. exists q. repeat split; assumption.
    + rewrite (load_one_not_loaded w result p E). split.
      * intros [H | (q & Hq & Hl & Hs)]; [left; exact H|].
        right. exists q. repeat split; [right; exact Hq | exact Hl | exact Hs].
      * intros [H | (q & [<- | Hq] & Hl & Hs)]; [left; exact H | congruence |].
        right. exists q. repeat split; assumption.
Qed.



Lemma filter_permutation {A : Type} (f : A -> bool) (l l' : list A) :
  Permutation l l' -> Permutation (filter f l) (filter f l').
Proof.
  induction 1 as [| x l l' _ IH | x y l | l l' l'' _ IH1 _ IH2]; cbn.
  - constructor.
  - destruct (f x); [constructor; exact IH | exact IH].
  - destruct (f x), (f y); try apply Permutation_refl. constructor.
  - eapply Permutation_trans; eassumption.
Qed.

(** X9.  The order in which the directory is listed changes neither the
    counters, nor the errors up to their order, nor the set of keys of the
    documents mapping. *)
Theorem load_local_data_listing_order :
  forall w listing data_dir,
    Permutation (flat_map (glob w data_dir) ["*.pdf"; "*.txt"])
                (flat_map (listing data_dir) ["*.pdf"; "*.txt"]) ->
    let corpus := load_local_data w data_dir in
    let corpus' := load_local_data (relisted w listing) data_dir in
    summary corpus' = summary corpus
    /\ Permutation (errors corpus) (errors corpus')
    /\ (forall key, In key (keys (files_data corpus))
                    <-> In key (keys (files_data corpus'))).
Proof.
  intros w listing data_dir Hperm. cbn zeta. unfold load_local_data.
  change (fs (relisted w listing)) with (fs w).
  change (glob (relisted w listing)) with listing.
  destruct (fs w data_dir) as [n|].
  2:{ split; [reflexivity|]. split; [apply Permutation_refl | tauto]. }
  set (files := flat_map (glob w data_dir) ["*.pdf"; "*.txt"]) in *.
  set (files' := flat_map (listing data_dir) ["*.pdf"; "*.txt"]) in *.
  assert (Hone : forall r p, load_one (relisted w listing) r p = load_one w r p)
    by reflexivity.
  assert (Hfold : forall l r,
             fold_left (load_one (relisted w listing)) l r = fold_left (load_one w) l r).
  { induction l as [|p l IH]; intros r; cbn; [reflexivity|]. rewrite Hone. apply IH. }
  rewrite Hfold.
  match goal with
  | |- context [fold_left (load_one w) files ?r] =>
      destruct (load_loop_counts w files r) as (Ht & Hs & Hf & _);
      pose proof (load_loop_errors w files r) as He;
      pose proof (load_loop_key_set w files r) as Hk
  end.
  match goal with
  | |- context [fold_left (load_one w) files' ?r] =>
      destruct (load_loop_counts w files' r) as (Ht' & Hs' & Hf' & _);
      pose proof (load_loop_errors w files' r) as He';
      pose proof (load_loop_key_set w files' r) as Hk'
  end.
  cbn zeta in *. cbn [summary total_files Ingest.successful failed errors files_data] in *.
  split; [|split].
  - destruct (summary _) as [t s f], (summary _) as [t' s' f']. cbn in *.
    rewrite Ht, Hs, Hf, Ht', Hs', Hf'.
    rewrite (count_permutation (loads w) _ _ Hperm),
            (count_permutation (fails w) _ _ Hperm),
            (Permutation_length Hperm).
    reflexivity.
  - rewrite He, He'. cbn. apply Permutation_map, filter_permutation, Hperm.
  - intros key. rewrite Hk, Hk'. cbn. split.
    + intros [[] | (p & Hp & Hl & Hst)]. right. exists p.
      repeat split; [eapply Permutation_in; eassumption | exact Hl | exact Hst].
    + intros [[] | (p & Hp & Hl & Hst)]. right. exists p.
      repeat split;
        [eapply Permutation_in; [apply Permutation_sym|]; eassumption | exact Hl | exact Hst].
Qed.

(** The directory of fees.txt and blank.txt listed in both orders. *)
Lemma load_local_data_listing_order_witness :
  summary (load_local_data (relisted texts_world blank_first) "college_data")
  = summary (load_local_data texts_world "college_data").
Proof.
  exact (proj1 (load_local_data_listing_order texts_world blank_first "college_data"
                  (perm_swap _ _ []))).
Defined.

(** ** ingest.py: what [merge_data] keeps *)

Lemma occurs_trans a b c : occurs a b -> occurs b c -> occurs a c.
Proof.
  intros (p1 & q1 & ->) (p2 & q2 & ->). exists (p2 ++ p1), (q1 ++ q2).
  rewrite !app_assoc_str. reflexivity.
Qed.

Lemma occurs_prefix a b : occurs a (a ++ b).
Proof. exists "", b. reflexivity. Qed.

Lemma occurs_after a b s : occurs a s -> occurs a (b ++ s).
Proof.
  intros (p & q & ->). exists (b ++ p), q. rewrite app_assoc_str. reflexivity.
Qed.

Lemma occurs_self a : occurs a a.
Proof. exists "", "". cbn. rewrite app_empty_str. reflexivity. Qed.

Lemma occurs_join_part sep part parts :
  In part parts -> occurs part (join sep parts).
Proof.
  induction parts as [|x parts IH]; [intros []|].
  intros [-> | Hin].
  - destruct parts; [apply occurs_self | apply occurs_prefix].
  - destruct parts as [|y parts]; [destruct Hin|].
    change (join sep (x :: y :: parts)) with (x ++ sep ++ join sep (y :: parts)).
    apply occurs_after, occurs_after, IH, Hin.
Qed.

Lemma merge_data_part local_data web_data part :
  In part (local_parts (files_data local_data))
  \/ (scraped_data web_data <> []
      /\ In part (LIVE_HEADER :: web_parts (scraped_data web_data))) ->
  occurs part (merge_data local_data web_data).
Proof.
  intros H. unfold merge_data. apply occurs_join_part.
  destruct (scraped_data web_data) as [|page pages] eqn:E.
  - destruct H as [H | [Hne _]]; [|congruence].
    cbn. right. exact H.
  - cbn [app]. right. apply in_or_app. destruct H as [H | [_ H]].
    + left. exact H.
    + right. exact H.
Qed.

(** X10.  [merge_data] drops nothing: the merged text contains, for every
    local document, its sub-header line with the file name and its content,
    and, for every scraped page, the live-data header, the sub-header line
    with its URL and its content. *)
Theorem merge_data_keeps_everything :
  forall local_data web_data,
    (forall key doc,
        In (key, doc) (files_data local_data) ->
        occurs ("--- " ++ filename doc ++ " ---") (merge_data local_data web_data)
        /\ occurs (content doc) (merge_data local_data web_data))
    /\ (forall key page,
           In (key, page) (scraped_data web_data) ->
           occurs LIVE_HEADER (merge_data local_data web_data)
           /\ occurs ("--- From " ++ url page ++ " ---")
                     (merge_data local_data web_data)
           /\ occurs (page_content page) (merge_data local_data web_data)).
Proof.
  intros local_data web_data. split.
  - intros key doc Hin. split.
    + apply (occurs_trans _ (nl ++ "--- " ++ filename doc ++ " ---" ++ nl)).
      * exists nl, nl. rewrite !app_assoc_str. reflexivity.
      * apply merge_data_part. left. unfold local_parts. apply in_flat_map.
        exists (key, doc). split; [exact Hin | left; reflexivity].
    + apply merge_data_part. left. unfold local_parts. apply in_flat_map.
      exists (key, doc). split; [exact Hin | right; left; reflexivity].
  - intros key page Hin.
    assert (Hne : scraped_data web_data <> []).
    { intros E. rewrite E in Hin. destruct Hin. }
    split; [|split].
    + apply merge_data_part. right. split; [exact Hne | left; reflexivity].
    + apply (occurs_trans _ (nl ++ "--- From " ++ url page ++ " ---" ++ nl)).
      * exists nl, nl. rewrite !app_assoc_str. reflexivity.
      * apply merge_data_part. right. split; [exact Hne|]. right.
        unfold web_parts. apply in_flat_map.
        exists (key, page). split; [exact Hin | left; reflexivity].
    + apply merge_data_part. right. split; [exact Hne|]. right.
      unfold web_parts. apply in_flat_map.
      exists (key, page). split; [exact Hin | right; left; reflexivity].
Qed.

(** The admissions file and the tuition page in their merged text. *)
Lemma merge_data_keeps_everything_witness :
  occurs "Deadline: Jan 15. Fee: $75." (merge_data admissions_corpus tuition_page)
  /\ occurs "Tuition: $9000." (merge_data admissions_corpus tuition_page).
Proof.
  destruct (merge_data_keeps_everything admissions_corpus tuition_page)
    as [Hlocal Hweb].
  split.
  - apply (Hlocal "admissions" _ (or_introl eq_refl)).
  - apply (Hweb "/tuition" _ (or_introl eq_refl)).
Defined.

(** ** ingest.py: [scrape_website] *)

(** One turn of the loop when the cache gives nothing. *)
Lemma scrape_targets_miss w config use_cache target rest result fs sent :
  (use_cache
   && truth (if use_cache
             then load_json_cache (Scraper.dt w) (Scraper.CACHE_TTL w) fs
                    (Scraper.read_time w (full_url config target))
                    (cache_file w config target)
             else PNone)) = false ->
  Scraper.scrape_targets w config use_cache (target :: rest) result fs sent
  = match live_outcome w config target with
    | Raise e =>
        Scraper.scrape_targets w config use_cache rest
          (Scraper.add_error (scrape_error_line config target e) result) fs
          (sent ++ [request_of config target])
    | Ok info =>
        Scraper.scrape_targets w config use_cache rest
          (Scraper.add_page (Scraper.target_url target) info false result)
          (snd (save_json_cache (Scraper.dt w) fs
                  (Scraper.write_time w (full_url config target))
                  (Scraper.io_ok w (cache_file w config target))
                  (cache_file w config target) info))
          (sent ++ [request_of config target])
    end.
Proof.
  intros Hmiss. cbn [Scraper.scrape_targets].
  unfold cache_file, full_url in *. rewrite Hmiss.
  unfold live_outcome, request_of, scrape_error_line, full_url.
  destruct (Scraper.http_get w _) as [page|e]; [|reflexivity].
  destruct (Scraper.extract_content page (Scraper.selectors target) [])
    as [extracted_content|e]; reflexivity.
Qed.

(** One turn of the loop when the cache holds a value that is true. *)
Lemma scrape_targets_hit w config target rest result fs sent cached_data :
  load_json_cache (Scraper.dt w) (Scraper.CACHE_TTL w) fs
    (Scraper.read_time w (full_url config target)) (cache_file w config target)
  = cached_data ->
  truth cached_data = true ->
  Scraper.scrape_targets w config true (target :: rest) result fs sent
  = match getitem cached_data "data" with
    | Raise e => (Scraper.add_error (str_of_exn e) result, fs, sent)
    | Ok page =>
        Scraper.scrape_targets w config true rest
          (Scraper.add_page (Scraper.target_url target) page true result) fs sent
    end.
Proof.
  intros Hload Htruth. cbn [Scraper.scrape_targets].
  unfold cache_file, full_url in *. rewrite Hload, Htruth. reflexivity.
Qed.

Lemma dict_set_fresh {V : Type} k (v : V) d :
  ~ In k (keys d) -> dict_set k v d = (d ++ [(k, v)])%list.
Proof.
  induction d as [|[k' v'] d IH]; cbn; intros Hnot; [reflexivity|].
  destruct (String.eqb k' k) eqn:E.
  - apply String.eqb_eq in E. exfalso. apply Hnot. left. exact E.
  - f_equal. apply IH. intros Hin. apply Hnot. right. exact Hin.
Qed.

Lemma live_pages_keys w config todo key :
  In key (keys (live_pages w config todo)) ->
  In key (map Scraper.target_url todo).
Proof.
  unfold keys, live_pages. induction todo as [|t todo IH]; cbn; [intros []|].
  rewrite map_app, in_app_iff. intros [H | H].
  - destruct (live_outcome w config t); cbn in H; [|destruct H].
    destruct H as [<- | []]. left. reflexivity.
  - right. apply IH, H.
Qed.

(** The whole loop without the cache. *)
Lemma scrape_targets_live w config todo :
  forall result fs sent,
    let '(final, fs', sent') :=
      Scraper.scrape_targets w config false todo result fs sent in
    sent' = (sent ++ map (request_of config) todo)%list
    /\ Scraper.errors final
       = (Scraper.errors result ++ live_errors w config todo)%list
    /\ Scraper.cached final = Scraper.cached result
    /\ fs' = cached_storage w config todo fs
    /\ (NoDup (keys (Scraper.scraped_data result)
               ++ map Scraper.target_url todo)%list ->
        Scraper.scraped_data final
        = (Scraper.scraped_data result ++ live_pages w config todo)%list).
Proof.
  induction todo as [|t todo IH]; intros result fs sent.
  - cbn. rewrite !app_nil_r. repeat split.
  - rewrite scrape_targets_miss by reflexivity.
    unfold live_errors, live_pages, cached_storage. cbn [flat_map map fold_left].
    destruct (live_outcome w config t) as [info|e].
    + specialize (IH (Scraper.add_page (Scraper.target_url t) info false result)
                     (snd (save_json_cache (Scraper.dt w) fs
                             (Scraper.write_time w (full_url config t))
                             (Scraper.io_ok w (cache_file w config t))
                             (cache_file w config t) info))
                     (sent ++ [request_of config t])%list).
      destruct (Scraper.scrape_targets w config false todo _ _ _) as [[final fs'] sent'].
      destruct IH as (Hs & He & Hc & Hf & Hd). cbn in He, Hc, Hd.
      split; [rewrite Hs, <- app_assoc; reflexivity|].
      split; [exact He|]. split; [exact Hc|]. split; [exact Hf|].
      intros Hnodup.
      assert (Hfresh : ~ In (Scraper.target_url t) (keys (Scraper.scraped_data result))).
      { intros Hin. apply NoDup_remove_2 in Hnodup. apply Hnodup.
        apply in_or_app. left. exact Hin. }
      rewrite (dict_set_fresh _ _ _ Hfresh) in Hd.
      rewrite Hd.
      * rewrite <- app_assoc. reflexivity.
      * unfold keys in *. rewrite map_app, <- app_assoc. exact Hnodup.
    + specialize (IH (Scraper.add_error (scrape_error_line config t e) result) fs
                     (sent ++ [request_of config t])%list).
      destruct (Scraper.scrape_targets w config false todo _ _ _) as [[final fs'] sent'].
      destruct IH as (Hs & He & Hc & Hf & Hd). cbn in He, Hc, Hd.
      split; [rewrite Hs, <- app_assoc; reflexivity|].
      split; [rewrite He, <- app_assoc; reflexivity|].
      split; [exact Hc|]. split; [exact Hf|].
      intros Hnodup. apply Hd.
      apply NoDup_remove_1 in Hnodup. exact Hnodup.
Qed.

Lemma live_counts w config todo :
  List.length (live_pages w config todo) + List.length (live_errors w config todo)
  = List.length todo.
Proof.
  unfold live_pages, live_errors. induction todo as [|t todo IH]; [reflexivity|].
  cbn [flat_map]. rewrite !length_app.
  destruct (live_outcome w config t); cbn [List.length]; lia.
Qed.

(** X11.  With scraping enabled and the cache not used, [scrape_website]
    sends exactly one request per target, in order, whatever the earlier
    targets did: a target that fails adds one error line and the loop goes
    on.  When the paths of the targets are pairwise distinct, every target
    ends as one page or one error line, and the pages are those of the
    targets that answered, in order. *)
Theorem scrape_website_without_cache :
  forall w config fs,
    Scraper.SCRAPING_ENABLED w = true ->
    let '(result, fs', sent) := Scraper.scrape_website w config false fs in
    sent = map (request_of config) (Scraper.targets config)
    /\ Scraper.errors result = live_errors w config (Scraper.targets config)
    /\ Scraper.cached result = false
    /\ (NoDup (map Scraper.target_url (Scraper.targets config)) ->
        Scraper.scraped_data result = live_pages w config (Scraper.targets config)
        /\ List.length (Scraper.scraped_data result)
           + List.length (Scraper.errors result)
           = List.length (Scraper.targets config)).
Proof.
  intros w config fs Henabled. unfold Scraper.scrape_website. rewrite Henabled.
  cbn [negb].
  pose proof (scrape_targets_live w config (Scraper.targets config)
                {| Scraper.scraped_data := []; Scraper.errors := [];
                   Scraper.cached := false |} fs []) as H.
  destruct (Scraper.scrape_targets w config false _ _ _ _) as [[result fs'] sent].
  destruct H as (Hs & He & Hc & _ & Hd). cbn in Hs, He, Hc, Hd.
  split; [exact Hs|]. split; [exact He|]. split; [exact Hc|].
  intros Hnodup. specialize (Hd Hnodup). split; [exact Hd|].
  rewrite Hd, He. apply live_counts.
Qed.

(** The site whose second page times out: two requests, one page, one
    error line. *)
Lemma scrape_website_without_cache_witness :
  let '(result, fs', sent) :=
    Scraper.scrape_website site_world site_config false empty_storage in
  sent = map (request_of site_config) (Scraper.targets site_config)
  /\ Scraper.errors result
     = ["Failed to scrape https://university-website.edu/tuition: Read timed out."]
  /\ keys (Scraper.scraped_data result) = ["/admissions"].
Proof.
  pose proof (scrape_website_without_cache site_world site_config empty_storage
                eq_refl) as H.
  destruct (Scraper.scrape_website site_world site_config false empty_storage)
    as [[result fs'] sent].
  destruct H as (Hs & He & _ & Hd).
  split; [exact Hs|]. split; [rewrite He; reflexivity|].
  destruct Hd as [Hd _].
  - repeat constructor; cbn; intuition discriminate.
  - rewrite Hd. reflexivity.
Defined.

Lemma cached_storage_other w config todo :
  forall fs path,
    ~ In path (map (cache_file w config) todo) ->
    cached_storage w config todo fs path = fs path.
Proof.
  unfold cached_storage.
  induction todo as [|t todo IH]; intros fs path Hnot; [reflexivity|].
  cbn [fold_left]. rewrite IH.
  - destruct (live_outcome w config t) as [info|e]; [|reflexivity].
    unfold save_json_cache. destruct (Scraper.io_ok w _); [|reflexivity].
    cbn. apply write_other. intros ->. apply Hnot. left. reflexivity.
  - intros Hin. apply Hnot. right. exact Hin.
Qed.

Lemma cached_storage_entry w config todo :
  forall fs t info,
    NoDup (map (cache_file w config) todo) ->
    In t todo ->
    live_outcome w config t = Ok info ->
    Scraper.io_ok w (cache_file w config t) = true ->
    cached_storage w config todo fs (cache_file w config t)
    = Some (JsonText (cache_entry (Scraper.dt w)
                        (Scraper.write_time w (full_url config t)) info)).
Proof.
  induction todo as [|t0 todo IH]; intros fs t info Hnodup Hin Hlive Hio; [destruct Hin|].
  cbn [map] in Hnodup. inversion Hnodup as [|x l Hfresh Hrest]; subst.
  destruct (in_dec (fun a b => string_dec a b) (cache_file w config t)
                   (map (cache_file w config) todo)) as [Hin' | Hnot'].
  - destruct Hin as [-> | Hin]; [contradiction|].
    unfold cached_storage. cbn [fold_left]. apply (IH _ t info Hrest Hin Hlive Hio).
  - destruct Hin as [-> | Hin].
    + unfold cached_storage. cbn [fold_left].
      change (fold_left _ todo ?f) with (cached_storage w config todo f).
      rewrite (cached_storage_other w config todo _ _ Hnot').
      rewrite Hlive. unfold save_json_cache. rewrite Hio. cbn. apply write_same.
    + exfalso. apply Hnot'. apply in_map. exact Hin.
Qed.

(** The whole loop when every target is in the cache, not expired. *)
Lemma scrape_targets_cached w config (stored : Scraper.ScrapeTarget -> pyval)
    (stamp : Scraper.ScrapeTarget -> Z) todo :
  forall result fs sent,
    (forall t, In t todo ->
       fs (cache_file w config t)
       = Some (JsonText (cache_entry (Scraper.dt w) (stamp t) (stored t)))
       /\ fromisoformat (Scraper.dt w) (isoformat (Scraper.dt w) (stamp t))
          = Some (Naive (stamp t))
       /\ (Scraper.read_time w (full_url config t) - stamp t
           <= Scraper.CACHE_TTL w * 1000000)%Z) ->
    Scraper.scrape_targets w config true todo result fs sent
    = (fold_left (fun r t => Scraper.add_page (Scraper.target_url t) (stored t) true r)
                 todo result, fs, sent).
Proof.
  induction todo as [|t todo IH]; intros result fs sent Hall; [reflexivity|].
  destruct (Hall t (or_introl eq_refl)) as (Hfile & Hcodec & Hage).
  rewrite (scrape_targets_hit w config t todo result fs sent
             (cache_entry (Scraper.dt w) (stamp t) (stored t))).
  - cbn [getitem cache_entry dict_get String.eqb Ascii.eqb Bool.eqb fold_left].
    apply IH. intros t' Hin. apply Hall. right. exact Hin.
  - rewrite (load_stored_entry _ _ _ _ _ (stamp t) (stored t) Hfile Hcodec).
    destruct (_ >? _)%Z eqn:E; [|reflexivity]. apply Z.gtb_lt in E. lia.
  - reflexivity.
Qed.

Lemma add_pages_data (stored : Scraper.ScrapeTarget -> pyval) todo :
  forall result,
    NoDup (keys (Scraper.scraped_data result) ++ map Scraper.target_url todo)%list ->
    Scraper.scraped_data
      (fold_left (fun r t => Scraper.add_page (Scraper.target_url t) (stored t) true r)
                 todo result)
    = (Scraper.scraped_data result
       ++ map (fun t => (Scraper.target_url t, stored t)) todo)%list.
Proof.
  induction todo as [|t todo IH]; intros result Hnodup; cbn [fold_left map].
  - rewrite app_nil_r. reflexivity.
  - assert (Hfresh : ~ In (Scraper.target_url t) (keys (Scraper.scraped_data result))).
    { intros Hin. apply NoDup_remove_2 in Hnodup. apply Hnodup.
      apply in_or_app. left. exact Hin. }
    rewrite IH; cbn [Scraper.add_page Scraper.scraped_data];
      rewrite (dict_set_fresh _ _ _ Hfresh).
    + rewrite <- app_assoc. reflexivity.
    + unfold keys in *. rewrite map_app, <- app_assoc. exact Hnodup.
Qed.

Lemma add_pages_rest (stored : Scraper.ScrapeTarget -> pyval) todo :
  forall result,
    let final :=
      fold_left (fun r t => Scraper.add_page (Scraper.target_url t) (stored t) true r)
                todo result in
    Scraper.errors final = Scraper.errors result
    /\ Scraper.cached final
       = match todo with [] => Scraper.cached result | _ => true end.
Proof.
  induction todo as [|t todo IH]; intros result; [split; reflexivity|].
  cbn zeta. cbn [fold_left].
  destruct (IH (Scraper.add_page (Scraper.target_url t) (stored t) true result))
    as [He Hc].
  split; [exact He|]. rewrite Hc. destruct todo; reflexivity.
Qed.

Lemma live_pages_all_fetched w config todo :
  (forall t, In t todo -> exists info, live_outcome w config t = Ok info) ->
  live_pages w config todo
  = map (fun t => (Scraper.target_url t, page_of w config t)) todo.
Proof.
  unfold live_pages, page_of. induction todo as [|t todo IH]; intros Hall; [reflexivity|].
  cbn [flat_map map]. destruct (Hall t (or_introl eq_refl)) as [info Hinfo].
  rewrite Hinfo. cbn [app]. f_equal. apply IH. intros t' Hin. apply Hall. right. exact Hin.
Qed.

(** X12.  After [scrape_website] fetched every target and cached its page,
    a later [scrape_website] that uses the cache, run before the entries
    are older than the TTL, sends no request at all, whatever the site
    would answer then, and returns the same pages with [cached = True] and
    no error; the storage is not written. *)
Theorem scrape_website_served_from_cache :
  forall w later config fs,
    Scraper.SCRAPING_ENABLED w = true ->
    Scraper.SCRAPING_ENABLED later = true ->
    Scraper.dt later = Scraper.dt w ->
    Scraper.md5 later = Scraper.md5 w ->
    Scraper.CACHE_DIR later = Scraper.CACHE_DIR w ->
    NoDup (map Scraper.target_url (Scraper.targets config)) ->
    NoDup (map (cache_file w config) (Scraper.targets config)) ->
    (forall t, In t (Scraper.targets config) ->
       (exists info, live_outcome w config t = Ok info)
       /\ Scraper.io_ok w (cache_file w config t) = true
       /\ fromisoformat (Scraper.dt w)
            (isoformat (Scraper.dt w) (Scraper.write_time w (full_url config t)))
          = Some (Naive (Scraper.write_time w (full_url config t)))
       /\ (Scraper.read_time later (full_url config t)
           - Scraper.write_time w (full_url config t)
           <= Scraper.CACHE_TTL later * 1000000)%Z) ->
    let '(first, fs1, _) := Scraper.scrape_website w config false fs in
    let '(second, fs2, sent) := Scraper.scrape_website later config true fs1 in
    sent = []
    /\ Scraper.scraped_data second = Scraper.scraped_data first
    /\ Scraper.errors second = []
    /\ fs2 = fs1
    /\ (Scraper.targets config <> [] -> Scraper.cached second = true).
Proof.
  intros w later config fs Hon Hon' Hdt Hmd5 Hdir Hkeys Hfiles Hall.
  unfold Scraper.scrape_website. rewrite Hon, Hon'. cbn [negb].
  pose proof (scrape_targets_live w config (Scraper.targets config)
                {| Scraper.scraped_data := []; Scraper.errors := [];
                   Scraper.cached := false |} fs []) as H1.
  destruct (Scraper.scrape_targets w config false _ _ _ _) as [[first fs1] sent1].
  destruct H1 as (_ & _ & _ & Hfs1 & Hd1). cbn in Hd1. specialize (Hd1 Hkeys).
  assert (Hsame : forall t, cache_file later config t = cache_file w config t).
  { intros t. unfold cache_file, Scraper.cache_file_of. rewrite Hmd5, Hdir. reflexivity. }
  rewrite (scrape_targets_cached later config (page_of w config)
             (fun t => Scraper.write_time w (full_url config t))).
  - pose proof (add_pages_data (page_of w config) (Scraper.targets config)
                  {| Scraper.scraped_data := []; Scraper.errors := [];
                     Scraper.cached := false |} Hkeys) as Hd2.
    destruct (add_pages_rest (page_of w config) (Scraper.targets config)
                {| Scraper.scraped_data := []; Scraper.errors := [];
                   Scraper.cached := false |}) as [He2 Hc2].
    cbn in Hd2, He2, Hc2.
    split; [reflexivity|]. split; [|split; [exact He2|split; [reflexivity|]]].
    + rewrite Hd2, Hd1. symmetry. apply live_pages_all_fetched.
      intros t Hin. apply (Hall t Hin).
    + intros Hne. rewrite Hc2. destruct (Scraper.targets config); congruence.
  - intros t Hin. destruct (Hall t Hin) as ((info & Hlive) & Hio & Hcodec & Hage).
    rewrite Hsame, Hdt. split; [|split; [exact Hcodec | exact Hage]].
    rewrite Hfs1, (cached_storage_entry w config _ fs t info Hfiles Hin Hlive Hio).
    unfold page_of. rewrite Hlive. reflexivity.
Qed.

(** The admissions page fetched, then served one minute later while the
    site is unreachable. *)
Lemma scrape_website_served_from_cache_witness :
  let '(first, fs1, _) :=
    Scraper.scrape_website site_world admissions_only false empty_storage in
  let '(second, fs2, sent) :=
    Scraper.scrape_website offline_world admissions_only true fs1 in
  sent = []
  /\ Scraper.scraped_data second = Scraper.scraped_data first
  /\ Scraper.errors second = []
  /\ fs2 = fs1
  /\ (Scraper.targets admissions_only <> [] -> Scraper.cached second = true).
Proof.
  apply (scrape_website_served_from_cache site_world offline_world admissions_only
           empty_storage); try reflexivity.
  - repeat constructor. intros [].
  - repeat constructor. intros [].
  - intros t [<- | []]. split; [eexists; reflexivity|].
    split; [reflexivity|]. split; [reflexivity|]. cbn. lia.
Defined.

(** X13.  With the cache in use, a cache file of the first target that
    holds a JSON object without timestamp and without data ends the whole
    scrape: the result has no page and the single error "'data'", and no
    request is sent for any target, the later ones included. *)
Theorem scrape_website_stopped_by_cache_file :
  forall w config fs target rest entries,
    Scraper.SCRAPING_ENABLED w = true ->
    Scraper.targets config = target :: rest ->
    fs (cache_file w config target) = Some (JsonText (PDict entries)) ->
    entries <> [] ->
    dict_get "timestamp" entries = None ->
    dict_get "data" entries = None ->
    Scraper.scrape_website w config true fs
    = ({| Scraper.scraped_data := []; Scraper.errors := ["'data'"];
          Scraper.cached := false |}, fs, []).
Proof.
  intros w config fs target rest entries Hon Htargets Hfile Hne Hts Hdata.
  unfold Scraper.scrape_website. rewrite Hon, Htargets. cbn [negb].
  rewrite (scrape_targets_hit w config target rest _ fs [] (PDict entries)).
  - cbn [getitem]. rewrite Hdata. reflexivity.
  - unfold load_json_cache, load_json_cache_try. rewrite Hfile. cbn. rewrite Hts.
    reflexivity.
  - destruct entries; [congruence | reflexivity].
Qed.

(** The site of two pages with a hand-edited cache file for the first. *)
Lemma scrape_website_stopped_by_cache_file_witness :
  Scraper.scrape_website site_world site_config true poisoned_storage
  = ({| Scraper.scraped_data := []; Scraper.errors := ["'data'"];
        Scraper.cached := false |}, poisoned_storage, []).
Proof.
  apply (scrape_website_stopped_by_cache_file site_world site_config poisoned_storage
           admissions_target [tuition_target] [("note", PStr "edited by hand")]);
    try reflexivity.
  discriminate.
Defined.

(** ** scaledown.py: [compress] on every reply *)







(** X15.  When the exception is raised before the reply is parsed (by the
    request itself: timeout or transport error; by the status check; or by
    the JSON decoding), [compress] returns [successful = False], zero token
    counts, the ratio 1, the uncompressed prompt and the message of the
    first [except] clause that matches: the timeout in seconds for a
    timeout, the status code and the body for an HTTP error, the text of
    the exception otherwise.  A body that is not JSON is reported as
    "Scaledown API request failed" when [response.json()] raises the
    [JSONDecodeError] of requests, which is a [RequestException]; the
    message "Failed to parse Scaledown API response" is left to the plain
    [json.JSONDecodeError]. *)
Theorem compress_failure_categories :
  forall self post context question model rate e,
    api_key self <> "" ->
    raised_before_parsing
      (post (build_request self context question model rate)) e ->
    let result := fst (compress self post context question model rate) in
    successful result = PBool false
    /\ original_tokens result = PInt 0
    /\ compressed_tokens result = PInt 0
    /\ (compression_ratio result == 1)%Q
    /\ compressed_prompt result = PStr (fallback_prompt context question)
    /\ error result
       = Some (match e with
               | Timeout _ =>
                   "Scaledown API timeout after " ++ str_of_Z (timeout self) ++ "s"
               | HTTPError _ status_code text =>
                   "Scaledown API HTTP error: " ++ str_of_Z status_code
                   ++ " - " ++ text
               | RequestException msg | RequestsJSONDecodeError msg =>
                   "Scaledown API request failed: " ++ msg
               | JSONDecodeError msg =>
                   "Failed to parse Scaledown API response: " ++ msg
               | OtherException msg =>
                   "Unexpected error in Scaledown compression: " ++ msg
               end).
Proof.
  intros self post context question model rate e Hkey Hraised. cbn zeta.
  pose proof (try_block_raised_before_parsing context question _ e initial_result
                Hraised) as Htry.
  unfold compress. destruct (api_key self) as [|a k]; [congruence|].
  cbn [truthy negb]. rewrite Htry. cbn.
  repeat split; try reflexivity. destruct e; reflexivity.
Qed.

(** The service that answers with a page of HTML, under requests 2.27 or
    later. *)
Lemma compress_failure_categories_witness :
  let result :=
    fst (compress configured answers_html "ctx" "What is the deadline?" None None) in
  successful result = PBool false
  /\ error result
     = Some ("Scaledown API request failed: "
             ++ "Expecting value: line 1 column 1 (char 0)").
Proof.
  destruct (compress_failure_categories configured answers_html
              "ctx" "What is the deadline?" None None
              (RequestsJSONDecodeError "Expecting value: line 1 column 1 (char 0)"))
    as (Hs & _ & _ & _ & _ & He).
  - discriminate.
  - right. right. eexists. repeat split.
  - cbn zeta. split; [exact Hs | exact He].
Defined.

(** ** app.py: requests and the two caches *)

Lemma compress_sends_at_most_one self post context prompt model rate :
  List.length (snd (compress self post context prompt model rate)) <= 1.
Proof.
  unfold compress. destruct (negb (truthy (api_key self))); [cbn; lia|].
  destruct (try_block _ _ _ _) as [r [u|e]]; cbn; lia.
Qed.

Lemma load_global_context_cases e st :
  _compressed_context_cache (fst (load_global_context e st))
  = _compressed_context_cache st
  /\ (forall c, _global_context_cache st = Some c ->
                load_global_context e st = (st, Ok c)).
Proof.
  split; [apply load_global_context_keeps_compression|].
  intros c Hc. unfold load_global_context. rewrite Hc. reflexivity.
Qed.

(** Closes a branch of [chat]. *)
Ltac chat_leaf :=
  cbn; repeat split; intros; try lia; try reflexivity; try discriminate;
  try (match goal with
       | H : ErrorResponse _ _ _ = ErrorResponse _ _ _ |- _ => injection H as <- <-
       end; repeat split; auto);
  try congruence.

(** X16.  A [chat] request sends at most one compression request, and none
    when a compression is cached.  A request answered with status 400 (a
    body that is not JSON or is empty, a message that is empty once
    stripped) changes neither cache and sends nothing. *)
Theorem chat_requests :
  forall e data st,
    let '(st', reply, sent) := chat e data st in
    List.length sent <= 1
    /\ (_compressed_context_cache st <> None -> sent = [])
    /\ (forall message code,
          reply = ErrorResponse 400 message code ->
          st' = st /\ sent = []
          /\ (code = "INVALID_JSON" \/ code = "EMPTY_MESSAGE")).
Proof.
  intros e data st. unfold chat.
  destruct (truth data); cbn [negb]; [|chat_leaf].
  destruct (get_message data) as [user_message|ex]; [|chat_leaf].
  destruct (get data "history" (PList [])) as [history|ex]; [|chat_leaf].
  destruct (truthy user_message); cbn [negb]; [|chat_leaf].
  destruct (load_global_context_cases e st) as [Hkeep _].
  destruct (load_global_context e st) as [st1 [context|ex]]; [|chat_leaf].
  cbn [fst] in Hkeep.
  destruct (truthy context); cbn [negb]; [|chat_leaf].
  unfold compress_or_reuse. rewrite Hkeep.
  destruct (_compressed_context_cache st) as [cached_result|].
  - destruct (generate_response e _ history); chat_leaf.
  - pose proof (compress_sends_at_most_one (compressor e) (post e) context
                  user_message None None) as Hone.
    unfold compress_context.
    destruct (compress (compressor e) (post e) context user_message None None)
      as [r sent]. cbn [snd] in Hone.
    destruct (generate_response e (compressed_prompt r) history); chat_leaf.
Qed.

Lemma get_message_data data user_message :
  get_message data = Ok user_message -> truthy user_message = true ->
  truth data = true.
Proof.
  unfold get_message, get. destruct data as [| | | | |entries]; try discriminate.
  destruct entries; [|reflexivity]. cbn. intros [= <-]. discriminate.
Qed.

(** X17.  With a context and a compression in the caches, [chat] on a
    message that is not empty does not compress: it sends nothing, leaves
    both caches as they are, and gives the generator the cached compressed
    prompt followed by "\n\nNew User Query: " and the stripped message; the
    statistics are those of the cached result with [cached = True]. *)
Theorem chat_reuses_cached_compression :
  forall e data st context cached_result user_message history,
    _global_context_cache st = Some context ->
    truthy context = true ->
    _compressed_context_cache st = Some cached_result ->
    get_message data = Ok user_message ->
    truthy user_message = true ->
    get data "history" (PList []) = Ok history ->
    let prompt :=
      PStr (format e (compressed_prompt cached_result)
            ++ nl ++ nl ++ "New User Query: " ++ user_message) in
    chat e data st
    = (st,
       match generate_response e prompt history with
       | Ok response_text => ChatResponse response_text (stats_of cached_result true)
       | Raise _ =>
           ErrorResponse 500 "Failed to generate response. Please try again."
                         "GEMINI_ERROR"
       end,
       []).
Proof.
  intros e data st context cached_result user_message history
         Hctx Htruthy Hcache Hmsg Hne Hhist.
  cbn zeta. unfold chat.
  rewrite (get_message_data data user_message Hmsg Hne), Hmsg, Hhist, Hne.
  cbn [negb].
  rewrite (proj2 (load_global_context_cases e st) context Hctx), Htruthy.
  cbn [negb]. unfold compress_or_reuse. rewrite Hcache.
  cbn [compressed_prompt set_compressed_prompt].
  destruct (generate_response e _ history); rewrite ?Hcache; reflexivity.
Qed.

(** The second question to the server that answered one. *)
Lemma chat_reuses_cached_compression_witness :
  snd (chat (serving tokens_reply) (asking "  And the fee? ") warmed_up) = []
  /\ fst (fst (chat (serving tokens_reply) (asking "  And the fee? ") warmed_up))
     = warmed_up.
Proof.
  assert (H : exists context cached_result,
             _global_context_cache warmed_up = Some context
             /\ truthy context = true
             /\ _compressed_context_cache warmed_up = Some cached_result).
  { eexists. eexists. vm_compute. repeat split. }
  destruct H as (context & cached_result & Hctx & Htruthy & Hcache).
  rewrite (chat_reuses_cached_compression (serving tokens_reply)
             (asking "  And the fee? ") warmed_up context cached_result
             "And the fee?" (PList []) Hctx Htruthy Hcache eq_refl eq_refl eq_refl).
  split; reflexivity.
Defined.

Lemma chat_keeps_context e data st c :
  _global_context_cache st = Some c ->
  _global_context_cache (fst (fst (chat e data st))) = Some c.
Proof.
  intros Hc.
  destruct (chat_cases e data st)
    as [(status & message & code & -> & _)
       | (user_message & history & context & _ & _ & _ & Hload & Hrest)];
    [exact Hc|].
  cbn zeta in Hrest.
  rewrite (proj2 (load_global_context_cases e st) c Hc) in Hrest, Hload.
  cbn [fst snd] in Hrest, Hload. injection Hload as <-.
  destruct (truthy c).
  - destruct Hrest as (-> & _). rewrite compress_or_reuse_keeps_context. exact Hc.
  - rewrite Hrest. exact Hc.
Qed.

(** X18.  The context is built once and kept: a loaded context survives
    any number of chat requests unchanged, whatever the data sources have
    become.  [reload_context] empties both caches first.  When
    [get_complete_context] returns, the context cache holds its merged
    text and the reply reports the length of it; when it raises (a cached
    page that [merge_data] cannot read), both caches stay empty and the
    reply is the 500 RELOAD_ERROR.  A [chat] request that finds no context
    and whose [get_complete_context] raises is answered with the 500
    INTERNAL_ERROR and changes nothing. *)
Theorem context_kept_until_reload :
  (forall events st c,
      _global_context_cache st = Some c ->
      Forall is_chat events ->
      _global_context_cache (fold_left handle_event events st) = Some c)
  /\ (forall e st result,
         get_complete_context e = Ok result ->
         reload_context e st
         = ({| _global_context_cache := Some (Context.context result);
               _compressed_context_cache := None |},
            ReloadResponse (String.length (Context.context result))))
  /\ (forall e st ex,
         get_complete_context e = Raise ex ->
         reload_context e st
         = (startup, ErrorResponse 500 "Failed to reload context" "RELOAD_ERROR"))
  /\ (forall e data st ex user_message history,
         get_complete_context e = Raise ex ->
         _global_context_cache st = None ->
         get_message data = Ok user_message ->
         truthy user_message = true ->
         get data "history" (PList []) = Ok history ->
         chat e data st
         = (st, ErrorResponse 500 "An unexpected error occurred. Please try again."
                  "INTERNAL_ERROR", [])).
Proof.
  split; [|split; [|split]].
  - intros events. induction events as [|ev events IH]; intros st c Hc Hall; [exact Hc|].
    inversion Hall as [|x l Hev Hrest]; subst. cbn [fold_left].
    apply IH; [|exact Hrest].
    destruct ev as [e data | e]; [|destruct Hev].
    apply chat_keeps_context. exact Hc.
  - intros e st result Hget. unfold reload_context, load_global_context.
    cbn [_global_context_cache _compressed_context_cache].
    rewrite Hget, (get_complete_context_truthy e result Hget). reflexivity.
  - intros e st ex Hget. unfold reload_context, load_global_context.
    cbn [_global_context_cache]. rewrite Hget. reflexivity.
  - intros e data st ex user_message history Hget Hnone Hmsg Hne Hhist.
    unfold chat.
    rewrite (get_message_data data user_message Hmsg Hne), Hmsg, Hhist, Hne.
    cbn [negb]. unfold load_global_context. rewrite Hnone, Hget. reflexivity.
Qed.

(** The server that answered one question keeps the header-only context it
    loaded although the admissions file is there at the second question;
    and a reload on a machine whose cache file holds a page that is a
    string fails and leaves no context. *)
Lemma context_kept_until_reload_witness :
  _global_context_cache warmed_up = Some LOCAL_HEADER
  /\ _global_context_cache
       (fold_left handle_event
          [Chat (admissions_server tokens_reply) (asking "And the fee?")] warmed_up)
     = Some LOCAL_HEADER
  /\ reload_context (hand_made_cache_server tokens_reply) warmed_up
     = (startup, ErrorResponse 500 "Failed to reload context" "RELOAD_ERROR").
Proof.
  assert (H : _global_context_cache warmed_up = Some LOCAL_HEADER)
    by (vm_compute; reflexivity).
  split; [exact H|]. split.
  - apply (proj1 context_kept_until_reload _ warmed_up LOCAL_HEADER H).
    constructor; [exact I | constructor].
  - apply (proj1 (proj2 (proj2 context_kept_until_reload))
             (hand_made_cache_server tokens_reply) warmed_up
             (OtherException "string indices must be integers, not 'str'")).
    vm_compute. reflexivity.
Defined.

Lemma chat_keeps_compression e data st r :
  _compressed_context_cache st = Some r ->
  _compressed_context_cache (fst (fst (chat e data st))) = Some r.
Proof.
  intros Hr.
  destruct (load_global_context_cases e st) as [Hkeep _].
  destruct (chat_cases e data st)
    as [(status & message & code & -> & _)
       | (user_message & history & context & _ & _ & _ & _ & Hrest)];
    [exact Hr|].
  cbn zeta in Hrest. destruct (truthy context).
  - destruct Hrest as (-> & _). unfold compress_or_reuse. rewrite Hkeep, Hr.
    cbn. rewrite Hkeep. exact Hr.
  - rewrite Hrest. cbn. rewrite Hkeep. exact Hr.
Qed.

(** X19.  After any sequence of chat and reload requests, a cached
    compression result has a true [successful]; and once a result is
    cached, chat requests never replace it: the first stored compression
    stays until a reload. *)
Theorem compression_cache_kept :
  (forall events r,
      _compressed_context_cache (run events) = Some r ->
      truth (successful r) = true)
  /\ (forall events st r,
         _compressed_context_cache st = Some r ->
         Forall is_chat events ->
         _compressed_context_cache (fold_left handle_event events st) = Some r).
Proof.
  split.
  - intros events r. apply (run_compression_ok events r).
  - intros events. induction events as [|ev events IH]; intros st r Hr Hall; [exact Hr|].
    inversion Hall as [|x l Hev Hrest]; subst. cbn [fold_left].
    apply IH; [|exact Hrest].
    destruct ev as [e data | e]; [|destruct Hev].
    apply chat_keeps_compression. exact Hr.
Qed.

(** The compression of the first question is still the cached one after a
    second question to a service that would now answer otherwise. *)
Lemma compression_cache_kept_witness :
  exists r,
    _compressed_context_cache warmed_up = Some r
    /\ _compressed_context_cache
         (fold_left handle_event
            [Chat (serving bare_reply) (asking "And the fee?")] warmed_up)
       = Some r.
Proof.
  eexists. split; [vm_compute; reflexivity|].
  apply (proj2 compression_cache_kept).
  - vm_compute. reflexivity.
  - constructor; [exact I | constructor].
Defined.

(** ** gemini_client.py *)

Lemma skipn_length_app {A : Type} (old recent : list A) :
  skipn (List.length (old ++ recent) - List.length recent) (old ++ recent) = recent.
Proof.
  rewrite length_app.
  replace (List.length old + List.length recent - List.length recent)
    with (List.length old) by lia.
  induction old as [|x old IH]; [reflexivity | exact IH].
Qed.

(** X20.  [_format_conversation_history] with a positive limit uses the
    last [max_exchanges] exchanges only: whatever came before them does not
    change the text.  With the limit 0 the slice [history[-0:]] is the whole
    list, so every exchange is included, as with no limit at all. *)
Theorem conversation_history_window :
  forall py_str,
    (forall old recent max_exchanges,
        (0 < max_exchanges)%Z ->
        Z.of_nat (List.length recent) = max_exchanges ->
        Gemini._format_conversation_history py_str (old ++ recent) max_exchanges
        = Gemini._format_conversation_history py_str recent max_exchanges)
    /\ (forall history,
           Gemini._format_conversation_history py_str history 0
           = Gemini._format_conversation_history py_str history
               (Z.of_nat (List.length history))).
Proof.
  intros py_str. split.
  - intros old recent max_exchanges Hpos Hlen.
    destruct old as [|x old]; [reflexivity|].
    destruct recent as [|y recent]; [cbn in Hlen; lia|].
    unfold Gemini._format_conversation_history.
    change ((x :: old) ++ y :: recent)%list with (x :: (old ++ y :: recent))%list.
    cbv iota beta.
    change (x :: (old ++ y :: recent))%list with ((x :: old) ++ y :: recent)%list.
    assert (Hlong : (Z.of_nat (List.length ((x :: old) ++ y :: recent))
                     >? max_exchanges)%Z = true).
    { apply Z.gtb_lt. rewrite length_app. cbn [List.length] in *. lia. }
    assert (Hshort : (Z.of_nat (List.length (y :: recent)) >? max_exchanges)%Z = false).
    { rewrite Z.gtb_ltb. apply Z.ltb_ge. lia. }
    rewrite Hlong, Hshort. unfold Gemini.slice_from.
    assert (Hneg : (- max_exchanges <? 0)%Z = true) by (apply Z.ltb_lt; lia).
    rewrite Hneg, Z.opp_involutive, <- Hlen, Nat2Z.id.
    rewrite (skipn_length_app (x :: old) (y :: recent)). reflexivity.
  - intros history. destruct history as [|x history]; [reflexivity|].
    unfold Gemini._format_conversation_history.
    assert (Hlong : (Z.of_nat (List.length (x :: history)) >? 0)%Z = true).
    { apply Z.gtb_lt. cbn [List.length]. lia. }
    assert (Hshort : (Z.of_nat (List.length (x :: history))
                      >? Z.of_nat (List.length (x :: history)))%Z = false).
    { rewrite Z.gtb_ltb. apply Z.ltb_ge. lia. }
    rewrite Hlong, Hshort. reflexivity.
Qed.

(** Of six exchanges the first is left out under the limit of five. *)
Lemma conversation_history_window_witness :
  Gemini._format_conversation_history (fun _ => "") six_exchanges 5
  = Gemini._format_conversation_history (fun _ => "") (tl six_exchanges) 5.
Proof.
  apply (proj1 (conversation_history_window (fun _ => ""))
           [exchange "q1" "a1"] (tl six_exchanges) 5%Z); reflexivity.
Defined.




Lemma format_exchange_error py_str item e :
  Gemini.format_exchange py_str item = Raise e ->
  Gemini._get_error_response e = GENERIC_ERROR.
Proof.
  unfold Gemini.format_exchange.
  destruct item as [| | | | |entries]; cbn; intros [= <-]; reflexivity.
Qed.

Lemma format_exchanges_error py_str items e :
  Gemini.format_exchanges py_str items = Raise e ->
  Gemini._get_error_response e = GENERIC_ERROR.
Proof.
  induction items as [|item items IH]; cbn; [discriminate|].
  destruct (Gemini.format_exchange py_str item) as [lines|e0] eqn:E.
  - destruct (Gemini.format_exchanges py_str items) as [more|e1]; [discriminate|].
    intros [= <-]. apply IH. reflexivity.
  - intros [= <-]. apply (format_exchange_error py_str item e0 E).
Qed.

Lemma build_prompt_error self py_str compressed_prompt conversation_history e :
  Gemini.build_prompt self py_str compressed_prompt conversation_history = Raise e ->
  Gemini._get_error_response e = GENERIC_ERROR.
Proof.
  unfold Gemini.build_prompt.
  destruct (truth conversation_history); [|discriminate].
  destruct conversation_history as [|b|n|s|items|entries]; cbn [Gemini.not_a_list].
  1-4: intros [= <-]; reflexivity.
  - unfold Gemini._format_conversation_history.
    destruct items as [|x items]; [discriminate|].
    destruct (Gemini.format_exchanges py_str _) as [lines|e0] eqn:E.
    + destruct (truthy _); discriminate.
    + intros [= <-]. apply (format_exchanges_error py_str _ e0 E).
  - destruct (5 <? List.length entries)%nat; intros [= <-]; reflexivity.
Qed.

(** X22.  A conversation history that is true but is not a list of JSON
    objects (a string, a number, an object, or a list in which one of the
    last five items is not an object) makes [generate_response] answer with
    the generic apology without calling the model: the answer does not
    depend on what the model would return. *)
Theorem bad_history_gets_generic_answer :
  forall self py_str generate_content compressed_prompt conversation_history,
    ((exists e,
         Gemini.build_prompt self py_str compressed_prompt conversation_history
         = Raise e) ->
     Gemini.client_generate_response self py_str generate_content
       compressed_prompt conversation_history = GENERIC_ERROR)
    /\ (truth conversation_history = true ->
        (forall items, conversation_history <> PList items) ->
        exists e,
          Gemini.build_prompt self py_str compressed_prompt conversation_history
          = Raise e)
    /\ (forall old item recent,
          conversation_history = PList (old ++ item :: recent) ->
          List.length recent < 5 ->
          (forall entries, item <> PDict entries) ->
          exists e,
            Gemini.build_prompt self py_str compressed_prompt conversation_history
            = Raise e).
Proof.
  intros self py_str generate_content compressed_prompt conversation_history.
  split; [|split].
  - intros [e He]. unfold Gemini.client_generate_response. rewrite He.
    apply (build_prompt_error _ _ _ _ e He).
  - intros Htruth Hnot. unfold Gemini.build_prompt. rewrite Htruth.
    destruct conversation_history; try (eexists; reflexivity).
    exfalso. apply (Hnot items). reflexivity.
  - intros old item recent -> Hlen Hitem.
    assert (Hraise : forall l, exists e,
               Gemini.format_exchanges py_str (l ++ item :: recent) = Raise e).
    { induction l as [|x l [e IH]]; cbn.
      - destruct item; cbn; try (eexists; reflexivity).
        exfalso. apply (Hitem entries). reflexivity.
      - destruct (Gemini.format_exchange py_str x); [|eexists; reflexivity].
        rewrite IH. eexists; reflexivity. }
    unfold Gemini.build_prompt.
    assert (Htruth : truth (PList (old ++ item :: recent)) = true)
      by (destruct old; reflexivity).
    rewrite Htruth. unfold Gemini._format_conversation_history.
    destruct (old ++ item :: recent)%list as [|x rest] eqn:Elist;
      [destruct old; discriminate Elist|].
    rewrite <- Elist.
    destruct (Z.of_nat (List.length (old ++ item :: recent)) >? 5)%Z eqn:Elong.
    + apply Z.gtb_lt in Elong. rewrite length_app in Elong. cbn [List.length] in Elong.
      unfold Gemini.slice_from.
      assert (E1 : (Z.opp 5 <? 0)%Z = true) by reflexivity.
      assert (E2 : Z.to_nat (Z.opp (Z.opp 5)) = 5) by reflexivity.
      rewrite E1, E2, length_app. cbn [List.length].
      set (k := List.length old + S (List.length recent) - 5).
      assert (Hk : k <= List.length old) by (unfold k; lia).
      rewrite skipn_app. replace (k - List.length old) with 0 by lia.
      cbn [skipn]. destruct (Hraise (skipn k old)) as [e He].
      rewrite He. eexists; reflexivity.
    + destruct (Hraise old) as [e He]. rewrite He. eexists; reflexivity.
Qed.

(** A history that is a string, with a model that would answer. *)
Lemma bad_history_gets_generic_answer_witness :
  Gemini.client_generate_response sample_client (fun _ => "")
    (fun _ => Ok "The deadline is January 15.") (PStr "ctx") (PStr "earlier chat")
  = GENERIC_ERROR.
Proof.
  destruct (bad_history_gets_generic_answer sample_client (fun _ => "")
              (fun _ => Ok "The deadline is January 15.") (PStr "ctx")
              (PStr "earlier chat")) as (Hgeneric & Hnotlist & _).
  apply Hgeneric. apply Hnotlist; [reflexivity | discriminate].
Defined.

Lemma new_client_cases KEY MODEL SYS :
  (KEY <> "" -> exists self, Gemini.new_client KEY MODEL SYS None None = Ok self)
  /\ (KEY = "" -> exists ex, Gemini.new_client KEY MODEL SYS None None = Raise ex).
Proof.
  unfold Gemini.new_client. cbn [Gemini.or_default]. split.
  - intros Hkey. destruct KEY; [congruence|]. eexists; reflexivity.
  - intros ->. eexists; reflexivity.
Qed.

(** X23.  With a Gemini key configured the client is built and
    [generate_response] turns every failure of the model into an answer, so
    [chat] never replies GEMINI_ERROR; with no key the client cannot be
    built, [generate_response] raises on every call, and no chat request
    ever receives an answer. *)
Theorem chat_and_the_gemini_key :
  forall base KEY MODEL SYS generate_content data st,
    let client := Gemini.new_client KEY MODEL SYS None None in
    let reply := snd (fst (chat (with_gemini base client generate_content) data st)) in
    (KEY <> "" -> forall message, reply <> ErrorResponse 500 message "GEMINI_ERROR")
    /\ (KEY = "" -> forall text stats, reply <> ChatResponse text stats).
Proof.
  intros base KEY MODEL SYS generate_content data st. cbn zeta.
  destruct (new_client_cases KEY MODEL SYS) as [Hset Hunset].
  set (client := Gemini.new_client KEY MODEL SYS None None) in *.
  set (e := with_gemini base client generate_content).
  unfold chat.
  destruct (truth data); cbn [negb]; [|chat_leaf].
  destruct (get_message data) as [user_message|ex]; [|chat_leaf].
  destruct (get data "history" (PList [])) as [history|ex]; [|chat_leaf].
  destruct (truthy user_message); cbn [negb]; [|chat_leaf].
  destruct (load_global_context e st) as [st1 [context|ex]]; [|chat_leaf].
  destruct (truthy context); cbn [negb]; [|chat_leaf].
  destruct (compress_or_reuse e st1 context user_message) as [[st2 cr] sent].
  change (generate_response e (compressed_prompt cr) history)
    with (Gemini.generate_response client (py_str base) generate_content
            (compressed_prompt cr) history).
  unfold Gemini.generate_response. split.
  - intros Hkey message. destruct (Hset Hkey) as [self ->]. cbn. discriminate.
  - intros Hkey text stats. destruct (Hunset Hkey) as [ex ->]. cbn. discriminate.
Qed.

(** The server with the key "g-test" and with no key. *)
Lemma chat_and_the_gemini_key_witness :
  (forall message,
      snd (fst (chat (with_gemini (serving tokens_reply)
                        (Gemini.new_client "g-test" "gemini-2.5-flash" "" None None)
                        blank_model)
                     (asking "What is the deadline?") startup))
      <> ErrorResponse 500 message "GEMINI_ERROR")
  /\ (forall text stats,
         snd (fst (chat (with_gemini (serving tokens_reply)
                           (Gemini.new_client "" "gemini-2.5-flash" "" None None)
                           blank_model)
                        (asking "What is the deadline?") startup))
         <> ChatResponse text stats).
Proof.
  split.
  - apply (proj1 (chat_and_the_gemini_key (serving tokens_reply) "g-test"
                    "gemini-2.5-flash" "" blank_model
                    (asking "What is the deadline?") startup)).
    discriminate.
  - apply (proj2 (chat_and_the_gemini_key (serving tokens_reply) ""
                    "gemini-2.5-flash" "" blank_model
                    (asking "What is the deadline?") startup)).
    reflexivity.
Defined.

(** *** Samples of the outcomes *)



(** A message of spaces is refused and changes nothing. *)
Lemma chat_requests_witness :
  let '(st', reply, sent) :=
    chat (serving tokens_reply) (asking "   ") warmed_up in
  List.length sent <= 1
  /\ (_compressed_context_cache warmed_up <> None -> sent = [])
  /\ (forall message code,
        reply = ErrorResponse 400 message code ->
        st' = warmed_up /\ sent = []
        /\ (code = "INVALID_JSON" \/ code = "EMPTY_MESSAGE")).
Proof.
  exact (chat_requests (serving tokens_reply) (asking "   ") warmed_up).
Defined.

(** ** ingest.py: the complete context *)

Lemma dict_set_recorded k page pages :
  dict_set k (Scraper.scraped_info page) (recorded pages)
  = recorded (dict_set k page pages).
Proof.
  induction pages as [|[k' page'] pages IH]; cbn; [reflexivity|].
  destruct (String.eqb k' k); cbn; [reflexivity|].
  unfold recorded in IH. rewrite IH. reflexivity.
Qed.

(** Every page fetched from the site is recorded as a page dictionary. *)
Lemma scrape_targets_fresh w config todo :
  forall result fs sent pages,
    Scraper.scraped_data result = recorded pages ->
    exists pages',
      Scraper.scraped_data
        (fst (fst (Scraper.scrape_targets w config false todo result fs sent)))
      = recorded pages'.
Proof.
  induction todo as [|target todo IH]; intros result fs sent pages Hpages.
  - exists pages. exact Hpages.
  - cbn [Scraper.scrape_targets andb].
    destruct (Scraper.http_get w _) as [page|e].
    + destruct (Scraper.extract_content page _ []) as [extracted_content|e].
      * eapply IH.
        cbn [Scraper.add_page Scraper.scraped_data]. rewrite Hpages.
        apply dict_set_recorded.
      * apply (IH _ _ _ pages). exact Hpages.
    + apply (IH _ _ _ pages). exact Hpages.
Qed.

Lemma web_parts_recorded py_str pages :
  Context.web_parts py_str (recorded pages)
  = Ok (map (fun kv => (nl ++ "--- From " ++ url (snd kv) ++ " ---" ++ nl,
                        PStr (page_content (snd kv)))) pages).
Proof.
  induction pages as [|[k page] pages IH]; [reflexivity|].
  unfold recorded in *. cbn [map Context.web_parts fst snd].
  rewrite IH. reflexivity.
Qed.

Lemma joinable_recorded i pages :
  Context.joinable i
    (map (fun kv => (nl ++ "--- From " ++ url (snd kv) ++ " ---" ++ nl,
                     PStr (page_content (snd kv)))) pages)
  = Ok (web_parts pages).
Proof.
  revert i. induction pages as [|[k page] pages IH]; intros i; [reflexivity|].
  cbn [map Context.joinable fst snd]. rewrite IH. reflexivity.
Qed.

(** On page dictionaries the merge does not raise, and is the merge of the
    pages. *)
Lemma merge_data_recorded py_str local_data pages errs from_cache :
  Context.merge_data py_str local_data
    {| Scraper.scraped_data := recorded pages; Scraper.errors := errs;
       Scraper.cached := from_cache |}
  = Ok (merge_data local_data
          {| scraped_data := pages; web_errors := errs; cached := from_cache |}).
Proof.
  unfold Context.merge_data, merge_data. cbn [Scraper.scraped_data scraped_data].
  destruct pages as [|page pages]; [reflexivity|].
  change (recorded (page :: pages))
    with ((fst page, Scraper.scraped_info (snd page)) :: recorded pages).
  cbv iota.
  change ((fst page, Scraper.scraped_info (snd page)) :: recorded pages)
    with (recorded (page :: pages)).
  rewrite web_parts_recorded, joinable_recorded.
  rewrite <- app_assoc. reflexivity.
Qed.

(** X24.  Without the cache, [get_complete_context] does not raise: every
    page it merges was recorded by the scraper in this call.  The context
    is the merge of the local corpus with those pages, the errors are those
    of the loader followed by those of the scraper, and when scraping is
    not asked for or is switched off no page is requested, no cache file is
    written and the context is the local section alone. *)
Theorem get_complete_context_without_cache :
  forall py_str local_world COLLEGE_DATA_DIR web_world SCRAPING_CONFIG
         use_web_scraping fs,
    let '(outcome, fs', sent) :=
      Context.get_complete_context py_str local_world COLLEGE_DATA_DIR web_world
        SCRAPING_CONFIG use_web_scraping false fs in
    let local_result := load_local_data local_world COLLEGE_DATA_DIR in
    exists result pages,
      outcome = Ok result
      /\ Context.local_data result = local_result
      /\ Scraper.scraped_data (Context.web_data result) = recorded pages
      /\ Context.context result
         = merge_data local_result
             {| scraped_data := pages;
                web_errors := Scraper.errors (Context.web_data result);
                cached := Scraper.cached (Context.web_data result) |}
      /\ Context.errors result
         = (Ingest.errors local_result
            ++ Scraper.errors (Context.web_data result))%list
      /\ (use_web_scraping && Scraper.SCRAPING_ENABLED web_world = false ->
          pages = [] /\ sent = [] /\ fs' = fs
          /\ Context.context result = local_section local_result).
Proof.
  intros py_str local_world COLLEGE_DATA_DIR web_world SCRAPING_CONFIG
         use_web_scraping fs.
  unfold Context.get_complete_context.
  destruct (use_web_scraping && Scraper.SCRAPING_ENABLED web_world) eqn:Hweb.
  - assert (Hfresh : exists pages,
               Scraper.scraped_data
                 (fst (fst (Scraper.scrape_website web_world SCRAPING_CONFIG false fs)))
               = recorded pages).
    { unfold Scraper.scrape_website.
      destruct (Scraper.SCRAPING_ENABLED web_world); cbn [negb].
      - apply (scrape_targets_fresh _ _ _ _ _ _ []). reflexivity.
      - exists []. reflexivity. }
    destruct (Scraper.scrape_website web_world SCRAPING_CONFIG false fs)
      as [[web_result fs'] sent].
    cbn [fst] in Hfresh. destruct Hfresh as [pages Hpages].
    destruct web_result as [scraped errs from_cache].
    cbn [Scraper.scraped_data] in Hpages. subst scraped.
    rewrite merge_data_recorded. cbn zeta.
    eexists. exists pages. repeat split; discriminate.
  - cbn zeta. rewrite (merge_data_recorded py_str _ [] [] false).
    eexists. exists []. repeat split.
Qed.

(** The site of two pages, fetched without the cache on a machine without
    the data directory: the context holds the page that answered. *)
Lemma get_complete_context_without_cache_witness :
  exists result,
    fst (fst (Context.get_complete_context (fun _ => "") no_files "college_data"
                site_world site_config true false empty_storage))
    = Ok result
    /\ Context.errors result
       = ["Directory not found: college_data";
          "Failed to scrape https://university-website.edu/tuition: Read timed out."].
Proof.
  pose proof (get_complete_context_without_cache (fun _ => "") no_files
                "college_data" site_world site_config true empty_storage) as H.
  destruct (Context.get_complete_context (fun _ => "") no_files "college_data"
              site_world site_config true false empty_storage)
    as [[outcome fs'] sent] eqn:Hrun.
  destruct H as (result & pages & Hok & _ & _ & _ & Herrors & _).
  exists result. split; [exact Hok|].
  rewrite Herrors.
  assert (Hsame : outcome
                  = fst (fst (Context.get_complete_context (fun _ => "") no_files
                                "college_data" site_world site_config true false
                                empty_storage))) by (rewrite Hrun; reflexivity).
  rewrite Hok in Hsame. vm_compute in Hsame. injection Hsame as ->.
  reflexivity.
Defined.
